(** * YCM-Generator [template.py]: a shallow embedding and its properties

    The configuration template computes the compiler flags that the
    completion engine passes to libclang for one file.  This development
    embeds the functions of [template.py] as Rocq functions:

    - a Python [str] is the [string] of its UTF-8 bytes, as a string
      literal of this file is; [str.strip] and the [.] of a regular
      expression work on whole characters, [str.lower] is modelled on the
      ASCII range;
    - [os.path] is the POSIX flavour ([posixpath.py] / [genericpath.py]);
    - the file system is a finite tree of named entries, [os.path.exists],
      [os.walk] and [glob.glob] are evaluated over that tree; what
      [glob.glob] makes of a metacharacter inside the anchor directory is
      a parameter;
    - Python [set]s are [gset string]; iterating a set is [elements];
    - a raised exception is the [Raise] constructor of [py];
    - the [ycm_core] compilation database, which is not part of this
      repository, is a lookup function and the queries sent to it are
      recorded in a log; the module [Fallible] has the lookup as an
      operation that may raise. *)

From Stdlib Require Import Ascii ZArith Bool.
From stdpp Require Import gmap strings list.

Set Warnings "-clear-no-such-hyp".
Local Open Scope Z_scope.

(** ** Python strings *)

Module PyStr.

(** [s.startswith(p)] *)
Fixpoint startswith (s p : string) {struct p} : bool :=
  match p, s with
  | EmptyString, _ => true
  | String _ _, EmptyString => false
  | String a p', String b s' => if Ascii.eqb a b then startswith s' p' else false
  end.

(** [s.endswith(p)] for a one-character [p]. *)
Fixpoint endswith_char (s : string) (c : ascii) : bool :=
  match s with
  | EmptyString => false
  | String a EmptyString => Ascii.eqb a c
  | String _ s' => endswith_char s' c
  end.

(** [s[n:]] for [0 <= n]. *)
Fixpoint drop (n : nat) (s : string) : string :=
  match n, s with
  | O, _ => s
  | S _, EmptyString => EmptyString
  | S n', String _ s' => drop n' s'
  end.

(** The text after the first [n] bytes of [s], when [s] has that many. *)
Fixpoint drop_exact (n : nat) (s : string) : option string :=
  match n, s with
  | O, _ => Some s
  | S _, EmptyString => None
  | S n', String _ s' => drop_exact n' s'
  end.

(** [s[:n]] for [0 <= n]. *)
Fixpoint take (n : nat) (s : string) : string :=
  match n, s with
  | O, _ => EmptyString
  | S _, EmptyString => EmptyString
  | S n', String a s' => String a (take n' s')
  end.

(** Truthiness of a string: [bool(s)]. *)
Definition truthy (s : string) : bool :=
  match s with EmptyString => false | String _ _ => true end.

(** [s.rfind(c)] for a one-character [c]: the highest index of [c], or
    [-1].  [rfind_from] scans left to right, [i] is the index of the head
    of [s] and [acc] the last hit so far. *)
Fixpoint rfind_from (c : ascii) (s : string) (i acc : Z) : Z :=
  match s with
  | EmptyString => acc
  | String a s' => rfind_from c s' (i + 1) (if Ascii.eqb a c then i else acc)
  end.

Definition rfind (s : string) (c : ascii) : Z := rfind_from c s 0 (-1).

(** [s[i:j]] for [0 <= i]. *)
Definition slice (s : string) (i j : Z) : string :=
  take (Z.to_nat (j - i)) (drop (Z.to_nat i) s).

(** [c.lower()] on the ASCII range. *)
Definition lower_char (c : ascii) : ascii :=
  let n := N_of_ascii c in
  if ((65 <=? n) && (n <=? 90))%N then ascii_of_N (n + 32) else c.

(** [s.lower()] *)
Fixpoint lower (s : string) : string :=
  match s with
  | EmptyString => EmptyString
  | String a s' => String (lower_char a) (lower s')
  end.

(** [s.find(sub) >= 0]: [sub] occurs in [s]. *)
Fixpoint contains (s sub : string) : bool :=
  if startswith s sub then true
  else match s with
       | EmptyString => false
       | String _ s' => contains s' sub
       end.

(** White space as [str.strip()] sees it (CPython 3,
    [_PyUnicode_IsWhitespace]), on the UTF-8 form of the text.  One byte:
    tab, line feed, vertical tab, form feed, carriage return, the four
    separators 0x1c-0x1f and the space. *)
Definition is_space (c : ascii) : bool :=
  let n := N_of_ascii c in
  (((9 <=? n) && (n <=? 13)) || ((28 <=? n) && (n <=? 32)))%N.

(** Two bytes: U+0085 and U+00A0. *)
Definition is_space2 (a b : ascii) : bool :=
  ((N_of_ascii a =? 194) && ((N_of_ascii b =? 133) || (N_of_ascii b =? 160)))%N.

(** Three bytes: U+1680, U+2000 to U+200A, U+2028, U+2029, U+202F, U+205F
    and U+3000. *)
Definition is_space3 (a b c : ascii) : bool :=
  let x := N_of_ascii a in
  let y := N_of_ascii b in
  let z := N_of_ascii c in
  (((x =? 225) && (y =? 154) && (z =? 128))
   || ((x =? 226) && (y =? 128)
       && (((128 <=? z) && (z <=? 138)) || (z =? 168) || (z =? 169) || (z =? 175)))
   || ((x =? 226) && (y =? 129) && (z =? 159))
   || ((x =? 227) && (y =? 128) && (z =? 128)))%N.

(** The number of bytes of the white-space character at the head of [s],
    0 when [s] does not start with one. *)
Definition ws_len (s : string) : nat :=
  match s with
  | EmptyString => 0
  | String a s1 =>
      if is_space a then 1
      else match s1 with
           | String b s2 =>
               if is_space2 a b then 2
               else match s2 with
                    | String c _ => if is_space3 a b c then 3 else 0
                    | EmptyString => 0
                    end
           | EmptyString => 0
           end
  end.

(** [s.lstrip()] *)
Fixpoint lstrip (s : string) : string :=
  match s with
  | EmptyString => EmptyString
  | String a s1 =>
      if is_space a then lstrip s1
      else match s1 with
           | String b s2 =>
               if is_space2 a b then lstrip s2
               else match s2 with
                    | String c s3 => if is_space3 a b c then lstrip s3 else s
                    | EmptyString => s
                    end
           | EmptyString => s
           end
  end.

(** [s] consists of white space only. *)
Definition all_space (s : string) : bool := negb (truthy (lstrip s)).

(** [s.rstrip()]: the text before the first position from which only
    white space follows. *)
Fixpoint rstrip (s : string) : string :=
  match s with
  | EmptyString => EmptyString
  | String a s' => if all_space s then EmptyString else String a (rstrip s')
  end.

(** [s.strip()] *)
Definition strip (s : string) : string := rstrip (lstrip s).

(** [s.rstrip(c)] for a one-character [c]. *)
Fixpoint rstrip_char (c : ascii) (s : string) : string :=
  match s with
  | EmptyString => EmptyString
  | String a s' =>
      match rstrip_char c s' with
      | EmptyString => if Ascii.eqb a c then EmptyString else String a EmptyString
      | r => String a r
      end
  end.

(** [s.split(c)] for a one-character separator: [cur] is the piece being
    read. *)
Fixpoint split_go (c : ascii) (s : string) (cur : string) : list string :=
  match s with
  | EmptyString => [String.rev cur]
  | String a s' =>
      if Ascii.eqb a c then String.rev cur :: split_go c s' EmptyString
      else split_go c s' (String a cur)
  end.

Definition split (s : string) (c : ascii) : list string := split_go c s EmptyString.

(** All characters of [s] are [c] ([s == c * len(s)]). *)
Fixpoint all_char (c : ascii) (s : string) : bool :=
  match s with
  | EmptyString => true
  | String a s' => Ascii.eqb a c && all_char c s'
  end.

(** [c] does not occur in [s]. *)
Fixpoint lacks (c : ascii) (s : string) : bool :=
  match s with
  | EmptyString => true
  | String a s' => negb (Ascii.eqb a c) && lacks c s'
  end.

End PyStr.

(** ** [os.path] (POSIX) *)

Module PosixPath.

Definition sep : ascii := "/"%char.
Definition extsep : ascii := "."%char.

(** One step of [posixpath.join]: [b] replaces [path] when it is absolute,
    is appended directly when [path] is empty or ends with the separator,
    and is appended after a separator otherwise. *)
Definition join (path b : string) : string :=
  if PyStr.startswith b "/" then b
  else if negb (PyStr.truthy path) || PyStr.endswith_char path sep then path +:+ b
  else path +:+ "/" +:+ b.

(** [os.path.join(a, *p)] *)
Definition join_all (a : string) (p : list string) : string := fold_left join p a.

(** [genericpath._splitext]: the loop that skips leading dots of the file
    name; [n] bounds the number of iterations left. *)
Fixpoint splitext_scan (p : string) (filenameIndex dotIndex : Z) (n : nat)
  : string * string :=
  match n with
  | O => (p, EmptyString)
  | S n' =>
      if filenameIndex <? dotIndex then
        if negb (String.eqb (PyStr.slice p filenameIndex (filenameIndex + 1)) ".")
        then (PyStr.slice p 0 dotIndex, PyStr.drop (Z.to_nat dotIndex) p)
        else splitext_scan p (filenameIndex + 1) dotIndex n'
      else (p, EmptyString)
  end.

(** [os.path.splitext(p)] *)
Definition splitext (p : string) : string * string :=
  let sepIndex := PyStr.rfind p sep in
  let dotIndex := PyStr.rfind p extsep in
  if sepIndex <? dotIndex
  then splitext_scan p (sepIndex + 1) dotIndex (S (String.length p))
  else (p, EmptyString).

(** [os.path.split(p)] *)
Definition split (p : string) : string * string :=
  let i := PyStr.rfind p sep + 1 in
  let head := PyStr.slice p 0 i in
  let tail := PyStr.drop (Z.to_nat i) p in
  let head :=
    if PyStr.truthy head && negb (PyStr.all_char sep head)
    then PyStr.rstrip_char sep head else head in
  (head, tail).

(** [os.path.basename(p)] *)
Definition basename (p : string) : string :=
  PyStr.drop (Z.to_nat (PyStr.rfind p sep + 1)) p.

End PosixPath.

(** ** Constant definitions of the template *)

Definition SOURCE_EXTENSIONS : list string := [".cpp"; ".cxx"; ".cc"; ".c"; ".m"; ".mm"].
Definition HEADER_EXTENSIONS : list string := [".h"; ".hxx"; ".hpp"; ".hh"].

(** ** [MakeRelativePathsInFlagsAbsolute] *)

Definition path_flags : list string := ["-isystem"; "-I"; "-iquote"; "--sysroot="].

(** Lines 288-293: the effect of the lookahead bit on the token.  The bit
    itself is cleared by the caller. *)
Definition lookahead_rewrite (working_directory : string) (make_next_absolute : bool)
    (flag : string) : string :=
  if make_next_absolute then
    if negb (PyStr.startswith flag "/")
    then PosixPath.join working_directory flag
    else flag
  else flag.

(** Lines 295-303: the loop over [path_flags], with its two [break]s.  It
    returns the token to emit and the lookahead bit for the next token. *)
Fixpoint scan_path_flags (working_directory flag : string) (pfs : list string)
    (new_flag : string) (make_next_absolute : bool) : string * bool :=
  match pfs with
  | [] => (new_flag, make_next_absolute)
  | path_flag :: pfs' =>
      if String.eqb flag path_flag then (new_flag, true)
      else if PyStr.startswith flag path_flag then
        let path := PyStr.drop (String.length path_flag) flag in
        (path_flag +:+ PosixPath.join working_directory path, make_next_absolute)
      else scan_path_flags working_directory flag pfs' new_flag make_next_absolute
  end.

(** The body of the loop over [flags]: the state is the list built so far
    and the lookahead bit. *)
Definition flag_step (working_directory : string) (st : list string * bool)
    (flag : string) : list string * bool :=
  let '(new_flags, make_next_absolute) := st in
  let new_flag := lookahead_rewrite working_directory make_next_absolute flag in
  let '(new_flag, make_next_absolute) :=
    scan_path_flags working_directory flag path_flags new_flag false in
  (if PyStr.truthy new_flag then new_flags ++ [new_flag] else new_flags,
   make_next_absolute).

(** [working_directory] is [None] for Python's [None]; [None] and the empty
    string are the falsy values. *)
Definition MakeRelativePathsInFlagsAbsolute (flags : list string)
    (working_directory : option string) : list string :=
  match working_directory with
  | None => flags
  | Some wd =>
      if negb (PyStr.truthy wd) then flags
      else fst (fold_left (flag_step wd) flags ([], false))
  end.

(** The view of one token used by the statements below: which [break] of
    the inner loop, if any, the token takes. *)
Inductive token_rule : Type :=
  | ExactPathFlag
  | PrefixedPathFlag (path_flag : string)
  | PlainToken.

Fixpoint classify (flag : string) (pfs : list string) : token_rule :=
  match pfs with
  | [] => PlainToken
  | path_flag :: pfs' =>
      if String.eqb flag path_flag then ExactPathFlag
      else if PyStr.startswith flag path_flag then PrefixedPathFlag path_flag
      else classify flag pfs'
  end.

(** The assignment of line 293 is executed for this token. *)
Definition lookahead_rule_fires (make_next_absolute : bool) (flag : string) : bool :=
  make_next_absolute && negb (PyStr.startswith flag "/").

(** The assignment of line 302 is executed for this token. *)
Definition prefix_rule_fires (flag : string) : bool :=
  match classify flag path_flags with PrefixedPathFlag _ => true | _ => false end.

(** The lookahead bit when the loop reaches the token at index [i]. *)
Definition lookahead_at (working_directory : string) (flags : list string) (i : nat) : bool :=
  snd (fold_left (flag_step working_directory) (firstn i flags) ([], false)).

(** ** Exceptions *)

Inductive exn : Type :=
  | OSError (msg : string)
  | AttributeError (msg : string).

Inductive py (A : Type) : Type :=
  | Ok (a : A)
  | Raise (e : exn).
Arguments Ok {A} a.
Arguments Raise {A} e.

Definition py_bind {A B : Type} (m : py A) (k : A -> py B) : py B :=
  match m with
  | Ok a => k a
  | Raise e => Raise e
  end.

(** [try: m  except OSError: h] *)
Definition except_OSError {A : Type} (m : py A) (h : A) : py A :=
  match m with
  | Ok a => Ok a
  | Raise (OSError _) => Ok h
  | Raise e => Raise e
  end.

(** ** The file system *)

#[warnings="-register-all"] Inductive node : Type :=
  | File
  | Dir (entries : list (string * node)).

(** [fs_cwd] is the absolute path of the process's working directory;
    relative paths are resolved against it. *)
Record filesystem : Type := {
  fs_root : list (string * node);
  fs_cwd : string
}.

Module FS.

Fixpoint lookup_entry (name : string) (es : list (string * node)) : option node :=
  match es with
  | [] => None
  | (n, child) :: es' => if String.eqb n name then Some child else lookup_entry name es'
  end.

(** Path resolution, one component at a time.  [stack] holds the
    directories between the root and [cur], nearest first. *)
Fixpoint resolve_from (stack : list node) (cur : node) (comps : list string)
  : option node :=
  match comps with
  | [] => Some cur
  | c :: cs =>
      match cur with
      | File => None
      | Dir es =>
          if String.eqb c "" || String.eqb c "." then resolve_from stack cur cs
          else if String.eqb c ".." then
            match stack with
            | [] => resolve_from [] cur cs
            | parent :: stack' => resolve_from stack' parent cs
            end
          else
            match lookup_entry c es with
            | Some child => resolve_from (cur :: stack) child cs
            | None => None
            end
      end
  end.

Definition resolve (fs : filesystem) (path : string) : option node :=
  if negb (PyStr.truthy path) then None
  else
    let abs := if PyStr.startswith path "/" then path
               else fs_cwd fs +:+ "/" +:+ path in
    resolve_from [] (Dir (fs_root fs)) (PyStr.split abs PosixPath.sep).

(** [os.path.exists(path)] (the tree has no symbolic links, so this is
    [lexists] too). *)
Definition exists_ (fs : filesystem) (path : string) : bool :=
  match resolve fs path with Some _ => true | None => false end.

Definition is_dir (n : node) : bool :=
  match n with Dir _ => true | File => false end.

Definition dirnames (es : list (string * node)) : list string :=
  map fst (filter (fun e => is_dir (snd e)) es).

Definition filenames (es : list (string * node)) : list string :=
  map fst (filter (fun e => negb (is_dir (snd e))) es).

(** [os.walk(top)], top-down: the triple of [top], then the walks of its
    subdirectories in listing order. *)
Fixpoint walk_node (top : string) (n : node)
  : list (string * list string * list string) :=
  match n with
  | File => []
  | Dir es =>
      (top, dirnames es, filenames es)
      :: (fix walk_entries (es : list (string * node)) :=
            match es with
            | [] => []
            | (name, child) :: es' =>
                walk_node (PosixPath.join top name) child ++ walk_entries es'
            end) es
  end.

Definition walk (fs : filesystem) (top : string)
  : list (string * list string * list string) :=
  match resolve fs top with
  | Some n => walk_node top n
  | None => []
  end.

(** [glob._ishidden] *)
Definition ishidden (name : string) : bool := PyStr.startswith name ".".

(** [glob._glob1(dirname, '*', dironly=True)]: the directories listed in
    [dirname] whose name does not start with a dot. *)
Definition glob1_star (fs : filesystem) (dirname : string) : list string :=
  match resolve fs dirname with
  | Some (Dir es) => filter (fun n => negb (ishidden n)) (dirnames es)
  | _ => []
  end.

(** [glob._glob0(dirname, basename)] for a non-empty [basename]. *)
Definition glob0 (fs : filesystem) (dirname basename : string) : list string :=
  if exists_ fs (PosixPath.join dirname basename) then [basename] else [].

(** [glob.has_magic]: one of the characters [*], [?] and [[] occurs. *)
Fixpoint has_magic (s : string) : bool :=
  match s with
  | EmptyString => false
  | String a s' =>
      Ascii.eqb a "*" || Ascii.eqb a "?" || Ascii.eqb a "[" || has_magic s'
  end.

(** The last two levels of [glob.glob(os.path.join(base, '*', basename))]
    below one directory [base] that the level above has produced: the
    wildcard level over the entries of [base], then the literal
    [basename]. *)
Definition glob_star_file (fs : filesystem) (base basename : string) : list string :=
  flat_map
    (fun dirname => map (PosixPath.join dirname) (glob0 fs dirname basename))
    (map (PosixPath.join base) (glob1_star fs base)).

(** Entry names of a real directory: not empty, no separator. *)
Definition wf_name (name : string) : bool :=
  PyStr.truthy name && PyStr.lacks PosixPath.sep name.

Fixpoint wf_node (n : node) : bool :=
  match n with
  | File => true
  | Dir es =>
      (fix wf_entries (es : list (string * node)) :=
         match es with
         | [] => true
         | (name, child) :: es' => wf_name name && wf_node child && wf_entries es'
         end) es
  end.

Definition wf (fs : filesystem) : bool := wf_node (Dir (fs_root fs)).

End FS.

(** ** The directory guessers

    [anchor] is the value of [DirectoryOfThisScript()]: the absolute path
    of the directory that holds the configuration file. *)

(** The set comprehension of lines 233-235. *)
Definition subdir_extensions (file_list : list string) : gset string :=
  list_to_set
    (map PyStr.lower
       (filter (fun e => PyStr.truthy e = true)
          (map (fun f => snd (PosixPath.splitext f)) file_list))).

(** The body of the loop of [TraverseByDepth]; the state is [is_root] and
    [result], [include_extensions] is the lower-cased filter. *)
Definition traverse_step (include_extensions : option (gset string))
    (st : bool * gset string) (entry : string * list string * list string)
    : bool * gset string :=
  let '(is_root, result) := st in
  let '(root_dir, subdirs, file_list) := entry in
  if negb is_root then
    match include_extensions with
    | Some exts =>
        if bool_decide (exts ≠ ∅) then
          if bool_decide (subdir_extensions file_list ∩ exts ≠ ∅)
          then (is_root, result ∪ {[root_dir]})
          else (is_root, result)
        else (is_root, result ∪ {[root_dir]})
    | None => (is_root, result ∪ {[root_dir]})
    end
  else (false, result).

Definition TraverseByDepth (fs : filesystem) (root : string)
    (include_extensions : option (gset string)) : gset string :=
  let include_extensions :=
    match include_extensions with
    | Some exts => if bool_decide (exts ≠ ∅) then Some (set_map PyStr.lower exts) else Some exts
    | None => None
    end in
  snd (fold_left (traverse_step include_extensions) (FS.walk fs root) (true, ∅)).

(** The loop of [GuessSourceDirectory] over its candidates. *)
Fixpoint first_existing (fs : filesystem) (anchor : string) (candidates : list string)
  : py string :=
  match candidates with
  | [] => Raise (OSError "Source directory cannot be guessed.")
  | candidate :: rest =>
      let result := PosixPath.join anchor candidate in
      if FS.exists_ fs result then Ok result else first_existing fs anchor rest
  end.

Definition GuessSourceDirectory (fs : filesystem) (anchor : string) : py string :=
  first_existing fs anchor ["src"; "source"; "lib"; PosixPath.basename anchor].

(** The loop of lines 166-171 over [('include', 'includes')]. *)
Fixpoint first_external (fs : filesystem) (anchor : string) (names : list string)
  : gset string :=
  match names with
  | [] => ∅
  | external :: rest =>
      let external_include_path := PosixPath.join anchor external in
      if FS.exists_ fs external_include_path
      then TraverseByDepth fs external_include_path None
      else first_external fs anchor rest
  end.

Definition GuessIncludeDirectory (fs : filesystem) (anchor : string) : py (list string) :=
  py_bind
    (except_OSError
       (py_bind (GuessSourceDirectory fs anchor) (fun guessed =>
          let source_dir := PosixPath.join anchor guessed in
          Ok (TraverseByDepth fs source_dir (Some (list_to_set HEADER_EXTENSIONS)))))
       ∅)
    (fun include_dir_set =>
       let external_include_dir_set := first_external fs anchor ["include"; "includes"] in
       Ok (map (fun include_dir => "-I" +:+ include_dir) (elements include_dir_set)
           ++ map (fun include_dir => "-I" +:+ include_dir)
                (elements external_include_dir_set))).

(** [glob.glob] applied to a directory pattern that holds metacharacters
    (the recursive call of [glob._iglob] on the directory part of a
    pattern).  The pattern language of [fnmatch] is library code that is
    not modelled: this part of the evaluation is a parameter, and the
    statements hold for every value of it. *)
Definition glob_oracle : Type := string -> list string.

(** [glob.glob] on the pattern of line 123,
    [anchor/../../*/compile_commands.json].  [os.path.split] cuts the
    pattern into the directory part [anchor/../..], the wildcard [*] and the
    literal file name.  The anchor is not escaped: when the directory part
    holds a metacharacter it is expanded as a pattern ([glob_magic]),
    otherwise it is taken as it is. *)
Definition glob_compile_commands (fs : filesystem) (glob_magic : glob_oracle)
    (anchor : string) : list string :=
  let base := PosixPath.join_all anchor [".."; ".."] in
  let dirs := if FS.has_magic base then glob_magic base else [base] in
  flat_map (fun dirname => FS.glob_star_file fs dirname "compile_commands.json") dirs.

Definition GuessBuildDirectory (fs : filesystem) (glob_magic : glob_oracle)
    (anchor : string) : py string :=
  let result := PosixPath.join anchor "build" in
  if FS.exists_ fs result then Ok result
  else
    let result := glob_compile_commands fs glob_magic anchor in
    match result with
    | [] => Raise (OSError "Build directory cannot be guessed.")
    | first :: _ =>
        if negb (Nat.eqb 1 (length result))
        then Raise (OSError "Build directory cannot be guessed.")
        else Ok (fst (PosixPath.split first))
    end.

(** ** [LoadSystemIncludes]

    [output] is the decoded text that the compiler process wrote to its
    standard output and standard error. *)

(** A pattern element: a literal character, or [.] under [re.DOTALL],
    which matches one character of the text, that is one to four bytes of
    its UTF-8 form. *)
Definition literal (s : string) : list (option ascii) :=
  map Some (String.list_ascii_of_string s).

(** [(?:\#include \<...\> search starts here\:)]: the three dots of the
    pattern are not escaped. *)
Definition start_marker : list (option ascii) :=
  literal "#include <" ++ [None; None; None] ++ literal "> search starts here:".

Definition end_marker : string := "End of search list".

(** The number of bytes of the UTF-8 character that starts with byte [a]. *)
Definition char_len (a : ascii) : nat :=
  let n := N_of_ascii a in
  if (n <? 192)%N then 1 else if (n <? 224)%N then 2 else if (n <? 240)%N then 3 else 4.

(** The text after the first character of [s]. *)
Definition skip_char (s : string) : option string :=
  match s with
  | EmptyString => None
  | String a s' => PyStr.drop_exact (Nat.pred (char_len a)) s'
  end.

(** Match [pat] at the head of [s]; the result is what follows the match. *)
Fixpoint match_pattern (pat : list (option ascii)) (s : string) {struct pat}
  : option string :=
  match pat with
  | [] => Some s
  | None :: pat' =>
      match skip_char s with
      | Some rest => match_pattern pat' rest
      | None => None
      end
  | Some c :: pat' =>
      match s with
      | EmptyString => None
      | String a s' => if Ascii.eqb a c then match_pattern pat' s' else None
      end
  end.

(** The first occurrence of [sub] in [s]: the text before it and the text
    after it.  This is what the lazy group [(?P<list>.*?)] followed by a
    literal selects. *)
Fixpoint find_sub (sub s : string) : option (string * string) :=
  if PyStr.startswith s sub then Some (EmptyString, PyStr.drop (String.length sub) s)
  else match s with
       | EmptyString => None
       | String a s' =>
           match find_sub sub s' with
           | Some (before, after) => Some (String a before, after)
           | None => None
           end
       end.

(** The regular expression matched at the head of [s]: the start marker,
    then the shortest text that is followed by the end marker.  The result
    is the group [list]. *)
Definition match_here (s : string) : option string :=
  match match_pattern start_marker s with
  | Some rest =>
      match find_sub end_marker rest with
      | Some (lst, _) => Some lst
      | None => None
      end
  | None => None
  end.

(** [re.search(regex, output)]: the group [list] of the leftmost match. *)
Fixpoint search_list (output : string) : option string :=
  match match_here output with
  | Some lst => Some lst
  | None =>
      match output with
      | EmptyString => None
      | String _ output' => search_list output'
      end
  end.

(** The start marker as the compiler prints it. *)
Definition start_literal : string := "#include <...> search starts here:".

(** The body of the loop of lines 89-93. *)
Definition include_step (includes : list string) (p : string) : list string :=
  let p := PyStr.strip p in
  if (0 <? Z.of_nat (String.length p)) && negb (PyStr.contains p "(framework directory)")
  then (includes ++ ["-isystem"]) ++ [p]
  else includes.

Definition LoadSystemIncludes (output : string) : py (list string) :=
  match search_list output with
  | None => Raise (AttributeError "'NoneType' object has no attribute 'group'")
  | Some lst => Ok (fold_left include_step (PyStr.split lst "010"%char) [])
  end.

(** The extraction in the words of the specification: trim each line of
    the region, drop the blank ones, drop the framework directories, emit
    each surviving path after an [-isystem] token. *)
Definition isystem_pairs (region : string) : list string :=
  flat_map (fun path => ["-isystem"; path])
    (filter (fun p => PyStr.contains p "(framework directory)" = false)
       (filter (fun p => p ≠ EmptyString)
          (map PyStr.strip (PyStr.split region "010"%char)))).

(** ** The compilation database *)

Record CompilationInfo : Type := {
  compiler_flags_ : list string;
  compiler_working_dir_ : string
}.

(** Modelled from the spec: the [ycm_core.CompilationDatabase] object,
    whose code is not part of this repository.  Its lookup is given a file
    name and returns a record of a flag list and a working directory, an
    empty record when the file is unknown.  The handle and the records are
    objects without a length, hence truthy. *)
Definition Database : Type := string -> CompilationInfo.

(** Computations that query the database: the state is the list of the
    file names asked so far, oldest first. *)
Definition DbM (A : Type) : Type := list string -> A * list string.

Definition db_ret {A : Type} (a : A) : DbM A := fun log => (a, log).

Definition db_bind {A B : Type} (m : DbM A) (k : A -> DbM B) : DbM B :=
  fun log => let '(a, log') := m log in k a log'.

(** [database.GetCompilationInfoForFile(name)] *)
Definition db_query (database : Database) (name : string) : DbM CompilationInfo :=
  fun log => (database name, log ++ [name]).

(** The result and the queries of a computation started with an empty log. *)
Definition db_result {A : Type} (m : DbM A) : A := fst (m []).
Definition db_queries {A : Type} (m : DbM A) : list string := snd (m []).

Definition IsHeaderFile (filename : string) : bool :=
  let extension := PyStr.lower (snd (PosixPath.splitext filename)) in
  existsb (String.eqb extension) HEADER_EXTENSIONS.

(** The loop of lines 331-337 over [SOURCE_EXTENSIONS]. *)
Fixpoint try_source_extensions (database : Database) (fs : filesystem)
    (basename : string) (extensions : list string) : DbM (option CompilationInfo) :=
  match extensions with
  | [] => db_ret None
  | extension :: rest =>
      let replacement_file := basename +:+ extension in
      if FS.exists_ fs replacement_file then
        db_bind (db_query database replacement_file) (fun compilation_info =>
          match compiler_flags_ compilation_info with
          | _ :: _ => db_ret (Some compilation_info)
          | [] => try_source_extensions database fs basename rest
          end)
      else try_source_extensions database fs basename rest
  end.

Definition GetCompilationInfoForFile (database : option Database) (fs : filesystem)
    (filename : string) : DbM (option CompilationInfo) :=
  match database with
  | None => db_ret None
  | Some db =>
      if IsHeaderFile filename then
        let basename := fst (PosixPath.splitext filename) in
        try_source_extensions db fs basename SOURCE_EXTENSIONS
      else db_bind (db_query db filename) (fun info => db_ret (Some info))
  end.

(** ** The module and [FlagsForFile] *)

(** The module-level names that [FlagsForFile] reads. *)
Record module_state : Type := {
  flags : list string;
  database : option Database;
  system_includes : list string;
  anchor_directory : string
}.

(** The dictionary returned by [FlagsForFile]. *)
Record flags_result : Type := {
  result_flags : list string;
  do_cache : bool
}.

Definition FlagsForFile (m : module_state) (fs : filesystem) (filename : string)
  : DbM (option flags_result) :=
  match database m with
  | Some _ =>
      db_bind (GetCompilationInfoForFile (database m) fs filename) (fun compilation_info =>
        match compilation_info with
        | None => db_ret None
        | Some info =>
            let final_flags :=
              MakeRelativePathsInFlagsAbsolute (compiler_flags_ info)
                (Some (compiler_working_dir_ info)) ++ system_includes m in
            db_ret (Some {| result_flags := final_flags; do_cache := true |})
        end)
  | None =>
      let relative_to := anchor_directory m in
      let final_flags := MakeRelativePathsInFlagsAbsolute (flags m) (Some relative_to) in
      db_ret (Some {| result_flags := final_flags; do_cache := true |})
  end.

(** ** The database calls as operations that may raise *)

(** [GetCompilationInfoForFile] and [FlagsForFile] once more, statement by
    statement, for a handle whose lookup may raise, as a call into an
    extension module may: lines 335 and 339 call it outside any [try], so
    that its exception leaves [FlagsForFile].  The definitions above are
    these for a handle that keeps the lookup contract and returns a record
    at every name. *)
Module Fallible.

Definition Database : Type := string -> py CompilationInfo.


Definition db_ret {A : Type} (a : A) : DbM (py A) := fun log => (Ok a, log).

Definition db_bind {A B : Type} (m : DbM (py A)) (k : A -> DbM (py B)) : DbM (py B) :=
  fun log =>
    let '(r, log') := m log in
    match r with
    | Ok a => k a log'
    | Raise e => (Raise e, log')
    end.

(** [database.GetCompilationInfoForFile(name)] *)
Definition db_query (database : Database) (name : string) : DbM (py CompilationInfo) :=
  fun log => (database name, log ++ [name]).

Fixpoint try_source_extensions (database : Database) (fs : filesystem)
    (basename : string) (extensions : list string)
  : DbM (py (option CompilationInfo)) :=
  match extensions with
  | [] => db_ret None
  | extension :: rest =>
      let replacement_file := basename +:+ extension in
      if FS.exists_ fs replacement_file then
        db_bind (db_query database replacement_file) (fun compilation_info =>
          match compiler_flags_ compilation_info with
          | _ :: _ => db_ret (Some compilation_info)
          | [] => try_source_extensions database fs basename rest
          end)
      else try_source_extensions database fs basename rest
  end.

Definition GetCompilationInfoForFile (database : option Database) (fs : filesystem)
    (filename : string) : DbM (py (option CompilationInfo)) :=
  match database with
  | None => db_ret None
  | Some db =>
      if IsHeaderFile filename then
        let basename := fst (PosixPath.splitext filename) in
        try_source_extensions db fs basename SOURCE_EXTENSIONS
      else db_bind (db_query db filename) (fun info => db_ret (Some info))
  end.

Record module_state : Type := {
  flags : list string;
  database : option Database;
  system_includes : list string;
  anchor_directory : string
}.

Definition FlagsForFile (m : module_state) (fs : filesystem) (filename : string)
  : DbM (py (option flags_result)) :=
  match database m with
  | Some _ =>
      db_bind (GetCompilationInfoForFile (database m) fs filename) (fun compilation_info =>
        match compilation_info with
        | None => db_ret None
        | Some info =>
            let final_flags :=
              MakeRelativePathsInFlagsAbsolute (compiler_flags_ info)
                (Some (compiler_working_dir_ info)) ++ system_includes m in
            db_ret (Some {| result_flags := final_flags; do_cache := true |})
        end)
  | None =>
      let relative_to := anchor_directory m in
      let final_flags := MakeRelativePathsInFlagsAbsolute (flags m) (Some relative_to) in
      db_ret (Some {| result_flags := final_flags; do_cache := true |})
  end.

End Fallible.




(** The user-editable part of the template. *)
Record options : Type := {
  GUESS_BUILD_DIRECTORY : bool;
  GUESS_INCLUDE_PATH : bool;
  static_flags : list string;
  compilation_database_folder : string
}.

(** The statements executed when the module is loaded (lines 258-273);
    [open_database] stands for the constructor
    [ycm_core.CompilationDatabase]. *)
Definition load_module (opts : options) (fs : filesystem) (glob_magic : glob_oracle)
    (anchor output : string) (open_database : string -> Database) : py module_state :=
  py_bind
    (if GUESS_INCLUDE_PATH opts
     then py_bind (GuessIncludeDirectory fs anchor) (fun guessed =>
            Ok (static_flags opts ++ guessed))
     else Ok (static_flags opts))
    (fun flags =>
  py_bind
    (if GUESS_BUILD_DIRECTORY opts
     then except_OSError (GuessBuildDirectory fs glob_magic anchor) ""
     else Ok (compilation_database_folder opts))
    (fun folder =>
  let database :=
    if FS.exists_ fs folder then Some (open_database folder) else None in
  py_bind (LoadSystemIncludes output) (fun system_includes =>
  Ok {| flags := flags ++ system_includes;
        database := database;
        system_includes := system_includes;
        anchor_directory := anchor |}))).

(** ** Views used by the statements about the rewrite *)

(** The token emitted for [flag] and the lookahead bit after it, as
    computed by one iteration of the loop. *)
Definition token_out (working_directory : string) (make_next_absolute : bool)
    (flag : string) : string * bool :=
  scan_path_flags working_directory flag path_flags
    (lookahead_rewrite working_directory make_next_absolute flag) false.

(** The tokens appended by the loop from a given lookahead bit on. *)
Fixpoint rewrite_from (working_directory : string) (make_next_absolute : bool)
    (flags : list string) : list string :=
  match flags with
  | [] => []
  | flag :: rest =>
      let '(new_flag, next) := token_out working_directory make_next_absolute flag in
      (if PyStr.truthy new_flag then [new_flag] else [])
      ++ rewrite_from working_directory next rest
  end.

(** Every path value of the list starts with the separator: the token after
    an exact path flag, and the suffix of a token that starts with a path
    flag.  [after_exact] tells whether the previous token was an exact path
    flag. *)
Fixpoint paths_absolute (after_exact : bool) (flags : list string) : bool :=
  match flags with
  | [] => true
  | flag :: rest =>
      (if after_exact then PyStr.startswith flag "/" else true)
      && match classify flag path_flags with
         | PrefixedPathFlag pf =>
             PyStr.startswith (PyStr.drop (String.length pf) flag) "/"
         | _ => true
         end
      && paths_absolute
           (match classify flag path_flags with ExactPathFlag => true | _ => false end)
           rest
  end.

(** ** [DirectoryOfThisScript]

    [file] is the value of [__file__] and [cwd] the value of [os.getcwd()],
    an absolute path. *)

(** [sep.join(comps)] *)
Fixpoint str_join (sep : string) (comps : list string) : string :=
  match comps with
  | [] => ""
  | [comp] => comp
  | comp :: rest => comp +:+ sep +:+ str_join sep rest
  end.

(** The number of leading slashes that [normpath] keeps: POSIX allows
    exactly two of them to be significant. *)
Definition initial_slashes (path : string) : nat :=
  if PyStr.startswith path "/" then
    if PyStr.startswith path "//" && negb (PyStr.startswith path "///") then 2 else 1
  else 0.

(** The loop of [posixpath.normpath] over the components. *)
Fixpoint normpath_loop (slashes : nat) (comps new_comps : list string) : list string :=
  match comps with
  | [] => new_comps
  | comp :: rest =>
      if String.eqb comp "" || String.eqb comp "." then
        normpath_loop slashes rest new_comps
      else if negb (String.eqb comp "..")
              || (Nat.eqb slashes 0 && match new_comps with [] => true | _ => false end)
              || match last new_comps with
                 | Some l => String.eqb l ".."
                 | None => false
                 end
      then normpath_loop slashes rest (new_comps ++ [comp])
      else
        match new_comps with
        | [] => normpath_loop slashes rest new_comps
        | _ => normpath_loop slashes rest (removelast new_comps)
        end
  end.

(** [os.path.normpath(path)] *)
Definition normpath (path : string) : string :=
  if negb (PyStr.truthy path) then "."
  else
    let slashes := initial_slashes path in
    let comps := normpath_loop slashes (PyStr.split path PosixPath.sep) [] in
    let path := str_join "/" comps in
    let path :=
      match slashes with
      | O => path
      | _ => str_join "" (repeat "/" slashes) +:+ path
      end in
    if PyStr.truthy path then path else ".".

(** [os.path.abspath(path)] *)
Definition abspath (cwd path : string) : string :=
  normpath (if negb (PyStr.startswith path "/") then PosixPath.join cwd path else path).

(** [os.path.dirname(p)] *)
Definition dirname (p : string) : string := fst (PosixPath.split p).

Definition DirectoryOfThisScript (cwd file : string) : string :=
  dirname (abspath cwd file).

(** ** Views used by the statements about the lookup and the guessers *)

(** A substituted path qualifies when it exists on disk and its record has
    a non-empty flag list. *)
Definition qualifies (db : Database) (fs : filesystem) (base extension : string) : bool :=
  FS.exists_ fs (base +:+ extension)
  && match compiler_flags_ (db (base +:+ extension)) with [] => false | _ => true end.

(** The test of [TraverseByDepth] on a directory below the root, for the
    lower-cased filter [include_extensions]. *)
Definition selected (include_extensions : option (gset string))
    (entry : string * list string * list string) : bool :=
  match include_extensions with
  | Some exts =>
      if bool_decide (exts ≠ ∅)
      then bool_decide (subdir_extensions entry.2 ∩ exts ≠ ∅)
      else true
  | None => true
  end.

(** The filter as it is used inside the loop of [TraverseByDepth]. *)
Definition lowered (include_extensions : option (gset string)) : option (gset string) :=
  match include_extensions with
  | Some exts => if bool_decide (exts ≠ ∅) then Some (set_map PyStr.lower exts) else Some exts
  | None => None
  end.

(** ** Fixtures: the end-to-end scenarios of the specification *)

(** Scenario A: [src/a.hpp], no [include] folder. *)
Definition scenario_A_fs : filesystem :=
  {| fs_root := [("anchor", Dir [("src", Dir [("a.hpp", File)])])];
     fs_cwd := "/" |}.

(** Scenario A with the header one level down, next to a directory without
    headers. *)
Definition scenario_A_nested_fs : filesystem :=
  {| fs_root :=
       [("anchor",
         Dir [("src", Dir [("a.hpp", File);
                           ("detail", Dir [("b.HH", File)]);
                           ("impl", Dir [("c.cpp", File)])])])];
     fs_cwd := "/" |}.

(** Scenario B: an empty [include] folder and nothing else. *)
Definition scenario_B_fs : filesystem :=
  {| fs_root := [("anchor", Dir [("include", Dir [])])];
     fs_cwd := "/" |}.

(** Build directories two levels above the anchor [/p/q/anchor]. *)
Definition one_build_fs : filesystem :=
  {| fs_root :=
       [("p", Dir [("q", Dir [("anchor", Dir [])]);
                   ("out", Dir [("compile_commands.json", File)]);
                   (".cache", Dir [("compile_commands.json", File)]);
                   ("notes", File)])];
     fs_cwd := "/" |}.

(** The expansion on a tree where no directory pattern with a
    metacharacter matches anything; it is not consulted for an anchor
    without one. *)
Definition no_magic : glob_oracle := fun _ => [].

(** An anchor whose name holds a character class, with a sibling that the
    class matches. *)
Definition bracket_fs : filesystem :=
  {| fs_root :=
       [("p", Dir [("q", Dir [("a[n]chor", Dir []); ("anchor", Dir [])]);
                   ("out", Dir [("compile_commands.json", File)])])];
     fs_cwd := "/" |}.

(** The same without the sibling: [glob.glob] yields nothing for the
    directory pattern [/p/q/a[n]chor/../..], as the class matches the
    letter [n] and not the text [[n]]. *)
Definition bracket_alone_fs : filesystem :=
  {| fs_root :=
       [("p", Dir [("q", Dir [("a[n]chor", Dir [])]);
                   ("out", Dir [("compile_commands.json", File)])])];
     fs_cwd := "/" |}.

(** What [glob.glob] yields on [bracket_fs] for the directory pattern
    [/p/q/a[n]chor/../..]: the class matches the sibling [anchor] only. *)
Definition bracket_glob : glob_oracle := fun pattern =>
  if String.eqb pattern "/p/q/a[n]chor/../.." then ["/p/q/anchor/../.."] else [].

Definition two_builds_fs : filesystem :=
  {| fs_root :=
       [("p", Dir [("q", Dir [("anchor", Dir [("build", Dir [])]); ("other", Dir [])]);
                   ("debug", Dir [("compile_commands.json", File)]);
                   ("release", Dir [("compile_commands.json", File)])])];
     fs_cwd := "/" |}.

Definition scenario_D_fs : filesystem :=
  {| fs_root := [("p", Dir [("foo.h", File); ("foo.cpp", File); ("foo.cc", File)])];
     fs_cwd := "/p" |}.

Definition scenario_D_db : Database := fun name =>
  if String.eqb name "/p/foo.cpp"
  then {| compiler_flags_ := ["-Iinc"; "-DX"]; compiler_working_dir_ := "/p/build" |}
  else if String.eqb name "/p/foo.cc"
  then {| compiler_flags_ := ["-DY"]; compiler_working_dir_ := "/p/build" |}
  else {| compiler_flags_ := []; compiler_working_dir_ := "" |}.

Definition scenario_D_module : module_state :=
  {| flags := ["-Wall"];
     database := Some scenario_D_db;
     system_includes := ["-isystem"; "/usr/include/c++"];
     anchor_directory := "/p" |}.




(** The end of what [clang -v -E -x c++ -] prints on a machine that has
    framework directories. *)
Definition clang_output : string :=
  "clang version 14.0.0
#include <...> search starts here:
 /usr/local/include
 /usr/lib/clang/14.0.0/include
 /System/Library/Frameworks (framework directory)

 /usr/include	
End of search list.
".

(** U+00A0, the no-break space, and U+2003, the em space, in UTF-8. *)
Definition no_break_space : string := String "194" (String "160" "").
Definition em_space : string := String "226" (String "128" (String "131" "")).

(** A search list whose only line ends with a no-break space, behind a
    start marker that holds three characters of two and three bytes in the
    place of the dots. *)
Definition clang_output_unicode : string :=
  "#include <" +:+ no_break_space +:+ em_space +:+ no_break_space
  +:+ "> search starts here:
 /usr/include" +:+ no_break_space +:+ "
End of search list.
".

(** The same with two characters only in the place of the dots. *)
Definition clang_output_two_dots : string :=
  "#include <" +:+ em_space +:+ em_space
  +:+ "> search starts here:
 /usr/include
End of search list.
".

(** The set that the [try] block of [GuessIncludeDirectory] leaves in
    [include_dir_set]. *)
Definition source_set (fs : filesystem) (anchor : string) : gset string :=
  match GuessSourceDirectory fs anchor with
  | Ok guessed =>
      TraverseByDepth fs (PosixPath.join anchor guessed)
        (Some (list_to_set HEADER_EXTENSIONS))
  | Raise _ => ∅
  end.

(** An [include] folder with a subdirectory without headers, next to an
    [includes] folder and a [lib] folder with a header one level down. *)
Definition include_tree_fs : filesystem :=
  {| fs_root :=
       [("anchor",
         Dir [("include", Dir [("vendor", Dir [("README", File)]); ("a.txt", File)]);
              ("includes", Dir [("other", Dir [])]);
              ("lib", Dir [("core", Dir [("core.hxx", File)])])])];
     fs_cwd := "/" |}.

(** * Properties *)

Example MakeRelative_two_forms :
  MakeRelativePathsInFlagsAbsolute ["--sysroot=../foo"; "-I"; "../foo"; "-Wall"]
    (Some "/project/build")
  = ["--sysroot=/project/build/../foo"; "-I"; "/project/build/../foo"; "-Wall"].
Proof. reflexivity. Qed.

Example IsHeaderFile_examples :
  IsHeaderFile "Foo.H" = true /\ IsHeaderFile "foo.h" = true
  /\ IsHeaderFile "foo.cpp" = false /\ IsHeaderFile "dir.h/foo" = false
  /\ IsHeaderFile ".hpp" = false.
Proof. repeat split; reflexivity. Qed.

Example splitext_examples :
  PosixPath.splitext "/a.b/foo.tar.H" = ("/a.b/foo.tar", ".H")
  /\ PosixPath.splitext "/a.b/.bashrc" = ("/a.b/.bashrc", "")
  /\ PosixPath.splitext "/a.b/foo" = ("/a.b/foo", "")
  /\ PosixPath.splitext "..x.h" = ("..x", ".h")
  /\ PosixPath.split "/a/b/../../x/compile_commands.json" = ("/a/b/../../x", "compile_commands.json")
  /\ PosixPath.split "/x" = ("/", "x")
  /\ PosixPath.split "//x" = ("//", "x")
  /\ PosixPath.split "a//x" = ("a", "x")
  /\ PyStr.split "a
 b
" "010"%char = ["a"; " b"; ""]
  /\ PyStr.strip "  b c	 " = "b c".
Proof. repeat split; reflexivity. Qed.


(** ** Strings and paths *)

Section StringFacts.

Lemma str_app_cons (a : ascii) (s t : string) : String a s +:+ t = String a (s +:+ t).
Proof. reflexivity. Qed.

Lemma str_app_empty_l (s : string) : "" +:+ s = s.
Proof. reflexivity. Qed.

Lemma str_app_empty_r (s : string) : s +:+ "" = s.
Proof. induction s as [|a s IH]; [done|]. by rewrite str_app_cons, IH. Qed.

Lemma str_app_assoc (s t u : string) : (s +:+ t) +:+ u = s +:+ t +:+ u.
Proof. induction s as [|a s IH]; [done|]. by rewrite !str_app_cons, IH. Qed.

Lemma str_length_app (s t : string) :
  String.length (s +:+ t) = (String.length s + String.length t)%nat.
Proof. induction s as [|a s IH]; [done|]. rewrite str_app_cons. simpl. by rewrite IH. Qed.

Lemma truthy_iff (s : string) : PyStr.truthy s = true <-> s ≠ "".
Proof. destruct s; simpl; split; congruence. Qed.

Lemma truthy_false_iff (s : string) : PyStr.truthy s = false <-> s = "".
Proof. destruct s; simpl; split; congruence. Qed.

Lemma truthy_app_l (s t : string) : PyStr.truthy s = true -> PyStr.truthy (s +:+ t) = true.
Proof. by destruct s. Qed.

Lemma truthy_app_r (s t : string) : PyStr.truthy t = true -> PyStr.truthy (s +:+ t) = true.
Proof. destruct s; [done|]. by rewrite str_app_cons. Qed.

Lemma startswith_split (s p : string) :
  PyStr.startswith s p = true -> s = p +:+ PyStr.drop (String.length p) s.
Proof.
  revert s. induction p as [|a p IH]; intros s H; [done|].
  destruct s as [|b s]; [done|]. simpl in H.
  destruct (Ascii.eqb_spec a b) as [->|]; [|done].
  rewrite str_app_cons. simpl. f_equal. by apply IH.
Qed.

Lemma startswith_app (p s : string) : PyStr.startswith (p +:+ s) p = true.
Proof.
  induction p as [|a p IH]; [done|]. rewrite str_app_cons. simpl.
  by rewrite Ascii.eqb_refl.
Qed.

Lemma str_drop_app (p s : string) : PyStr.drop (String.length p) (p +:+ s) = s.
Proof. induction p as [|a p IH]; [done|]. by rewrite str_app_cons. Qed.

Lemma str_take_drop (n : nat) (s : string) : PyStr.take n s +:+ PyStr.drop n s = s.
Proof.
  revert s. induction n as [|n IH]; intros [|a s]; try done.
  simpl. rewrite str_app_cons. by rewrite IH.
Qed.

Lemma truthy_startswith (s p : string) :
  PyStr.startswith s p = true -> PyStr.truthy p = true -> PyStr.truthy s = true.
Proof. destruct p, s; simpl; congruence. Qed.

Lemma join_absolute (path b : string) :
  PyStr.startswith b "/" = true -> PosixPath.join path b = b.
Proof. intros H. unfold PosixPath.join. by rewrite H. Qed.

Lemma join_truthy (path b : string) :
  PyStr.truthy path = true -> PyStr.truthy (PosixPath.join path b) = true.
Proof.
  intros H. unfold PosixPath.join.
  destruct (PyStr.startswith b "/") eqn:Hb.
  - by apply (truthy_startswith _ "/").
  - destruct (_ || _); by apply truthy_app_l.
Qed.

Lemma join_truthy_r (path b : string) :
  PyStr.truthy b = true -> PyStr.truthy (PosixPath.join path b) = true.
Proof.
  intros H. unfold PosixPath.join.
  destruct (PyStr.startswith b "/"); [done|].
  destruct (_ || _); [by apply truthy_app_r|].
  apply truthy_app_r. by apply truthy_app_r.
Qed.

End StringFacts.

(** ** The path-flag rewrite *)

Section Rewrite.

Variable wd : string.

Lemma scan_classify (flag : string) (pfs : list string) (new_flag : string) (mna : bool) :
  scan_path_flags wd flag pfs new_flag mna =
  match classify flag pfs with
  | ExactPathFlag => (new_flag, true)
  | PrefixedPathFlag pf =>
      (pf +:+ PosixPath.join wd (PyStr.drop (String.length pf) flag), mna)
  | PlainToken => (new_flag, mna)
  end.
Proof.
  induction pfs as [|pf pfs IH]; simpl; [done|].
  destruct (String.eqb flag pf); [done|].
  by destruct (PyStr.startswith flag pf).
Qed.

Lemma classify_exact (flag : string) (pfs : list string) :
  classify flag pfs = ExactPathFlag -> flag ∈ pfs.
Proof.
  induction pfs as [|pf pfs IH]; simpl; [done|].
  destruct (String.eqb_spec flag pf) as [->|]; [intros _; left|].
  destruct (PyStr.startswith flag pf); [done|]. intros H. right. by apply IH.
Qed.

Lemma classify_prefixed (flag : string) (pfs : list string) (pf : string) :
  classify flag pfs = PrefixedPathFlag pf ->
  pf ∈ pfs /\ flag ≠ pf /\ flag = pf +:+ PyStr.drop (String.length pf) flag.
Proof.
  induction pfs as [|pf' pfs IH]; simpl; [done|].
  destruct (String.eqb_spec flag pf') as [->|Hne]; [done|].
  destruct (PyStr.startswith flag pf') eqn:Hs.
  - intros [= <-]. split; [left|]. split; [done|]. by apply startswith_split.
  - intros H. destruct (IH H) as (? & ? & ?). split; [by right|done].
Qed.

Lemma classify_path_flag (flag : string) :
  flag ∈ path_flags -> classify flag path_flags = ExactPathFlag.
Proof.
  unfold path_flags. rewrite !elem_of_cons, elem_of_nil.
  intros [->|[->|[->|[->|[]]]]]; reflexivity.
Qed.

Lemma classify_empty : classify "" path_flags = PlainToken.
Proof. reflexivity. Qed.

Lemma path_flag_truthy (flag : string) : flag ∈ path_flags -> PyStr.truthy flag = true.
Proof.
  unfold path_flags. rewrite !elem_of_cons, elem_of_nil.
  intros [->|[->|[->|[->|[]]]]]; reflexivity.
Qed.

Lemma lookahead_rewrite_truthy (mna : bool) (flag : string) :
  PyStr.truthy flag = true -> PyStr.truthy (lookahead_rewrite wd mna flag) = true.
Proof.
  intros H. unfold lookahead_rewrite. destruct mna; [|done].
  destruct (negb _); [|done]. by apply join_truthy_r.
Qed.

Lemma token_out_classify (mna : bool) (flag : string) :
  token_out wd mna flag =
  match classify flag path_flags with
  | ExactPathFlag => (lookahead_rewrite wd mna flag, true)
  | PrefixedPathFlag pf =>
      (pf +:+ PosixPath.join wd (PyStr.drop (String.length pf) flag), false)
  | PlainToken => (lookahead_rewrite wd mna flag, false)
  end.
Proof. unfold token_out. apply scan_classify. Qed.

Lemma flag_step_token_out (acc : list string) (mna : bool) (flag : string) :
  flag_step wd (acc, mna) flag =
  (acc ++ (if PyStr.truthy (token_out wd mna flag).1
           then [(token_out wd mna flag).1] else []),
   (token_out wd mna flag).2).
Proof.
  unfold flag_step. fold (token_out wd mna flag).
  destruct (token_out wd mna flag) as [nf next]. simpl.
  destruct (PyStr.truthy nf); [done|]. by rewrite app_nil_r.
Qed.

Lemma fold_flag_step (flags acc : list string) (mna : bool) :
  (fold_left (flag_step wd) flags (acc, mna)).1 = acc ++ rewrite_from wd mna flags.
Proof.
  revert acc mna. induction flags as [|flag flags IH]; intros acc mna;
    cbn [fold_left rewrite_from].
  - by rewrite app_nil_r.
  - rewrite flag_step_token_out, IH.
    destruct (token_out wd mna flag) as [nf next]. cbn [fst snd].
    by rewrite <- app_assoc.
Qed.

Lemma fold_flag_step_snoc (flags : list string) (flag : string) (st : list string * bool) :
  fold_left (flag_step wd) (flags ++ [flag]) st
  = flag_step wd (fold_left (flag_step wd) flags st) flag.
Proof. by rewrite fold_left_app. Qed.

Lemma rewrite_from_length (flags : list string) (mna : bool) :
  (length (rewrite_from wd mna flags) <= length flags)%nat.
Proof.
  revert mna. induction flags as [|flag flags IH]; intros mna; simpl; [done|].
  destruct (token_out wd mna flag) as [nf next].
  rewrite length_app. specialize (IH next).
  destruct (PyStr.truthy nf); simpl; lia.
Qed.

End Rewrite.

Lemma MakeRelative_rewrite_from (flags : list string) (wd : string) :
  PyStr.truthy wd = true ->
  MakeRelativePathsInFlagsAbsolute flags (Some wd) = rewrite_from wd false flags.
Proof.
  intros H. unfold MakeRelativePathsInFlagsAbsolute. rewrite H. simpl.
  by rewrite fold_flag_step.
Qed.

Section RewriteClaims.

Lemma token_out_falsy (wd : string) (mna : bool) (flag : string) :
  PyStr.truthy wd = true ->
  PyStr.truthy (token_out wd mna flag).1 = false <-> flag = "" /\ mna = false.
Proof.
  intros Hwd. rewrite token_out_classify.
  destruct (classify flag path_flags) as [|pf|] eqn:Hc; cbn [fst].
  - apply classify_exact, path_flag_truthy in Hc.
    rewrite lookahead_rewrite_truthy by done.
    split; [done|]. intros [-> _]. done.
  - apply classify_prefixed in Hc as (Hin & _ & Heq).
    apply path_flag_truthy in Hin.
    rewrite truthy_app_l by done.
    split; [done|]. intros [-> _]. by destruct pf.
  - unfold lookahead_rewrite. destruct mna.
    + destruct (PyStr.startswith flag "/") eqn:Hs; cbn [negb].
      * rewrite (truthy_startswith _ _ Hs) by done.
        split; [done|]. by intros [_ ?].
      * rewrite join_truthy by done. split; [done|]. by intros [_ ?].
    + rewrite truthy_false_iff. split; [by intros ->|by intros [-> _]].
Qed.

Lemma lookahead_at_0 (wd : string) (flags : list string) : lookahead_at wd flags 0 = false.
Proof. reflexivity. Qed.

Lemma lookahead_at_S (wd : string) (flags : list string) (i : nat) (flag : string) :
  flags !! i = Some flag ->
  lookahead_at wd flags (S i) = bool_decide (flag ∈ path_flags).
Proof.
  intros Hi. unfold lookahead_at.
  change (firstn (S i) flags) with (take (S i) flags).
  rewrite (take_S_r _ _ _ Hi), fold_flag_step_snoc.
  change (firstn i flags) with (take i flags).
  destruct (fold_left (flag_step wd) (take i flags) ([], false)) as [acc mna].
  rewrite flag_step_token_out. cbn [snd]. rewrite token_out_classify.
  destruct (classify flag path_flags) as [|pf|] eqn:Hc; cbn [snd].
  - apply classify_exact in Hc. by rewrite bool_decide_eq_true_2.
  - rewrite bool_decide_eq_false_2; [done|].
    intros Hin%classify_path_flag. congruence.
  - rewrite bool_decide_eq_false_2; [done|].
    intros Hin%classify_path_flag. congruence.
Qed.

Lemma rewrite_from_absolute (wd : string) (mna : bool) (flags : list string) :
  paths_absolute mna flags = true -> "" ∉ flags -> rewrite_from wd mna flags = flags.
Proof.
  revert mna. induction flags as [|flag flags IH]; intros mna Habs Hne; [done|].
  cbn [rewrite_from paths_absolute] in *.
  apply andb_prop in Habs as [Habs Hrest]. apply andb_prop in Habs as [Hla Hpre].
  assert (PyStr.truthy flag = true) as Hflag.
  { apply truthy_iff. intros ->. apply Hne. left. }
  assert (lookahead_rewrite wd mna flag = flag) as Hlr.
  { unfold lookahead_rewrite. destruct mna; [|done]. by rewrite Hla. }
  assert ("" ∉ flags) as Hne' by (intros ?; apply Hne; by right).
  rewrite token_out_classify.
  destruct (classify flag path_flags) as [|pf|] eqn:Hc.
  - rewrite Hlr, Hflag. cbn [app]. f_equal. by apply IH.
  - apply classify_prefixed in Hc as (_ & _ & Heq).
    rewrite join_absolute by done. rewrite <- Heq, Hflag. cbn [app]. f_equal. by apply IH.
  - rewrite Hlr, Hflag. cbn [app]. f_equal. by apply IH.
Qed.

(** C6, as stated, fails: the token [-Ifoo] that follows the exact path
    flag [-I] is relative, so the join of line 293 is executed for it, and
    it starts with the path flag [-I], so the split of line 302 is executed
    for it as well. *)
Lemma path_flag_rules_overlap :
  ~ (forall (wd : string) (flags : list string) (i : nat) (flag : string),
       flags !! i = Some flag ->
       ~ (lookahead_rule_fires (lookahead_at wd flags i) flag = true
          /\ prefix_rule_fires flag = true)).
Proof.
  intros H. apply (H "/w" ["-I"; "-Ifoo"] 1%nat "-Ifoo"); [done|].
  split; reflexivity.
Qed.

(** C6, amended: a token can satisfy the guards of both rules, but the
    emitted token is the result of one rule applied to the original
    token.  A token equal to a path flag is never split.  A token that
    starts with a path flag without being equal to one is emitted as the
    flag followed by its suffix joined to the working directory, whatever
    the lookahead bit is, and clears the bit.  Every other token is
    emitted as the lookahead rule leaves it (dropped when that is empty),
    and sets the bit exactly when it is a path flag. *)
Theorem one_rule_decides_token (wd : string) (acc : list string) (mna : bool)
    (flag : string) :
  (flag ∈ path_flags -> prefix_rule_fires flag = false)
  /\ match classify flag path_flags with
     | PrefixedPathFlag pf =>
         pf ∈ path_flags /\ flag ≠ pf
         /\ flag = pf +:+ PyStr.drop (String.length pf) flag
         /\ flag_step wd (acc, mna) flag
            = (acc ++ [pf +:+ PosixPath.join wd (PyStr.drop (String.length pf) flag)],
               false)
     | _ =>
         prefix_rule_fires flag = false
         /\ flag_step wd (acc, mna) flag
            = (if PyStr.truthy (lookahead_rewrite wd mna flag)
               then acc ++ [lookahead_rewrite wd mna flag] else acc,
               bool_decide (flag ∈ path_flags))
     end.
Proof.
  split.
  { intros Hin. unfold prefix_rule_fires. by rewrite classify_path_flag. }
  rewrite flag_step_token_out, token_out_classify. unfold prefix_rule_fires.
  destruct (classify flag path_flags) as [|pf|] eqn:Hc; cbn [fst snd].
  - split; [done|]. apply classify_exact in Hc.
    rewrite bool_decide_eq_true_2 by done.
    by destruct (PyStr.truthy _); rewrite ?app_nil_r.
  - destruct (classify_prefixed _ _ _ Hc) as (Hin & Hne & Heq).
    repeat split; try done.
    by rewrite truthy_app_l by (by apply path_flag_truthy).
  - split; [done|].
    rewrite bool_decide_eq_false_2 by (intros Hin%classify_path_flag; congruence).
    by destruct (PyStr.truthy _); rewrite ?app_nil_r.
Qed.

(** The token [-Ifoo] after [-I], with the lookahead bit set. *)
Lemma one_rule_decides_token_witness :
  "-I" ∈ path_flags
  /\ flag_step "/w" (["-I"], true) "-Ifoo" = (["-I"; "-I/w/foo"], false).
Proof.
  destruct (one_rule_decides_token "/w" ["-I"] true "-Ifoo") as [_ H].
  cbn in H. destruct H as (Hin & _ & _ & Hstep). split; [exact Hin|exact Hstep].
Defined.

(** C7, as stated, fails: every path value of the list is absolute, yet
    the empty token is dropped and the list comes back shorter. *)
Lemma absolute_list_with_empty_token_shrinks :
  ~ (forall (wd : option string) (flags : list string),
       paths_absolute false flags = true ->
       MakeRelativePathsInFlagsAbsolute flags wd = flags).
Proof.
  intros H. specialize (H (Some "/w") [""; "-I/usr/include"] eq_refl).
  vm_compute in H. discriminate H.
Qed.

(** C7, amended: for every working directory, a flag list whose path
    values all begin with the separator and which holds no empty-string
    token is returned unchanged. *)
Theorem absolute_paths_unchanged (wd : option string) (flags : list string) :
  paths_absolute false flags = true ->
  "" ∉ flags ->
  MakeRelativePathsInFlagsAbsolute flags wd = flags.
Proof.
  intros Habs Hne. destruct wd as [wd|]; [|done].
  destruct (PyStr.truthy wd) eqn:Hwd.
  - rewrite MakeRelative_rewrite_from by done. by apply rewrite_from_absolute.
  - unfold MakeRelativePathsInFlagsAbsolute. by rewrite Hwd.
Qed.

(** A list with the three forms of an absolute path value. *)
Lemma absolute_paths_unchanged_witness :
  MakeRelativePathsInFlagsAbsolute
    ["-I/usr/include"; "-isystem"; "/usr/include/c++"; "--sysroot=/opt"; "-Wall"]
    (Some "/project/build")
  = ["-I/usr/include"; "-isystem"; "/usr/include/c++"; "--sysroot=/opt"; "-Wall"].
Proof.
  apply absolute_paths_unchanged; [reflexivity|].
  rewrite !elem_of_cons, elem_of_nil. intros [?|[?|[?|[?|[?|[]]]]]]; discriminate.
Defined.

(** C9, as stated, fails: with the working directory [/w], the empty
    token that follows the exact path flag [-I] is rewritten to [/w/] and
    kept, so the output is as long as the input. *)
Lemma empty_token_after_path_flag_kept :
  MakeRelativePathsInFlagsAbsolute ["-I"; ""] (Some "/w") = ["-I"; "/w/"]
  /\ ~ (forall (wd : string) (flags acc : list string) (i : nat),
          PyStr.truthy wd = true ->
          flags !! i = Some "" ->
          (flag_step wd (acc, lookahead_at wd flags i) "").1 = acc).
Proof.
  split; [reflexivity|]. intros H.
  specialize (H "/w" ["-I"; ""] [] 1%nat eq_refl eq_refl).
  vm_compute in H. discriminate H.
Qed.

(** C9, amended: with a non-empty working directory the loop appends the
    rewritten form of a token unless that form is empty, which happens
    exactly for an empty-string token that does not follow an exact path
    flag (after one it becomes the working directory with a trailing
    separator and is kept); the output is never longer than the input.
    With an empty or absent working directory the input comes back
    as it is. *)
Theorem falsy_tokens_dropped (wd : option string) (flags : list string) :
  match wd with
  | Some w =>
      if PyStr.truthy w then
        (forall (acc : list string) (mna : bool) (flag : string),
           flag_step w (acc, mna) flag
           = (if PyStr.truthy (token_out w mna flag).1
              then acc ++ [(token_out w mna flag).1] else acc,
              (token_out w mna flag).2))
        /\ (forall (i : nat) (flag : string) (acc : list string),
              flags !! i = Some flag ->
              (flag_step w (acc, lookahead_at w flags i) flag).1 = acc
              <-> flag = ""
                  /\ ~ (exists (j : nat) (pf : string),
                          i = S j /\ flags !! j = Some pf /\ pf ∈ path_flags))
        /\ (length (MakeRelativePathsInFlagsAbsolute flags wd) <= length flags)%nat
      else MakeRelativePathsInFlagsAbsolute flags wd = flags
  | None => MakeRelativePathsInFlagsAbsolute flags wd = flags
  end.
Proof.
  destruct wd as [w|]; [|done].
  destruct (PyStr.truthy w) eqn:Hw;
    [|by unfold MakeRelativePathsInFlagsAbsolute; rewrite Hw].
  split; [|split].
  - intros acc mna flag. rewrite flag_step_token_out.
    destruct (PyStr.truthy (token_out w mna flag).1); [done|].
    by rewrite app_nil_r.
  - intros i flag acc Hi. rewrite flag_step_token_out. cbn [fst].
    assert (lookahead_at w flags i = false
            <-> ~ (exists (j : nat) (pf : string),
                     i = S j /\ flags !! j = Some pf /\ pf ∈ path_flags)) as Hla.
    { destruct i as [|j].
      - rewrite lookahead_at_0. split; [|done]. intros _ (j & pf & ? & _). done.
      - destruct (flags !! j) as [pf|] eqn:Hj.
        + rewrite (lookahead_at_S _ _ _ _ Hj).
          rewrite bool_decide_eq_false. split.
          * intros Hn (j' & pf' & [= <-] & Hj' & Hin). congruence.
          * intros Hn Hin. apply Hn. by exists j, pf.
        + apply lookup_ge_None in Hj. apply lookup_lt_Some in Hi. lia. }
    rewrite <- Hla.
    destruct (PyStr.truthy (token_out w (lookahead_at w flags i) flag).1) eqn:Ht.
    + split.
      * intros Heq. rewrite <- (app_nil_r acc) in Heq at 2.
        apply app_inv_head in Heq. done.
      * intros Hd. apply (token_out_falsy w _ _ Hw) in Hd. congruence.
    + rewrite app_nil_r. split; [intros _|done].
      by apply (token_out_falsy w _ _ Hw).
  - rewrite MakeRelative_rewrite_from by done. apply rewrite_from_length.
Qed.

(** The empty token after [-DX] is dropped. *)
Lemma falsy_tokens_dropped_witness :
  (flag_step "/w" (["-DX"], lookahead_at "/w" ["-DX"; ""; "-I"; ""] 1) "").1 = ["-DX"]
  /\ (length (MakeRelativePathsInFlagsAbsolute ["-DX"; ""; "-I"; ""] (Some "/w")) <= 4)%nat.
Proof.
  pose proof (falsy_tokens_dropped (Some "/w") ["-DX"; ""; "-I"; ""]) as H.
  cbn [PyStr.truthy] in H. destruct H as (_ & Hdrop & Hlen).
  split; [|exact Hlen].
  apply (Hdrop 1%nat "" ["-DX"] eq_refl). split; [reflexivity|].
  intros (j & pf & Hj & Hpf & Hin). injection Hj as <-.
  injection Hpf as <-. revert Hin. unfold path_flags.
  rewrite !elem_of_cons, elem_of_nil. intros [?|[?|[?|[?|[]]]]]; discriminate.
Defined.

End RewriteClaims.

(** ** The database lookup and [FlagsForFile] *)

Section Lookup.

Variable db : Database.
Variable fs : filesystem.

Lemma rfind_from_bounds (c : ascii) (s : string) (i acc : Z) :
  PyStr.rfind_from c s i acc = acc
  \/ i <= PyStr.rfind_from c s i acc < i + Z.of_nat (String.length s).
Proof.
  revert i acc. induction s as [|a s IH]; intros i acc; [by left|].
  cbn [PyStr.rfind_from String.length].
  destruct (IH (i + 1) (if Ascii.eqb a c then i else acc)) as [->|H].
  - destruct (Ascii.eqb a c); [right; lia|by left].
  - right. lia.
Qed.

Lemma rfind_bounds (s : string) (c : ascii) :
  -1 <= PyStr.rfind s c < Z.of_nat (String.length s).
Proof.
  unfold PyStr.rfind. destruct (rfind_from_bounds c s 0 (-1)) as [->|H]; lia.
Qed.

(** The bound on the iterations of the loop of [_splitext] is never
    reached: any larger bound gives the same result. *)
Lemma splitext_scan_fuel (p : string) (i d : Z) (n m : nat) :
  (Z.to_nat (d - i) < n)%nat -> (Z.to_nat (d - i) < m)%nat ->
  PosixPath.splitext_scan p i d n = PosixPath.splitext_scan p i d m.
Proof.
  revert i m. induction n as [|n IH]; intros i m Hn Hm; [lia|].
  destruct m as [|m]; [lia|]. cbn [PosixPath.splitext_scan].
  destruct (i <? d) eqn:Hlt; [|done]. apply Z.ltb_lt in Hlt.
  destruct (negb _); [done|]. apply IH; lia.
Qed.

Lemma splitext_fuel (p : string) (n : nat) :
  (String.length p < n)%nat ->
  PosixPath.splitext_scan p (PyStr.rfind p PosixPath.sep + 1)
    (PyStr.rfind p PosixPath.extsep) n
  = (PosixPath.splitext p).
Proof.
  intros Hn. unfold PosixPath.splitext.
  pose proof (rfind_bounds p PosixPath.sep). pose proof (rfind_bounds p PosixPath.extsep).
  destruct (PyStr.rfind p PosixPath.sep <? PyStr.rfind p PosixPath.extsep) eqn:Hlt.
  - apply splitext_scan_fuel; lia.
  - apply Z.ltb_ge in Hlt. destruct n as [|n']; [done|].
    cbn [PosixPath.splitext_scan].
    assert ((PyStr.rfind p PosixPath.sep + 1 <? PyStr.rfind p PosixPath.extsep) = false) as ->
      by (apply Z.ltb_ge; lia).
    done.
Qed.

Lemma splitext_scan_app (p : string) (i d : Z) (n : nat) :
  (PosixPath.splitext_scan p i d n).1 +:+ (PosixPath.splitext_scan p i d n).2 = p.
Proof.
  revert i. induction n as [|n IH]; intros i; simpl; [apply str_app_empty_r|].
  destruct (i <? d); [|apply str_app_empty_r].
  destruct (negb _); [|apply IH].
  unfold PyStr.slice. simpl. rewrite Z.sub_0_r. apply str_take_drop.
Qed.

Lemma splitext_app (p : string) :
  (PosixPath.splitext p).1 +:+ (PosixPath.splitext p).2 = p.
Proof.
  unfold PosixPath.splitext. destruct (_ <? _); [|apply str_app_empty_r].
  apply splitext_scan_app.
Qed.

Lemma header_not_source (e : string) :
  existsb (String.eqb (PyStr.lower e)) HEADER_EXTENSIONS = true ->
  e ∉ SOURCE_EXTENSIONS.
Proof.
  intros H Hin. revert H. unfold SOURCE_EXTENSIONS in Hin.
  rewrite !elem_of_cons, elem_of_nil in Hin.
  destruct Hin as [->|[->|[->|[->|[->|[->|[]]]]]]]; vm_compute; discriminate.
Qed.

Lemma try_source_extensions_result (base : string) (exts log : list string) :
  (try_source_extensions db fs base exts log).1
  = option_map (fun ext => db (base +:+ ext)) (find (qualifies db fs base) exts).
Proof.
  revert log. induction exts as [|ext exts IH]; intros log; [done|].
  cbn [try_source_extensions find]. unfold qualifies at 1.
  destruct (FS.exists_ fs (base +:+ ext)); cbn [andb]; [|apply IH].
  unfold db_bind, db_query.
  destruct (compiler_flags_ (db (base +:+ ext))); [apply IH|done].
Qed.

Lemma try_source_extensions_queries (base : string) (exts log : list string) (q : string) :
  q ∈ (try_source_extensions db fs base exts log).2 ->
  q ∈ log \/ exists ext, ext ∈ exts /\ q = base +:+ ext /\ FS.exists_ fs q = true.
Proof.
  revert log. induction exts as [|ext exts IH]; intros log; [by left|].
  cbn [try_source_extensions].
  destruct (FS.exists_ fs (base +:+ ext)) eqn:He.
  - unfold db_bind, db_query.
    destruct (compiler_flags_ (db (base +:+ ext))).
    + intros [Hq|(e & ? & ? & ?)]%IH.
      * apply elem_of_app in Hq as [?|Hq]; [by left|]. right.
        apply list_elem_of_singleton in Hq as ->. exists ext. split; [left|done].
      * right. exists e. split; [by right|done].
    + cbn [db_ret snd]. intros Hq.
      apply elem_of_app in Hq as [?|Hq]; [by left|]. right.
      apply list_elem_of_singleton in Hq as ->. exists ext. split; [left|done].
  - intros [?|(e & ? & ? & ?)]%IH; [by left|]. right.
    exists e. split; [by right|done].
Qed.

(** C4: for a file name that classifies as a header, the lookup never
    sends the header path itself to the database; every path it sends is
    the name without its extension followed by a source extension, and
    exists on disk; the result is the record of the first source
    extension, in the order of [SOURCE_EXTENSIONS], whose substituted
    path exists and has a non-empty flag list, and null when there is
    none.  When the [.cpp] substitution qualifies its record is returned
    and no other path is asked for.  Without a database handle the result
    is null and nothing is asked. *)
Theorem header_lookup_substitutes (filename : string) :
  IsHeaderFile filename = true ->
  let base := (PosixPath.splitext filename).1 in
  let lookup := GetCompilationInfoForFile (Some db) fs filename in
  SOURCE_EXTENSIONS = [".cpp"; ".cxx"; ".cc"; ".c"; ".m"; ".mm"]
  /\ (filename ∉ db_queries lookup)
  /\ (forall q, q ∈ db_queries lookup ->
        exists ext, ext ∈ SOURCE_EXTENSIONS /\ q = base +:+ ext
                    /\ FS.exists_ fs q = true)
  /\ db_result lookup
     = option_map (fun ext => db (base +:+ ext))
         (find (qualifies db fs base) SOURCE_EXTENSIONS)
  /\ (qualifies db fs base ".cpp" = true ->
        db_result lookup = Some (db (base +:+ ".cpp"))
        /\ db_queries lookup = [base +:+ ".cpp"])
  /\ GetCompilationInfoForFile None fs filename [] = (None, []).
Proof.
  intros Hh base lookup. subst lookup. unfold GetCompilationInfoForFile.
  rewrite Hh. fold base. unfold db_result, db_queries.
  split; [done|].
  assert (forall q, q ∈ (try_source_extensions db fs base SOURCE_EXTENSIONS []).2 ->
            exists ext, ext ∈ SOURCE_EXTENSIONS /\ q = base +:+ ext
                        /\ FS.exists_ fs q = true) as Hq.
  { intros q [Hq|Hq]%try_source_extensions_queries; [|done].
    by apply elem_of_nil in Hq. }
  split; [|split; [exact Hq|split]].
  - intros (ext & Hext & Heq & _)%Hq.
    rewrite <- (splitext_app filename) in Heq at 1. fold base in Heq.
    apply (inj (String.app base)) in Heq.
    apply (header_not_source (PosixPath.splitext filename).2); [exact Hh|].
    by rewrite Heq.
  - apply try_source_extensions_result.
  - split; [|done]. unfold qualifies. intros [He Hf]%andb_prop.
    unfold SOURCE_EXTENSIONS. cbn [try_source_extensions]. rewrite He.
    unfold db_bind, db_query.
    destruct (compiler_flags_ (db (base +:+ ".cpp"))); [done|]. done.
Qed.

End Lookup.

(** Scenario D: [foo.h] is resolved through [foo.cpp]; [foo.cc] is not
    asked for. *)
Lemma header_lookup_substitutes_witness :
  IsHeaderFile "/p/foo.h" = true
  /\ db_result (GetCompilationInfoForFile (Some scenario_D_db) scenario_D_fs "/p/foo.h")
     = Some {| compiler_flags_ := ["-Iinc"; "-DX"]; compiler_working_dir_ := "/p/build" |}
  /\ db_queries (GetCompilationInfoForFile (Some scenario_D_db) scenario_D_fs "/p/foo.h")
     = ["/p/foo.cpp"].
Proof.
  split; [reflexivity|].
  destruct (header_lookup_substitutes scenario_D_db scenario_D_fs "/p/foo.h" eq_refl)
    as (_ & _ & _ & _ & H & _).
  exact (H eq_refl).
Defined.

Section Resolution.

Variable m : module_state.
Variable fs : filesystem.

(** The result of [FlagsForFile] for a handle that keeps the lookup
    contract: null exactly when a handle is present and the lookup yields
    null, and a dictionary in every other case. *)
Lemma FlagsForFile_cases (filename : string) :
  let r := db_result (FlagsForFile m fs filename) in
  let lookup := db_result (GetCompilationInfoForFile (database m) fs filename) in
  (r = None <-> (exists db, database m = Some db) /\ lookup = None)
  /\ match database m, lookup with
     | Some _, None => r = None
     | Some _, Some info =>
         r = Some {| result_flags :=
                       MakeRelativePathsInFlagsAbsolute (compiler_flags_ info)
                         (Some (compiler_working_dir_ info)) ++ system_includes m;
                     do_cache := true |}
     | None, _ =>
         r = Some {| result_flags :=
                       MakeRelativePathsInFlagsAbsolute (flags m)
                         (Some (anchor_directory m));
                     do_cache := true |}
     end.
Proof.
  intros r lookup. subst r lookup. unfold FlagsForFile, db_result, db_bind.
  destruct (database m) as [db|] eqn:Hdb.
  - destruct (GetCompilationInfoForFile (Some db) fs filename []) as [[info|] log];
      cbn [fst db_ret].
    + split; [|done]. split; [done|]. by intros [_ ?].
    + split; [|done]. split; [|done]. intros _. split; [by exists db|done].
  - cbn [fst db_ret]. split; [|done]. split; [done|]. by intros [[db ?] _].
Qed.

(** C10: whenever [FlagsForFile] returns a dictionary, its [do_cache]
    entry is [True]. *)
Theorem FlagsForFile_do_cache (filename : string) (log : list string)
    (result : flags_result) :
  (FlagsForFile m fs filename log).1 = Some result -> do_cache result = true.
Proof.
  unfold FlagsForFile, db_bind.
  destruct (database m) as [db|].
  - destruct (GetCompilationInfoForFile (Some db) fs filename log) as [[info|] log'];
      cbn [fst db_ret]; [|done].
    by intros [= <-].
  - cbn [fst db_ret]. by intros [= <-].
Qed.

End Resolution.

Section Raising.

Variable fs : filesystem.






End Raising.



(** The dictionary of scenario D. *)
Lemma FlagsForFile_do_cache_witness :
  do_cache {| result_flags := ["-I/p/build/inc"; "-DX"; "-isystem"; "/usr/include/c++"];
              do_cache := true |} = true.
Proof.
  apply (FlagsForFile_do_cache scenario_D_module scenario_D_fs "/p/foo.h" []).
  reflexivity.
Defined.

(** ** The directory scan *)

Section Scan.

Lemma traverse_step_selected (exts : option (gset string))
    (entry : string * list string * list string) (acc : gset string) :
  traverse_step exts (false, acc) entry
  = (false, if selected exts entry then acc ∪ {[entry.1.1]} else acc).
Proof.
  destruct entry as [[root_dir subdirs] file_list].
  unfold traverse_step, selected. cbn [negb fst snd].
  destruct exts as [exts|]; [|done].
  destruct (bool_decide (exts ≠ ∅)); [|done].
  by destruct (bool_decide (subdir_extensions file_list ∩ exts ≠ ∅)).
Qed.

Lemma traverse_fold (exts : option (gset string))
    (l : list (string * list string * list string)) (acc : gset string) :
  fold_left (traverse_step exts) l (false, acc)
  = (false,
     acc ∪ list_to_set
             (map (fun e => e.1.1) (filter (fun e => selected exts e = true) l))).
Proof.
  revert acc. induction l as [|entry l IH]; intros acc.
  - cbn. f_equal. set_solver.
  - cbn [fold_left]. rewrite filter_cons, traverse_step_selected, IH.
    destruct (decide (selected exts entry = true)) as [Hs|Hs].
    + rewrite Hs. f_equal. cbn [map list_to_set]. set_solver.
    + apply not_true_is_false in Hs. by rewrite Hs.
Qed.

Lemma TraverseByDepth_walk (fs : filesystem) (root : string)
    (include_extensions : option (gset string)) :
  TraverseByDepth fs root include_extensions
  = list_to_set
      (map (fun e => e.1.1)
         (filter (fun e => selected (lowered include_extensions) e = true)
            (tail (FS.walk fs root)))).
Proof.
  unfold TraverseByDepth. fold (lowered include_extensions).
  destruct (FS.walk fs root) as [|entry l]; [done|].
  cbn [fold_left tail].
  assert (traverse_step (lowered include_extensions) (true, ∅) entry = (false, ∅)) as ->.
  { by destruct entry as [[? ?] ?]. }
  rewrite traverse_fold. cbn [snd]. set_solver.
Qed.

End Scan.

(** ** The file-system tree *)

Section Tree.

Lemma node_nested_ind (P : node -> Prop) :
  P File ->
  (forall es, Forall (fun e => P e.2) es -> P (Dir es)) ->
  forall n, P n.
Proof.
  intros HF HD. fix IH 1. intros [|es]; [exact HF|].
  apply HD. induction es as [|[name child] es IHes]; constructor.
  - apply IH.
  - exact IHes.
Qed.

Lemma wf_node_Dir (es : list (string * node)) :
  FS.wf_node (Dir es) = true
  <-> Forall (fun e => FS.wf_name e.1 = true /\ FS.wf_node e.2 = true) es.
Proof.
  induction es as [|[name child] es IH].
  - split; [constructor|done].
  - change (FS.wf_node (Dir ((name, child) :: es)))
      with (FS.wf_name name && FS.wf_node child && FS.wf_node (Dir es)).
    rewrite !andb_true_iff, IH, Forall_cons. cbn [fst snd]. tauto.
Qed.

Lemma lookup_entry_elem (name : string) (es : list (string * node)) (child : node) :
  FS.lookup_entry name es = Some child -> (name, child) ∈ es.
Proof.
  induction es as [|[n c] es IH]; [done|]. cbn [FS.lookup_entry].
  destruct (String.eqb_spec n name) as [->|].
  - intros [= ->]. left.
  - intros H. right. by apply IH.
Qed.

Lemma resolve_from_wf (comps : list string) (stack : list node) (cur n : node) :
  Forall (fun d => FS.wf_node d = true) stack ->
  FS.wf_node cur = true ->
  FS.resolve_from stack cur comps = Some n ->
  FS.wf_node n = true.
Proof.
  revert stack cur. induction comps as [|c cs IH]; intros stack cur Hst Hcur.
  - by intros [= <-].
  - cbn [FS.resolve_from]. destruct cur as [|es]; [done|].
    destruct (String.eqb c "" || String.eqb c "."); [by apply IH|].
    destruct (String.eqb c "..").
    + destruct stack as [|parent stack']; [by apply IH|].
      apply Forall_cons in Hst as [? ?]. by apply IH.
    + destruct (FS.lookup_entry c es) as [child|] eqn:Hl; [|done].
      apply lookup_entry_elem in Hl.
      apply wf_node_Dir in Hcur as Hes.
      rewrite Forall_forall in Hes. apply Hes in Hl as [_ Hchild].
      apply IH; [by constructor|done].
Qed.

Lemma resolve_wf (fs : filesystem) (path : string) (n : node) :
  FS.wf fs = true -> FS.resolve fs path = Some n -> FS.wf_node n = true.
Proof.
  intros Hwf. unfold FS.resolve. destruct (negb _); [done|].
  by apply resolve_from_wf.
Qed.

Lemma dirnames_wf (es : list (string * node)) (name : string) :
  FS.wf_node (Dir es) = true -> name ∈ FS.dirnames es -> FS.wf_name name = true.
Proof.
  intros Hwf%wf_node_Dir Hin. unfold FS.dirnames in Hin.
  apply list_elem_of_fmap in Hin as ([n c] & -> & Hin).
  apply list_elem_of_filter in Hin as [_ Hin].
  rewrite Forall_forall in Hwf. by apply Hwf in Hin as [? _].
Qed.

Lemma walk_files_only (top : string) (es : list (string * node)) :
  Forall (fun e => e.2 = File) es ->
  FS.walk_node top (Dir es) = [(top, [], map fst es)].
Proof.
  intros Hes. cbn [FS.walk_node].
  assert (FS.dirnames es = [] /\ FS.filenames es = map fst es
          /\ (fix walk_entries (es : list (string * node)) :=
                match es with
                | [] => []
                | (name, child) :: es' =>
                    FS.walk_node (PosixPath.join top name) child ++ walk_entries es'
                end) es = []) as (-> & -> & ->); [|done].
  induction Hes as [|[name child] es Hc Hes IH]; [done|].
  cbn [snd] in Hc. subst child. destruct IH as (IH1 & IH2 & IH3).
  unfold FS.dirnames, FS.filenames in *. rewrite !filter_cons. cbn [snd FS.is_dir negb].
  rewrite decide_False by (intros []). rewrite decide_True by done.
  rewrite IH1, IH3. cbn [map fst FS.walk_node app]. by rewrite <- IH2.
Qed.

End Tree.

(** ** Paths below a directory *)

Section Paths.

Lemma lacks_not_startswith (c : ascii) (s : string) :
  PyStr.lacks c s = true -> PyStr.startswith s (String c "") = false.
Proof.
  destruct s as [|a s]; [done|]. simpl.
  rewrite (Ascii.eqb_sym c a). by destruct (Ascii.eqb a c).
Qed.

Lemma wf_name_relative (name : string) :
  FS.wf_name name = true -> PyStr.startswith name "/" = false.
Proof. intros [_ H]%andb_prop. by apply lacks_not_startswith. Qed.

Lemma wf_name_truthy (name : string) : FS.wf_name name = true -> PyStr.truthy name = true.
Proof. by intros [H _]%andb_prop. Qed.

(** A relative component is appended to the path, after a separator
    unless the path is empty or already ends with one. *)
Lemma join_relative (path b : string) :
  PyStr.startswith b "/" = false ->
  exists glue, (glue = "" \/ glue = "/") /\ PosixPath.join path b = path +:+ glue +:+ b.
Proof.
  intros Hb. unfold PosixPath.join. rewrite Hb.
  destruct (_ || _); [exists ""|exists "/"]; split; auto.
Qed.

Lemma join_longer (path name : string) :
  FS.wf_name name = true ->
  (String.length path < String.length (PosixPath.join path name))%nat.
Proof.
  intros Hwf.
  destruct (join_relative path name (wf_name_relative _ Hwf)) as (glue & _ & ->).
  rewrite !str_length_app. apply wf_name_truthy in Hwf.
  destruct name; [done|]. simpl. lia.
Qed.

Lemma join_stays_absolute (path b : string) :
  PyStr.startswith path "/" = true -> PyStr.startswith (PosixPath.join path b) "/" = true.
Proof.
  intros Hp. unfold PosixPath.join.
  destruct (PyStr.startswith b "/") eqn:Hb; [done|].
  destruct path as [|a path]; [done|].
  destruct (_ || _); rewrite str_app_cons; exact Hp.
Qed.

Lemma walk_node_head (top : string) (n : node)
    (e : string * list string * list string) :
  e ∈ FS.walk_node top n -> e.1.1 = top \/ e ∈ tail (FS.walk_node top n).
Proof.
  destruct n as [|es]; [by intros ?%elem_of_nil|].
  cbn [FS.walk_node tail]. intros [->|?]%elem_of_cons; [by left|by right].
Qed.

(** Every directory reported after the first triple of a walk has a path
    strictly longer than the top of the walk. *)
Lemma walk_node_below (n : node) :
  FS.wf_node n = true ->
  forall (top : string) (e : string * list string * list string),
    e ∈ tail (FS.walk_node top n) ->
    (String.length top < String.length e.1.1)%nat.
Proof.
  induction n as [|es IH] using node_nested_ind; intros Hwf top e.
  { by intros ?%elem_of_nil. }
  cbn [FS.walk_node tail]. apply wf_node_Dir in Hwf.
  induction es as [|[name child] es IHes]; [by intros ?%elem_of_nil|].
  apply Forall_cons in IH as [IHc IH]. apply Forall_cons in Hwf as [[Hname Hchild] Hwf].
  cbn [fst snd] in *.
  intros [He|He]%elem_of_app; [|by apply IHes].
  pose proof (join_longer top name Hname) as Hlt.
  apply walk_node_head in He as [->|He]; [done|].
  specialize (IHc Hchild _ _ He). lia.
Qed.

Lemma TraverseByDepth_excludes_root (fs : filesystem) (root : string)
    (include_extensions : option (gset string)) :
  FS.wf fs = true -> root ∉ TraverseByDepth fs root include_extensions.
Proof.
  intros Hwf. rewrite TraverseByDepth_walk, elem_of_list_to_set.
  intros (e & Hroot & He)%list_elem_of_fmap.
  apply list_elem_of_filter in He as [_ He].
  unfold FS.walk in He. destruct (FS.resolve fs root) as [n|] eqn:Hn.
  - apply resolve_wf in Hn; [|done].
    apply (walk_node_below n Hn) in He. rewrite <- Hroot in He. lia.
  - by apply elem_of_nil in He.
Qed.

End Paths.

(** ** The include-directory guess *)

Section IncludeGuess.

Lemma header_filter_truthy :
  bool_decide ((list_to_set HEADER_EXTENSIONS : gset string) ≠ ∅) = true.
Proof. apply bool_decide_eq_true. unfold HEADER_EXTENSIONS. set_solver. Qed.

Lemma lowered_header_filter (x : string) :
  x ∈ (set_map PyStr.lower (list_to_set HEADER_EXTENSIONS : gset string) : gset string)
  <-> x ∈ HEADER_EXTENSIONS.
Proof.
  rewrite elem_of_map. setoid_rewrite elem_of_list_to_set.
  unfold HEADER_EXTENSIONS. split.
  - intros (y & -> & Hy). revert Hy. rewrite !elem_of_cons, elem_of_nil.
    intros [->|[->|[->|[->|[]]]]]; cbn; auto 10.
  - intros Hx. exists x. split; [|done]. revert Hx. rewrite !elem_of_cons, elem_of_nil.
    intros [->|[->|[->|[->|[]]]]]; reflexivity.
Qed.

Lemma IsHeaderFile_iff (f : string) :
  IsHeaderFile f = true
  <-> PyStr.lower (PosixPath.splitext f).2 ∈ HEADER_EXTENSIONS.
Proof.
  unfold IsHeaderFile. rewrite existsb_exists. split.
  - intros (y & Hy & ->%String.eqb_eq). by apply list_elem_of_In.
  - intros H. eexists. split; [by apply list_elem_of_In|]. apply String.eqb_refl.
Qed.

Lemma header_extension_truthy (e : string) :
  PyStr.lower e ∈ HEADER_EXTENSIONS -> PyStr.truthy e = true.
Proof.
  destruct e; [|done]. unfold HEADER_EXTENSIONS. cbn.
  rewrite !elem_of_cons, elem_of_nil. intros [?|[?|[?|[?|[]]]]]; discriminate.
Qed.

Lemma selected_headers (entry : string * list string * list string) :
  selected (lowered (Some (list_to_set HEADER_EXTENSIONS))) entry = true
  <-> exists f, f ∈ entry.2 /\ IsHeaderFile f = true.
Proof.
  unfold lowered, selected. rewrite header_filter_truthy.
  assert (bool_decide
            ((set_map PyStr.lower (list_to_set HEADER_EXTENSIONS : gset string)
              : gset string) ≠ ∅) = true) as ->.
  { apply bool_decide_eq_true. intros He.
    assert (".h" ∈ (∅ : gset string)) as Hin; [|by apply not_elem_of_empty in Hin].
    rewrite <- He. apply lowered_header_filter. left. }
  rewrite bool_decide_eq_true. unfold subdir_extensions. split.
  - intros (x & Hx)%set_choose_L.
    apply elem_of_intersection in Hx as [Hx Hh].
    apply lowered_header_filter in Hh.
    apply elem_of_list_to_set, list_elem_of_fmap in Hx as (e & -> & He).
    apply list_elem_of_filter in He as [_ He].
    apply list_elem_of_fmap in He as (f & -> & Hf).
    exists f. split; [done|]. by apply IsHeaderFile_iff.
  - intros (f & Hf & Hh%IsHeaderFile_iff) He.
    assert (PyStr.lower (PosixPath.splitext f).2 ∈ (∅ : gset string)) as Hin;
      [|by apply not_elem_of_empty in Hin].
    rewrite <- He. apply elem_of_intersection. split.
    + apply elem_of_list_to_set, list_elem_of_fmap. eexists. split; [done|].
      apply list_elem_of_filter. split; [by apply header_extension_truthy|].
      apply list_elem_of_fmap. by exists f.
    + by apply lowered_header_filter.
Qed.

Lemma TraverseByDepth_headers (fs : filesystem) (root d : string) :
  d ∈ TraverseByDepth fs root (Some (list_to_set HEADER_EXTENSIONS))
  <-> exists subdirs files f,
        (d, subdirs, files) ∈ tail (FS.walk fs root)
        /\ f ∈ files /\ IsHeaderFile f = true.
Proof.
  rewrite TraverseByDepth_walk, elem_of_list_to_set, list_elem_of_fmap. split.
  - intros ([[d' subdirs] files] & -> & He).
    apply list_elem_of_filter in He as [Hs He].
    apply selected_headers in Hs as (f & Hf & Hh). by exists subdirs, files, f.
  - intros (subdirs & files & f & He & Hf & Hh).
    exists (d, subdirs, files). split; [done|].
    apply list_elem_of_filter. split; [|done].
    apply selected_headers. by exists f.
Qed.

Lemma TraverseByDepth_files_only (fs : filesystem) (root : string)
    (es : list (string * node)) (include_extensions : option (gset string)) :
  FS.resolve fs root = Some (Dir es) ->
  Forall (fun e => e.2 = File) es ->
  TraverseByDepth fs root include_extensions = ∅.
Proof.
  intros Hr Hes. rewrite TraverseByDepth_walk. unfold FS.walk.
  rewrite Hr, walk_files_only by done. done.
Qed.

Variable fs : filesystem.
Variable anchor : string.

Lemma GuessIncludeDirectory_src :
  PyStr.startswith anchor "/" = true ->
  FS.exists_ fs (PosixPath.join anchor "src") = true ->
  FS.exists_ fs (PosixPath.join anchor "include") = false ->
  FS.exists_ fs (PosixPath.join anchor "includes") = false ->
  GuessIncludeDirectory fs anchor
  = Ok (map (fun d => "-I" +:+ d)
          (elements (TraverseByDepth fs (PosixPath.join anchor "src")
                       (Some (list_to_set HEADER_EXTENSIONS))))).
Proof.
  intros Habs Hsrc Hinc Hincs.
  unfold GuessIncludeDirectory, GuessSourceDirectory.
  cbn [first_existing first_external]. rewrite Hsrc, Hinc, Hincs.
  cbn [py_bind except_OSError].
  rewrite (join_absolute anchor (PosixPath.join anchor "src"))
    by (by apply join_stays_absolute).
  by rewrite elements_empty, app_nil_r.
Qed.

(** C1, checked on the code: when none of the source-directory candidates
    exists and [include] is a directory without subdirectories (an empty
    one in particular), the guess is the empty list; the [include]
    directory itself is not part of it. *)
Theorem empty_include_folder_not_reported (es : list (string * node)) :
  (forall c, c ∈ ["src"; "source"; "lib"; PosixPath.basename anchor] ->
     FS.exists_ fs (PosixPath.join anchor c) = false) ->
  FS.resolve fs (PosixPath.join anchor "include") = Some (Dir es) ->
  Forall (fun e => e.2 = File) es ->
  GuessIncludeDirectory fs anchor = Ok [].
Proof.
  intros Hnone Hinc Hes.
  unfold GuessIncludeDirectory, GuessSourceDirectory.
  cbn [first_existing first_external].
  rewrite !Hnone by (rewrite !elem_of_cons; auto).
  unfold FS.exists_ at 1. rewrite Hinc.
  rewrite (TraverseByDepth_files_only _ _ es) by done.
  cbn [py_bind except_OSError]. by rewrite elements_empty.
Qed.

(** C2, amended: for an absolute anchor with a [src] entry and no
    [include] or [includes] entry, the guess lists, each after [-I], the
    directories strictly below [src] that directly contain a file with a
    header extension; [src] itself is never listed, so the guess is empty
    when [src] holds only files. *)
Theorem source_directory_itself_excluded :
  PyStr.startswith anchor "/" = true ->
  FS.wf fs = true ->
  FS.exists_ fs (PosixPath.join anchor "src") = true ->
  FS.exists_ fs (PosixPath.join anchor "include") = false ->
  FS.exists_ fs (PosixPath.join anchor "includes") = false ->
  let src := PosixPath.join anchor "src" in
  let dirs := TraverseByDepth fs src (Some (list_to_set HEADER_EXTENSIONS)) in
  GuessIncludeDirectory fs anchor = Ok (map (fun d => "-I" +:+ d) (elements dirs))
  /\ (forall d, d ∈ dirs <->
        exists subdirs files f,
          (d, subdirs, files) ∈ tail (FS.walk fs src)
          /\ f ∈ files /\ IsHeaderFile f = true)
  /\ (src ∉ dirs)
  /\ (forall es, FS.resolve fs src = Some (Dir es) ->
        Forall (fun e => e.2 = File) es ->
        GuessIncludeDirectory fs anchor = Ok []).
Proof.
  intros Habs Hwf Hsrc Hinc Hincs src dirs.
  pose proof (GuessIncludeDirectory_src Habs Hsrc Hinc Hincs) as Hg.
  fold src in Hg. fold dirs in Hg.
  split; [exact Hg|]. split; [apply TraverseByDepth_headers|].
  split; [by apply TraverseByDepth_excludes_root|].
  intros es Hes Hfiles. rewrite Hg. subst dirs.
  rewrite (TraverseByDepth_files_only _ _ es) by done.
  by rewrite elements_empty.
Qed.

End IncludeGuess.

(** Scenario B. *)
Lemma empty_include_folder_not_reported_witness :
  GuessIncludeDirectory scenario_B_fs "/anchor" = Ok [].
Proof.
  apply (empty_include_folder_not_reported scenario_B_fs "/anchor" []).
  - intros c. rewrite !elem_of_cons, elem_of_nil.
    intros [->|[->|[->|[->|[]]]]]; reflexivity.
  - reflexivity.
  - constructor.
Defined.

(** C2, as stated, fails: in scenario A the header [a.hpp] lies directly in
    [src], there is no [include] folder, and the guess is the empty list,
    not the list that holds [-I/anchor/src]. *)
Lemma source_directory_not_reported :
  GuessIncludeDirectory scenario_A_fs "/anchor" = Ok []
  /\ ~ (forall (fs : filesystem) (anchor : string) (es : list (string * node)) (f : string),
          FS.resolve fs (PosixPath.join anchor "src") = Some (Dir es) ->
          (f, File) ∈ es ->
          IsHeaderFile f = true ->
          FS.exists_ fs (PosixPath.join anchor "include") = false ->
          FS.exists_ fs (PosixPath.join anchor "includes") = false ->
          GuessIncludeDirectory fs anchor = Ok ["-I" +:+ PosixPath.join anchor "src"]).
Proof.
  split; [reflexivity|]. intros H.
  specialize (H scenario_A_fs "/anchor" [("a.hpp", File)] "a.hpp").
  assert (GuessIncludeDirectory scenario_A_fs "/anchor" = Ok ["-I/anchor/src"]) as Hbad.
  { apply H; try reflexivity. left. }
  vm_compute in Hbad. discriminate Hbad.
Qed.

(** Scenario A. *)
Lemma source_directory_itself_excluded_witness :
  GuessIncludeDirectory scenario_A_fs "/anchor" = Ok []
  /\ "/anchor/src" ∉ TraverseByDepth scenario_A_fs "/anchor/src"
                        (Some (list_to_set HEADER_EXTENSIONS)).
Proof.
  destruct (source_directory_itself_excluded scenario_A_fs "/anchor"
              eq_refl eq_refl eq_refl eq_refl eq_refl) as (_ & _ & Hroot & Hfiles).
  split; [|exact Hroot].
  apply (Hfiles [("a.hpp", File)]); [reflexivity|].
  repeat constructor.
Defined.

Example nested_header_directory_reported :
  GuessIncludeDirectory scenario_A_nested_fs "/anchor" = Ok ["-I/anchor/src/detail"].
Proof. reflexivity. Qed.

(** ** The build-directory guess *)

Section Split.

Lemma rfind_from_app (c : ascii) (s t : string) (i acc : Z) :
  PyStr.rfind_from c (s +:+ t) i acc
  = PyStr.rfind_from c t (i + Z.of_nat (String.length s)) (PyStr.rfind_from c s i acc).
Proof.
  revert i acc. induction s as [|a s IH]; intros i acc.
  - cbn. by rewrite Z.add_0_r.
  - rewrite str_app_cons. cbn [PyStr.rfind_from String.length]. rewrite IH.
    f_equal. lia.
Qed.

Lemma rfind_from_lacks (c : ascii) (s : string) (i acc : Z) :
  PyStr.lacks c s = true -> PyStr.rfind_from c s i acc = acc.
Proof.
  revert i acc. induction s as [|a s IH]; intros i acc; [done|].
  cbn. intros [Ha Hs]%andb_prop. apply negb_true_iff in Ha. rewrite Ha. by apply IH.
Qed.

Lemma rfind_last_sep (d f : string) :
  PyStr.lacks PosixPath.sep f = true ->
  PyStr.rfind (d +:+ "/" +:+ f) PosixPath.sep = Z.of_nat (String.length d).
Proof.
  intros Hf. unfold PyStr.rfind. rewrite rfind_from_app.
  rewrite str_app_cons. cbn [PyStr.rfind_from]. cbn [Ascii.eqb Bool.eqb PosixPath.sep].
  rewrite str_app_empty_l, rfind_from_lacks by done. lia.
Qed.

Lemma take_app_length (s t : string) : PyStr.take (String.length s) (s +:+ t) = s.
Proof. induction s as [|a s IH]; [by destruct t|]. rewrite str_app_cons. cbn. by rewrite IH. Qed.

Lemma endswith_char_app (s t : string) (c : ascii) :
  PyStr.truthy t = true -> PyStr.endswith_char (s +:+ t) c = PyStr.endswith_char t c.
Proof.
  intros Ht. induction s as [|a s IH]; [done|]. rewrite str_app_cons.
  cbn [PyStr.endswith_char]. destruct (s +:+ t) eqn:Hst; [|exact IH].
  destruct s as [|b s].
  - change (t = "") in Hst. by rewrite Hst in Ht.
  - rewrite str_app_cons in Hst. discriminate Hst.
Qed.

Lemma lacks_endswith (c : ascii) (s : string) :
  PyStr.lacks c s = true -> PyStr.endswith_char s c = false.
Proof.
  induction s as [|a s IH]; [done|]. cbn [PyStr.lacks PyStr.endswith_char].
  intros [Ha Hs]%andb_prop. apply negb_true_iff in Ha.
  destruct s; [done|]. by apply IH.
Qed.

Lemma rstrip_char_keep (c : ascii) (s : string) :
  PyStr.endswith_char s c = false -> PyStr.rstrip_char c s = s.
Proof.
  induction s as [|a s IH]; [done|]. cbn [PyStr.endswith_char PyStr.rstrip_char].
  destruct s as [|b s].
  - intros ->. done.
  - intros H. rewrite (IH H). done.
Qed.

Lemma rstrip_char_snoc (c : ascii) (s : string) :
  PyStr.truthy s = true ->
  PyStr.endswith_char s c = false ->
  PyStr.rstrip_char c (s +:+ String c "") = s.
Proof.
  induction s as [|a s IH]; [done|]. intros _.
  rewrite str_app_cons. cbn [PyStr.endswith_char PyStr.rstrip_char].
  destruct s as [|b s].
  - intros Ha. rewrite str_app_empty_l. cbn [PyStr.rstrip_char].
    by rewrite Ascii.eqb_refl, Ha.
  - intros H. rewrite (IH eq_refl H). done.
Qed.

Lemma all_char_endswith (c : ascii) (s : string) :
  PyStr.truthy s = true -> PyStr.all_char c s = true -> PyStr.endswith_char s c = true.
Proof.
  induction s as [|a s IH]; [done|]. intros _. cbn [PyStr.all_char PyStr.endswith_char].
  intros [Ha Hs]%andb_prop. destruct s; [done|]. by apply IH.
Qed.

Lemma all_char_app (c : ascii) (s t : string) :
  PyStr.all_char c (s +:+ t) = PyStr.all_char c s && PyStr.all_char c t.
Proof.
  induction s as [|a s IH]; [done|]. rewrite str_app_cons. cbn. rewrite IH.
  by rewrite andb_assoc.
Qed.

(** Splitting the join of a directory that does not end with the
    separator and a file name gives the directory back. *)
Lemma split_join_file (d f : string) :
  PyStr.truthy d = true ->
  PyStr.endswith_char d PosixPath.sep = false ->
  FS.wf_name f = true ->
  PosixPath.join d f = d +:+ "/" +:+ f
  /\ PosixPath.split (PosixPath.join d f) = (d, f).
Proof.
  intros Hd He Hf.
  assert (PosixPath.join d f = d +:+ "/" +:+ f) as Hj.
  { unfold PosixPath.join. by rewrite (wf_name_relative _ Hf), Hd, He. }
  split; [exact Hj|]. rewrite Hj. unfold PosixPath.split.
  apply andb_prop in Hf as [_ Hl].
  rewrite rfind_last_sep by done.
  unfold PyStr.slice. rewrite Z.sub_0_r. cbn [Z.to_nat PyStr.drop].
  replace (Z.to_nat (Z.of_nat (String.length d) + 1))
    with (String.length (d +:+ "/")) by (rewrite str_length_app; cbn; lia).
  change (Z.to_nat 0) with 0%nat. cbn [PyStr.drop].
  rewrite <- (str_app_assoc d "/" f), take_app_length, str_drop_app.
  rewrite truthy_app_l by done. rewrite all_char_app.
  destruct (PyStr.all_char PosixPath.sep d) eqn:Ha.
  { apply all_char_endswith in Ha; [congruence|done]. }
  cbn [andb negb]. by rewrite rstrip_char_snoc.
Qed.

Lemma join_wf_name_end (base name : string) :
  FS.wf_name name = true ->
  PyStr.truthy (PosixPath.join base name) = true
  /\ PyStr.endswith_char (PosixPath.join base name) PosixPath.sep = false.
Proof.
  intros Hn. split; [by apply join_truthy_r, wf_name_truthy|].
  destruct (join_relative base name (wf_name_relative _ Hn)) as (glue & _ & ->).
  rewrite <- str_app_assoc, endswith_char_app by (by apply wf_name_truthy).
  apply andb_prop in Hn as [_ Hl]. by apply lacks_endswith.
Qed.

End Split.

Section BuildGuess.

Variable fs : filesystem.
Variable glob_magic : glob_oracle.
Variable anchor : string.

Lemma glob_star_file_elem (base basename m : string) :
  m ∈ FS.glob_star_file fs base basename
  <-> exists name,
        name ∈ FS.glob1_star fs base
        /\ FS.exists_ fs (PosixPath.join (PosixPath.join base name) basename) = true
        /\ m = PosixPath.join (PosixPath.join base name) basename.
Proof.
  unfold FS.glob_star_file. rewrite list_elem_of_In, in_flat_map. split.
  - intros (d & Hd%list_elem_of_In & Hm%list_elem_of_In).
    apply list_elem_of_fmap in Hd as (name & -> & Hname).
    apply list_elem_of_fmap in Hm as (b & -> & Hb).
    unfold FS.glob0 in Hb.
    destruct (FS.exists_ fs (PosixPath.join (PosixPath.join base name) basename)) eqn:He;
      [|by apply elem_of_nil in Hb].
    apply list_elem_of_singleton in Hb as ->. by exists name.
  - intros (name & Hname & He & ->).
    exists (PosixPath.join base name). split; apply list_elem_of_In.
    + apply list_elem_of_fmap. by exists name.
    + unfold FS.glob0. rewrite He. apply list_elem_of_fmap.
      exists basename. split; [done|left].
Qed.

Lemma glob1_star_wf (base name : string) :
  FS.wf fs = true -> name ∈ FS.glob1_star fs base -> FS.wf_name name = true.
Proof.
  intros Hwf. unfold FS.glob1_star.
  destruct (FS.resolve fs base) as [[|es]|] eqn:Hr; try by intros ?%elem_of_nil.
  intros [_ Hin]%list_elem_of_filter.
  apply (dirnames_wf es); [|done]. by apply (resolve_wf fs base).
Qed.

Lemma has_magic_app (s t : string) :
  FS.has_magic (s +:+ t) = FS.has_magic s || FS.has_magic t.
Proof.
  induction s as [|a s IH]; [done|].
  rewrite str_app_cons. cbn [FS.has_magic]. rewrite IH. by rewrite !orb_assoc.
Qed.

Lemma has_magic_join_up (path : string) :
  FS.has_magic (PosixPath.join path "..") = FS.has_magic path.
Proof.
  destruct (join_relative path ".." eq_refl) as (glue & [->| ->] & ->);
    rewrite !has_magic_app; cbn; by rewrite orb_false_r.
Qed.

Lemma has_magic_base :
  FS.has_magic (PosixPath.join_all anchor [".."; ".."]) = FS.has_magic anchor.
Proof. cbn [PosixPath.join_all fold_left]. by rewrite !has_magic_join_up. Qed.

(** The way [glob] cuts the pattern of line 123 with [os.path.split]: the
    literal file name, the wildcard, and the directory part
    [anchor/../..]. *)
Lemma build_pattern_split :
  let base := PosixPath.join_all anchor [".."; ".."] in
  PosixPath.join_all anchor [".."; ".."; "*"; "compile_commands.json"]
  = PosixPath.join (PosixPath.join base "*") "compile_commands.json"
  /\ PosixPath.split (PosixPath.join (PosixPath.join base "*") "compile_commands.json")
     = (PosixPath.join base "*", "compile_commands.json")
  /\ PosixPath.split (PosixPath.join base "*") = (base, "*")
  /\ FS.has_magic "compile_commands.json" = false
  /\ FS.has_magic (PosixPath.join base "*") = true.
Proof.
  intros base. split; [done|].
  destruct (join_wf_name_end base "*" eq_refl) as [Ht Hend].
  split; [by apply split_join_file|].
  destruct (join_wf_name_end (PosixPath.join anchor "..") ".." eq_refl) as [Ht' Hend'].
  split; [by apply split_join_file|]. split; [done|].
  destruct (join_relative base "*" eq_refl) as (glue & _ & ->).
  rewrite !has_magic_app. cbn. by rewrite !orb_true_r.
Qed.

Lemma glob_compile_commands_elem (m : string) :
  m ∈ glob_compile_commands fs glob_magic anchor
  <-> exists parent name,
        parent ∈ (if FS.has_magic anchor
                  then glob_magic (PosixPath.join_all anchor [".."; ".."])
                  else [PosixPath.join_all anchor [".."; ".."]])
        /\ name ∈ FS.glob1_star fs parent
        /\ m = PosixPath.join (PosixPath.join parent name) "compile_commands.json"
        /\ FS.exists_ fs m = true.
Proof.
  unfold glob_compile_commands. cbv zeta. rewrite has_magic_base.
  rewrite list_elem_of_In, in_flat_map. split.
  - intros (parent & Hp%list_elem_of_In & Hm%list_elem_of_In).
    apply glob_star_file_elem in Hm as (name & Hname & He & ->).
    by exists parent, name.
  - intros (parent & name & Hp & Hname & -> & He).
    exists parent. split; apply list_elem_of_In; [done|].
    apply glob_star_file_elem. by exists name.
Qed.

(** C3: [GuessBuildDirectory] returns [anchor/build] whenever that path
    exists, whatever the pattern matches; otherwise, when the pattern
    [anchor/../../*/compile_commands.json] has exactly one match, it
    returns the first component of [os.path.split] of that match, which
    is the directory that holds the matched file; it raises, and then
    always [OSError], exactly when [anchor/build] does not exist and the
    number of matches is not one.  The matches are exactly the existing
    files [parent/name/compile_commands.json] for a visible directory
    [name] of [parent], where [parent] is [anchor/../..] itself when the
    anchor holds no glob metacharacter, and otherwise ranges over what the
    anchor, read as a pattern, expands to. *)
Theorem GuessBuildDirectory_cases :
  let build := PosixPath.join anchor "build" in
  let base := PosixPath.join_all anchor [".."; ".."] in
  let dirs := if FS.has_magic anchor then glob_magic base else [base] in
  let matches := glob_compile_commands fs glob_magic anchor in
  (FS.exists_ fs build = true -> GuessBuildDirectory fs glob_magic anchor = Ok build)
  /\ (FS.exists_ fs build = false ->
      forall m, matches = [m] ->
        GuessBuildDirectory fs glob_magic anchor = Ok (PosixPath.split m).1)
  /\ ((exists e, GuessBuildDirectory fs glob_magic anchor = Raise e)
      <-> FS.exists_ fs build = false /\ length matches ≠ 1%nat)
  /\ (forall e, GuessBuildDirectory fs glob_magic anchor = Raise e ->
        e = OSError "Build directory cannot be guessed.")
  /\ (forall m, m ∈ matches
      <-> exists parent name,
            parent ∈ dirs
            /\ name ∈ FS.glob1_star fs parent
            /\ m = PosixPath.join (PosixPath.join parent name) "compile_commands.json"
            /\ FS.exists_ fs m = true)
  /\ (FS.wf fs = true ->
      forall parent name, name ∈ FS.glob1_star fs parent ->
        PosixPath.split
          (PosixPath.join (PosixPath.join parent name) "compile_commands.json")
        = (PosixPath.join parent name, "compile_commands.json")).
Proof.
  intros build base dirs matches. unfold GuessBuildDirectory.
  fold build. fold matches.
  split; [by intros ->|]. split; [by intros -> m ->|].
  split; [|split; [|split]].
  - destruct (FS.exists_ fs build).
    { split; [by intros [e ?]|by intros [? _]]. }
    destruct matches as [|m [|m' l]]; cbn [length Nat.eqb negb].
    + split; [by intros _|by eexists].
    + split; [by intros [e ?]|by intros [_ ?]].
    + split; [by intros _|by eexists].
  - intros e. destruct (FS.exists_ fs build); [done|].
    destruct matches as [|m [|m' l]]; cbn [length Nat.eqb negb]; congruence.
  - intros m. apply glob_compile_commands_elem.
  - intros Hwf parent name Hname.
    destruct (join_wf_name_end parent name (glob1_star_wf _ _ Hwf Hname)) as [Ht Hend].
    by apply split_join_file.
Qed.

End BuildGuess.

(** An existing [build] next to two candidates, a single candidate, no
    candidate at all, and an anchor whose name is itself a pattern: alone it
    matches nothing, and with a sibling that its character class matches the
    search goes through the sibling. *)
Lemma GuessBuildDirectory_cases_witness :
  GuessBuildDirectory two_builds_fs no_magic "/p/q/anchor" = Ok "/p/q/anchor/build"
  /\ GuessBuildDirectory one_build_fs no_magic "/p/q/anchor"
     = Ok "/p/q/anchor/../../out"
  /\ (exists e, GuessBuildDirectory scenario_B_fs no_magic "/anchor" = Raise e)
  /\ (exists e, GuessBuildDirectory bracket_alone_fs no_magic "/p/q/a[n]chor" = Raise e)
  /\ GuessBuildDirectory bracket_fs bracket_glob "/p/q/a[n]chor"
     = Ok "/p/q/anchor/../../out"
  /\ PosixPath.split "/p/q/anchor/../../out/compile_commands.json"
     = ("/p/q/anchor/../../out", "compile_commands.json").
Proof.
  split; [|split; [|split; [|split; [|split]]]].
  - pose proof (GuessBuildDirectory_cases two_builds_fs no_magic "/p/q/anchor") as H.
    cbv zeta in H. destruct H as [H _]. apply H. reflexivity.
  - pose proof (GuessBuildDirectory_cases one_build_fs no_magic "/p/q/anchor") as H.
    cbv zeta in H. destruct H as (_ & H & _).
    apply (H eq_refl "/p/q/anchor/../../out/compile_commands.json"). reflexivity.
  - pose proof (GuessBuildDirectory_cases scenario_B_fs no_magic "/anchor") as H.
    cbv zeta in H. destruct H as (_ & _ & H & _).
    apply H. split; [reflexivity|]. vm_compute. discriminate.
  - pose proof (GuessBuildDirectory_cases bracket_alone_fs no_magic "/p/q/a[n]chor") as H.
    cbv zeta in H. destruct H as (_ & _ & H & _).
    apply H. split; [reflexivity|]. vm_compute. discriminate.
  - pose proof (GuessBuildDirectory_cases bracket_fs bracket_glob "/p/q/a[n]chor") as H.
    cbv zeta in H. destruct H as (_ & H & _).
    apply (H eq_refl "/p/q/anchor/../../out/compile_commands.json"). reflexivity.
  - pose proof (GuessBuildDirectory_cases bracket_fs bracket_glob "/p/q/a[n]chor") as H.
    cbv zeta in H. destruct H as (_ & _ & _ & _ & _ & H).
    apply (H eq_refl "/p/q/anchor/../.." "out"). vm_compute. right. left.
Defined.

Example two_candidates_without_build :
  glob_compile_commands two_builds_fs no_magic "/p/q/other"
  = ["/p/q/other/../../debug/compile_commands.json";
     "/p/q/other/../../release/compile_commands.json"]
  /\ GuessBuildDirectory two_builds_fs no_magic "/p/q/other"
     = Raise (OSError "Build directory cannot be guessed.").
Proof. split; reflexivity. Qed.

(** The anchor is not escaped before it enters the pattern: a directory
    [a[n]chor] is not matched by its own name, so the project's
    [/p/out/compile_commands.json] is not found; once a sibling [anchor]
    exists, the candidates are those of the sibling. *)
Example pattern_in_anchor :
  glob_compile_commands bracket_alone_fs no_magic "/p/q/a[n]chor" = []
  /\ GuessBuildDirectory bracket_alone_fs no_magic "/p/q/a[n]chor"
     = Raise (OSError "Build directory cannot be guessed.")
  /\ FS.exists_ bracket_alone_fs "/p/q/a[n]chor/../../out/compile_commands.json" = true
  /\ glob_compile_commands bracket_fs bracket_glob "/p/q/a[n]chor"
     = ["/p/q/anchor/../../out/compile_commands.json"].
Proof. repeat split; reflexivity. Qed.

(** ** The system-include extraction *)

Section SystemIncludes.

Lemma include_step_fold (lines acc : list string) :
  fold_left include_step lines acc
  = acc ++ flat_map (fun path => ["-isystem"; path])
             (filter (fun p => PyStr.contains p "(framework directory)" = false)
                (filter (fun p => p ≠ EmptyString) (map PyStr.strip lines))).
Proof.
  revert acc. induction lines as [|line lines IH]; intros acc.
  - cbn. by rewrite app_nil_r.
  - cbn [fold_left map]. rewrite IH, filter_cons. unfold include_step at 1.
    destruct (PyStr.strip line) as [|a p] eqn:Hs.
    + cbn [String.length Z.of_nat Z.ltb Z.compare andb].
      by rewrite decide_False by (by intros ?).
    + rewrite decide_True by done. rewrite filter_cons.
      assert ((0 <? Z.of_nat (String.length (String a p))) = true) as ->
          by (apply Z.ltb_lt; cbn [String.length]; lia).
      cbn [andb].
      destruct (PyStr.contains (String a p) "(framework directory)") eqn:Hc; cbn [negb].
      * by rewrite decide_False by done.
      * rewrite decide_True by done. cbn [flat_map].
        by rewrite <- !app_assoc.
Qed.

Lemma drop_exact_split (n : nat) (s rest : string) :
  PyStr.drop_exact n s = Some rest -> exists start, s = start +:+ rest.
Proof.
  revert s. induction n as [|n IH]; intros s.
  - intros [= <-]. by exists "".
  - destruct s as [|a s]; [done|]. cbn [PyStr.drop_exact].
    intros (start & ->)%IH. by exists (String a start).
Qed.

Lemma skip_char_split (s rest : string) :
  skip_char s = Some rest -> exists start, s = start +:+ rest.
Proof.
  destruct s as [|a s]; [done|]. cbn [skip_char].
  intros (start & ->)%drop_exact_split. by exists (String a start).
Qed.

Lemma match_pattern_sound (pat : list (option ascii)) (s rest : string) :
  match_pattern pat s = Some rest -> exists start, s = start +:+ rest.
Proof.
  revert s. induction pat as [|[c|] pat IH]; intros s.
  - intros [= <-]. by exists "".
  - destruct s as [|a s]; [done|]. cbn [match_pattern].
    destruct (Ascii.eqb a c); [|done].
    intros (start & ->)%IH. by exists (String a start).
  - cbn [match_pattern]. destruct (skip_char s) as [mid|] eqn:Hs; [|done].
    apply skip_char_split in Hs as (s1 & ->).
    intros (start & ->)%IH. exists (s1 +:+ start). by rewrite str_app_assoc.
Qed.

Lemma match_pattern_start_literal (rest : string) :
  match_pattern start_marker (start_literal +:+ rest) = Some rest.
Proof. reflexivity. Qed.

Lemma startswith_app_l (s t p : string) :
  PyStr.startswith s p = true -> PyStr.startswith (s +:+ t) p = true.
Proof.
  revert s. induction p as [|a p IH]; intros s; [done|].
  destruct s as [|b s]; [done|]. rewrite str_app_cons. cbn.
  destruct (Ascii.eqb a b); [apply IH|done].
Qed.

Lemma find_sub_found (sub mid post : string) :
  exists r, find_sub sub (mid +:+ sub +:+ post) = Some r.
Proof.
  induction mid as [|a mid [r IH]].
  - rewrite str_app_empty_l. destruct (sub +:+ post) eqn:Hs; cbn [find_sub].
    + rewrite <- Hs, startswith_app. by eexists.
    + rewrite <- Hs, startswith_app. by eexists.
  - rewrite str_app_cons. cbn [find_sub].
    destruct (PyStr.startswith _ sub); [by eexists|].
    rewrite IH. destruct r. by eexists.
Qed.

Lemma find_sub_sound (sub s before after : string) :
  PyStr.truthy sub = true ->
  find_sub sub s = Some (before, after) ->
  s = before +:+ sub +:+ after /\ PyStr.contains before sub = false.
Proof.
  intros Hsub. revert before.
  assert (PyStr.startswith "" sub = false) as Hnil by (by destruct sub).
  induction s as [|a s IH]; intros before.
  - cbn [find_sub]. by rewrite Hnil.
  - cbn [find_sub]. destruct (PyStr.startswith (String a s) sub) eqn:Hs.
    + intros [= <- <-]. split; [by apply startswith_split|].
      cbn. by rewrite Hnil.
    + destruct (find_sub sub s) as [[b r]|]; [|done].
      intros [= <- <-]. destruct (IH b eq_refl) as [-> Hc].
      split; [done|]. cbn [PyStr.contains]. rewrite Hc.
      destruct (PyStr.startswith (String a b) sub) eqn:Hb; [|done].
      apply (startswith_app_l _ (sub +:+ r)) in Hb.
      rewrite str_app_cons in Hb. congruence.
Qed.

(** The leftmost position at which the expression matches. *)
Lemma search_list_leftmost (output region : string) :
  search_list output = Some region ->
  exists pre rest,
    output = pre +:+ rest
    /\ match_here rest = Some region
    /\ forall pre1 rest1,
         output = pre1 +:+ rest1 ->
         (String.length pre1 < String.length pre)%nat ->
         match_here rest1 = None.
Proof.
  induction output as [|a output IH].
  - cbn [search_list]. destruct (match_here "") eqn:Hm; [|done].
    intros [= ->]. exists "", "". split; [done|]. split; [done|].
    intros ? ? _ Hl. cbn in Hl. lia.
  - cbn [search_list]. destruct (match_here (String a output)) eqn:Hm.
    + intros [= ->]. exists "", (String a output). split; [done|]. split; [done|].
      intros ? ? _ Hl. cbn in Hl. lia.
    + intros (pre & rest & -> & Hr & Hleft)%IH.
      exists (String a pre), rest. split; [done|]. split; [done|].
      intros [|b pre1] rest1 Heq Hl.
      * rewrite str_app_empty_l in Heq. by subst rest1.
      * rewrite !str_app_cons in Heq. injection Heq as -> Heq.
        apply (Hleft pre1 rest1 Heq). cbn in Hl. lia.
Qed.

(** Conversely, the search yields the match at a position before which the
    expression matches nowhere. *)
Lemma search_list_at (pre rest region : string) :
  match_here rest = Some region ->
  (forall pre1 rest1,
     pre +:+ rest = pre1 +:+ rest1 ->
     (String.length pre1 < String.length pre)%nat ->
     match_here rest1 = None) ->
  search_list (pre +:+ rest) = Some region.
Proof.
  intros Hm. induction pre as [|a pre IH]; intros Hleft.
  - rewrite str_app_empty_l. destruct rest; cbn [search_list]; by rewrite Hm.
  - rewrite str_app_cons. cbn [search_list].
    rewrite (Hleft "" (String a (pre +:+ rest))); [|done|cbn; lia].
    apply IH. intros pre1 rest1 Heq Hl.
    apply (Hleft (String a pre1) rest1).
    + by rewrite !str_app_cons, Heq.
    + cbn. lia.
Qed.

(** The lazy group stops at the first end marker. *)
Lemma find_sub_first (sub mid post : string) :
  (forall before after,
     mid = before +:+ after -> PyStr.truthy after = true ->
     PyStr.startswith (after +:+ sub +:+ post) sub = false) ->
  find_sub sub (mid +:+ sub +:+ post) = Some (mid, post).
Proof.
  induction mid as [|a mid IH]; intros Hfirst.
  - rewrite str_app_empty_l.
    assert (find_sub sub (sub +:+ post)
            = Some ("", PyStr.drop (String.length sub) (sub +:+ post))) as ->.
    { destruct (sub +:+ post) eqn:Hs; cbn [find_sub]; by rewrite <- Hs, startswith_app. }
    by rewrite str_drop_app.
  - rewrite str_app_cons. cbn [find_sub].
    rewrite <- str_app_cons, (Hfirst "" (String a mid)) by done.
    rewrite IH; [done|]. intros before after -> Ht.
    by apply (Hfirst (String a before) after).
Qed.

Lemma search_list_found (pre mid post : string) :
  exists region,
    search_list (pre +:+ start_literal +:+ mid +:+ end_marker +:+ post) = Some region.
Proof.
  assert (exists region,
            match_here (start_literal +:+ mid +:+ end_marker +:+ post) = Some region)
    as [region Hm].
  { unfold match_here. rewrite match_pattern_start_literal.
    destruct (find_sub_found end_marker mid post) as [[lst r] ->]. by eexists. }
  induction pre as [|a pre [r IH]].
  - rewrite str_app_empty_l. exists region.
    destruct (start_literal +:+ mid +:+ end_marker +:+ post);
      cbn [search_list]; by rewrite Hm.
  - rewrite str_app_cons. cbn [search_list].
    destruct (match_here (String a _)); [by eexists|by exists r].
Qed.

(** C8: whenever the compiler output holds the start marker followed,
    further on, by the end marker, the search succeeds.  The region it
    yields lies between a text that the start pattern matches and the
    first end marker after it, at the leftmost position where the whole
    expression matches; and the extraction returns, for that region, the
    lines trimmed, without the blank ones and without those that contain
    [(framework directory)], each after an [-isystem] token, in the order
    of the lines.  When no match starts before the start marker and no end
    marker starts inside the text that follows it, that text is the
    region. *)
Theorem LoadSystemIncludes_pairs (output : string) :
  (forall pre mid post,
     output = pre +:+ start_literal +:+ mid +:+ end_marker +:+ post ->
     exists region, search_list output = Some region)
  /\ (forall region,
        search_list output = Some region ->
        LoadSystemIncludes output = Ok (isystem_pairs region)
        /\ PyStr.contains region end_marker = false
        /\ exists pre start post,
             output = pre +:+ start +:+ region +:+ end_marker +:+ post
             /\ match_pattern start_marker (start +:+ region +:+ end_marker +:+ post)
                = Some (region +:+ end_marker +:+ post)
             /\ forall pre1 rest1,
                  output = pre1 +:+ rest1 ->
                  (String.length pre1 < String.length pre)%nat ->
                  match_here rest1 = None)
  /\ (forall pre mid post,
        output = pre +:+ start_literal +:+ mid +:+ end_marker +:+ post ->
        (forall pre1 rest1,
           output = pre1 +:+ rest1 ->
           (String.length pre1 < String.length pre)%nat ->
           match_here rest1 = None) ->
        (forall before after,
           mid = before +:+ after -> PyStr.truthy after = true ->
           PyStr.startswith (after +:+ end_marker +:+ post) end_marker = false) ->
        LoadSystemIncludes output = Ok (isystem_pairs mid)).
Proof.
  split.
  { intros pre mid post ->. apply search_list_found. }
  split; cycle 1.
  { intros pre mid post -> Hleft Hfirst.
    unfold LoadSystemIncludes.
    rewrite (search_list_at pre _ mid).
    - f_equal. unfold isystem_pairs. by rewrite include_step_fold.
    - unfold match_here. rewrite match_pattern_start_literal.
      by rewrite find_sub_first.
    - exact Hleft. }
  intros region Hs. split; [|].
  { unfold LoadSystemIncludes. rewrite Hs. f_equal.
    unfold isystem_pairs. by rewrite include_step_fold. }
  apply search_list_leftmost in Hs as (pre & rest & -> & Hm & Hleft).
  unfold match_here in Hm.
  destruct (match_pattern start_marker rest) as [tail|] eqn:Hp; [|done].
  destruct (find_sub end_marker tail) as [[lst post]|] eqn:Hf; [|done].
  injection Hm as ->.
  apply find_sub_sound in Hf as [-> Hc]; [|done].
  split; [exact Hc|].
  destruct (match_pattern_sound _ _ _ Hp) as (start & ->).
  exists pre, start, post. done.
Qed.

End SystemIncludes.

(** The search list of [clang_output]. *)
Lemma LoadSystemIncludes_pairs_witness :
  LoadSystemIncludes clang_output
  = Ok ["-isystem"; "/usr/local/include";
        "-isystem"; "/usr/lib/clang/14.0.0/include";
        "-isystem"; "/usr/include"].
Proof.
  destruct (LoadSystemIncludes_pairs clang_output) as (_ & H & _).
  destruct (H "
 /usr/local/include
 /usr/lib/clang/14.0.0/include
 /System/Library/Frameworks (framework directory)

 /usr/include	
" eq_refl) as [Heq _].
  exact Heq.
Defined.

Example LoadSystemIncludes_without_markers :
  LoadSystemIncludes "clang: error: no input"
  = Raise (AttributeError "'NoneType' object has no attribute 'group'").
Proof. reflexivity. Qed.

(** White space beyond ASCII is trimmed, and a dot of the start pattern
    stands for one character, whatever the number of its bytes: six bytes
    that are two characters do not fill the three dots, and neither does
    the em space alone, which is three bytes. *)
Example LoadSystemIncludes_unicode :
  PyStr.strip (no_break_space +:+ " /usr/include" +:+ em_space +:+ " " +:+ no_break_space)
  = "/usr/include"
  /\ LoadSystemIncludes clang_output_unicode = Ok ["-isystem"; "/usr/include"]
  /\ LoadSystemIncludes clang_output_two_dots
     = Raise (AttributeError "'NoneType' object has no attribute 'group'")
  /\ match_pattern start_marker ("#include <" +:+ em_space +:+ "> search starts here:")
     = None.
Proof. repeat split; reflexivity. Qed.

(** ** Loading the module *)

Example load_module_guesses_includes :
  match load_module
          {| GUESS_BUILD_DIRECTORY := false; GUESS_INCLUDE_PATH := true;
             static_flags := ["-Wall"]; compilation_database_folder := "" |}
          scenario_A_nested_fs no_magic "/anchor" clang_output (fun _ => scenario_D_db)
  with
  | Ok m =>
      flags m = ["-Wall"; "-I/anchor/src/detail";
                 "-isystem"; "/usr/local/include";
                 "-isystem"; "/usr/lib/clang/14.0.0/include";
                 "-isystem"; "/usr/include"]
      /\ database m = None
      /\ db_result (FlagsForFile m scenario_A_nested_fs "/anchor/src/a.hpp")
         = Some {| result_flags := flags m; do_cache := true |}
  | Raise _ => False
  end.
Proof. vm_compute. repeat split. Qed.

Example load_module_without_search_list :
  load_module
    {| GUESS_BUILD_DIRECTORY := true; GUESS_INCLUDE_PATH := false;
       static_flags := []; compilation_database_folder := "" |}
    one_build_fs no_magic "/p/q/anchor" "clang: error" (fun _ => scenario_D_db)
  = Raise (AttributeError "'NoneType' object has no attribute 'group'").
Proof. reflexivity. Qed.

(** * Further properties of the rewrite *)

Section RewriteMore.

Variable wd : string.

Lemma classify_absolute (s : string) :
  PyStr.startswith s "/" = true -> classify s path_flags = PlainToken.
Proof.
  destruct s as [|a s]; [done|]. cbn [PyStr.startswith].
  destruct (Ascii.eqb_spec "/"%char a) as [<-|]; [|done]. intros _. reflexivity.
Qed.

Lemma path_flag_relative (flag : string) :
  flag ∈ path_flags -> PyStr.startswith flag "/" = false.
Proof.
  intros Hin. destruct (PyStr.startswith flag "/") eqn:Hs; [|done].
  apply classify_absolute in Hs. apply classify_path_flag in Hin. congruence.
Qed.

Lemma lookahead_rewrite_absolute (mna : bool) (s : string) :
  PyStr.startswith s "/" = true -> lookahead_rewrite wd mna s = s.
Proof. intros Hs. unfold lookahead_rewrite. by rewrite Hs; destruct mna. Qed.

Lemma lookahead_rewrite_stays_absolute (mna : bool) (s : string) :
  PyStr.startswith wd "/" = true -> mna = true ->
  PyStr.startswith (lookahead_rewrite wd mna s) "/" = true.
Proof.
  intros Hwd ->. unfold lookahead_rewrite.
  destruct (PyStr.startswith s "/") eqn:Hs; cbn [negb]; [done|].
  by apply join_stays_absolute.
Qed.

(** A split token is split at the same path flag when it is read again. *)
Lemma classify_split_again (flag pf x : string) :
  classify flag path_flags = PrefixedPathFlag pf ->
  PyStr.truthy x = true ->
  classify (pf +:+ x) path_flags = PrefixedPathFlag pf.
Proof.
  intros Hc Hx. apply classify_prefixed in Hc as (Hin & _ & _).
  destruct x as [|c x]; [done|]. revert Hin. unfold path_flags.
  rewrite !elem_of_cons, elem_of_nil.
  intros [->|[->|[->|[->|[]]]]]; reflexivity.
Qed.

Lemma rewrite_from_no_empty (mna : bool) (flags : list string) :
  "" ∉ rewrite_from wd mna flags.
Proof.
  revert mna. induction flags as [|flag flags IH]; intros mna.
  - apply not_elem_of_nil.
  - cbn [rewrite_from]. destruct (token_out wd mna flag) as [nf next].
    destruct (PyStr.truthy nf) eqn:Ht; cbn [app]; [|apply IH].
    intros [Heq|Hin]%elem_of_cons; [by rewrite <- Heq in Ht|]. by apply (IH next).
Qed.

Lemma rewrite_from_keeps_length (mna : bool) (flags : list string) :
  PyStr.truthy wd = true -> "" ∉ flags ->
  length (rewrite_from wd mna flags) = length flags.
Proof.
  intros Hwd. revert mna. induction flags as [|flag flags IH]; intros mna Hne; [done|].
  cbn [rewrite_from].
  destruct (PyStr.truthy (token_out wd mna flag).1) eqn:Ht.
  - destruct (token_out wd mna flag) as [nf next]. cbn [fst] in Ht. rewrite Ht.
    cbn [app length]. f_equal. apply IH. intros ?. apply Hne. by right.
  - apply (token_out_falsy wd mna flag Hwd) in Ht as [-> _]. exfalso. apply Hne. left.
Qed.

Lemma rewrite_from_app (mna : bool) (flags1 flags2 : list string) :
  (forall f, last flags1 = Some f -> f ∉ path_flags) ->
  (flags1 = [] -> mna = false) ->
  rewrite_from wd mna (flags1 ++ flags2)
  = rewrite_from wd mna flags1 ++ rewrite_from wd false flags2.
Proof.
  revert mna. induction flags1 as [|flag flags1 IH]; intros mna Hlast Hnil.
  - by rewrite (Hnil eq_refl).
  - cbn [app rewrite_from]. rewrite token_out_classify.
    assert (rewrite_from wd
              (match classify flag path_flags with ExactPathFlag => true | _ => false end)
              (flags1 ++ flags2)
            = rewrite_from wd
                (match classify flag path_flags with ExactPathFlag => true | _ => false end)
                flags1
              ++ rewrite_from wd false flags2) as Hrest.
    { apply IH.
      - intros f Hf. apply Hlast. destruct flags1; [done|]. exact Hf.
      - intros ->. destruct (classify flag path_flags) eqn:Hc; try done.
        apply classify_exact in Hc. by destruct (Hlast flag eq_refl). }
    destruct (classify flag path_flags); rewrite Hrest, <- app_assoc; done.
Qed.

Lemma rewrite_from_idempotent (flags : list string) (mna b : bool) :
  PyStr.startswith wd "/" = true ->
  (b = true -> mna = true) ->
  rewrite_from wd b (rewrite_from wd mna flags) = rewrite_from wd mna flags.
Proof.
  intros Hwd. assert (PyStr.truthy wd = true) as Hwt by (by destruct wd).
  revert mna b. induction flags as [|flag flags IH]; intros mna b Hb; [done|].
  cbn [rewrite_from]. rewrite token_out_classify.
  destruct (classify flag path_flags) as [|pf|] eqn:Hc.
  - apply classify_exact in Hc as Hin.
    rewrite (lookahead_rewrite_truthy wd mna flag (path_flag_truthy _ Hin)).
    cbn [app rewrite_from]. destruct mna.
    + pose proof (lookahead_rewrite_stays_absolute true flag Hwd eq_refl) as Ha.
      rewrite token_out_classify, (classify_absolute _ Ha).
      rewrite (lookahead_rewrite_absolute b _ Ha).
      rewrite (truthy_startswith _ _ Ha eq_refl). cbn [app]. f_equal. by apply IH.
    + assert (b = false) as -> by (destruct b; [by specialize (Hb eq_refl)|done]).
      change (lookahead_rewrite wd false flag) with flag.
      rewrite token_out_classify, (classify_path_flag flag Hin).
      change (lookahead_rewrite wd false flag) with flag.
      rewrite (path_flag_truthy _ Hin). cbn [app].
      f_equal. by apply IH.
  - pose proof (join_truthy wd (PyStr.drop (String.length pf) flag) Hwt) as Hj.
    pose proof (join_stays_absolute wd (PyStr.drop (String.length pf) flag) Hwd) as Ha.
    apply classify_prefixed in Hc as Hpf. destruct Hpf as (Hin & _ & _).
    rewrite (truthy_app_l pf _ (path_flag_truthy _ Hin)).
    cbn [app rewrite_from].
    rewrite token_out_classify, (classify_split_again _ _ _ Hc Hj).
    rewrite str_drop_app, (join_absolute wd _ Ha).
    rewrite (truthy_app_l pf _ (path_flag_truthy _ Hin)). cbn [app]. f_equal.
    by apply IH.
  - destruct mna.
    + pose proof (lookahead_rewrite_stays_absolute true flag Hwd eq_refl) as Ha.
      rewrite (truthy_startswith _ _ Ha eq_refl). cbn [app rewrite_from].
      rewrite token_out_classify, (classify_absolute _ Ha).
      rewrite (lookahead_rewrite_absolute b _ Ha).
      rewrite (truthy_startswith _ _ Ha eq_refl). cbn [app]. f_equal. by apply IH.
    + assert (b = false) as -> by (destruct b; [by specialize (Hb eq_refl)|done]).
      change (lookahead_rewrite wd false flag) with flag.
      destruct (PyStr.truthy flag) eqn:Ht.
      * cbn [app rewrite_from]. rewrite token_out_classify, Hc.
        change (lookahead_rewrite wd false flag) with flag.
        rewrite Ht. cbn [app]. f_equal. by apply IH.
      * cbn [app]. by apply IH.
Qed.

End RewriteMore.

(** X1: with a non-empty working directory the rewritten list never holds
    an empty-string token. *)
Theorem rewritten_flags_have_no_empty_token (flags : list string) (wd : string) :
  PyStr.truthy wd = true ->
  "" ∉ MakeRelativePathsInFlagsAbsolute flags (Some wd).
Proof. intros Hwd. rewrite MakeRelative_rewrite_from by done. apply rewrite_from_no_empty. Qed.

Lemma rewritten_flags_have_no_empty_token_witness :
  "" ∉ MakeRelativePathsInFlagsAbsolute [""; "-I"; ""; "-Wall"; ""] (Some "/w").
Proof. apply rewritten_flags_have_no_empty_token. reflexivity. Defined.

(** X2: a flag list without empty-string tokens keeps its length: empty
    strings are the only tokens the rewrite can drop. *)
Theorem rewrite_keeps_length (flags : list string) (wd : option string) :
  "" ∉ flags ->
  length (MakeRelativePathsInFlagsAbsolute flags wd) = length flags.
Proof.
  intros Hne. destruct wd as [wd|]; [|done].
  destruct (PyStr.truthy wd) eqn:Hwd.
  - rewrite MakeRelative_rewrite_from by done. by apply rewrite_from_keeps_length.
  - unfold MakeRelativePathsInFlagsAbsolute. by rewrite Hwd.
Qed.

Lemma rewrite_keeps_length_witness :
  length (MakeRelativePathsInFlagsAbsolute ["-I"; "-Ifoo"; "-isystem"; "x"; "-DX"]
            (Some "rel")) = 5%nat.
Proof.
  apply (rewrite_keeps_length ["-I"; "-Ifoo"; "-isystem"; "x"; "-DX"] (Some "rel")).
  rewrite !elem_of_cons, elem_of_nil. intros [?|[?|[?|[?|[?|[]]]]]]; discriminate.
Defined.

(** X3: the rewrite of a concatenation is the concatenation of the
    rewrites whenever the first list does not end with an exact path flag
    (no lookahead is pending at the seam). *)
Theorem rewrite_of_concatenation (flags1 flags2 : list string) (wd : option string) :
  (forall f, last flags1 = Some f -> f ∉ path_flags) ->
  MakeRelativePathsInFlagsAbsolute (flags1 ++ flags2) wd
  = MakeRelativePathsInFlagsAbsolute flags1 wd
    ++ MakeRelativePathsInFlagsAbsolute flags2 wd.
Proof.
  intros Hlast. destruct wd as [wd|]; [|done].
  destruct (PyStr.truthy wd) eqn:Hwd.
  - rewrite !MakeRelative_rewrite_from by done. by apply rewrite_from_app.
  - unfold MakeRelativePathsInFlagsAbsolute. by rewrite Hwd.
Qed.

Lemma rewrite_of_concatenation_witness :
  MakeRelativePathsInFlagsAbsolute (["-Wall"; "-Iinc"] ++ ["-isystem"; "sys"]) (Some "/w")
  = MakeRelativePathsInFlagsAbsolute ["-Wall"; "-Iinc"] (Some "/w")
    ++ MakeRelativePathsInFlagsAbsolute ["-isystem"; "sys"] (Some "/w").
Proof.
  apply rewrite_of_concatenation. intros f [= <-].
  unfold path_flags. rewrite !elem_of_cons, elem_of_nil.
  intros [?|[?|[?|[?|[]]]]]; discriminate.
Defined.

(** X4: for a working directory that starts with the separator the rewrite
    is idempotent: rewriting its own output changes nothing. *)
Theorem rewrite_idempotent (flags : list string) (wd : string) :
  PyStr.startswith wd "/" = true ->
  MakeRelativePathsInFlagsAbsolute
    (MakeRelativePathsInFlagsAbsolute flags (Some wd)) (Some wd)
  = MakeRelativePathsInFlagsAbsolute flags (Some wd).
Proof.
  intros Hwd. assert (PyStr.truthy wd = true) as Hwt by (by destruct wd).
  rewrite !MakeRelative_rewrite_from by done. by apply rewrite_from_idempotent.
Qed.

Lemma rewrite_idempotent_witness :
  MakeRelativePathsInFlagsAbsolute
    (MakeRelativePathsInFlagsAbsolute ["-I"; "-Ifoo"; "-I"; "-I"; "x"; ""; "-DX"]
       (Some "/w")) (Some "/w")
  = MakeRelativePathsInFlagsAbsolute ["-I"; "-Ifoo"; "-I"; "-I"; "x"; ""; "-DX"]
      (Some "/w").
Proof. apply rewrite_idempotent. reflexivity. Defined.

Example rewrite_not_idempotent_for_relative_directory :
  MakeRelativePathsInFlagsAbsolute ["-Ifoo"] (Some "w") = ["-Iw/foo"]
  /\ MakeRelativePathsInFlagsAbsolute ["-Iw/foo"] (Some "w") = ["-Iw/w/foo"].
Proof. split; reflexivity. Qed.

(** * Further properties of the classification *)

Section Lowercase.

Lemma lower_char_idempotent (a : ascii) :
  PyStr.lower_char (PyStr.lower_char a) = PyStr.lower_char a.
Proof. by destruct a as [[] [] [] [] [] [] [] []]. Qed.

Lemma lower_char_sep (a : ascii) :
  Ascii.eqb (PyStr.lower_char a) PosixPath.sep = Ascii.eqb a PosixPath.sep.
Proof. by destruct a as [[] [] [] [] [] [] [] []]. Qed.

Lemma lower_char_extsep (a : ascii) :
  Ascii.eqb (PyStr.lower_char a) PosixPath.extsep = Ascii.eqb a PosixPath.extsep.
Proof. by destruct a as [[] [] [] [] [] [] [] []]. Qed.

Lemma lower_idempotent (s : string) : PyStr.lower (PyStr.lower s) = PyStr.lower s.
Proof.
  induction s as [|a s IH]; [done|]. cbn [PyStr.lower].
  by rewrite lower_char_idempotent, IH.
Qed.

Lemma length_lower (s : string) : String.length (PyStr.lower s) = String.length s.
Proof. induction s as [|a s IH]; [done|]. cbn. by rewrite IH. Qed.

Lemma lower_take (n : nat) (s : string) :
  PyStr.lower (PyStr.take n s) = PyStr.take n (PyStr.lower s).
Proof.
  revert s. induction n as [|n IH]; intros [|a s]; try done.
  cbn. by rewrite IH.
Qed.

Lemma lower_drop (n : nat) (s : string) :
  PyStr.lower (PyStr.drop n s) = PyStr.drop n (PyStr.lower s).
Proof. revert s. induction n as [|n IH]; intros [|a s]; try done. cbn. apply IH. Qed.

Lemma rfind_from_lower (c : ascii) (s : string) (i acc : Z) :
  (forall a, Ascii.eqb (PyStr.lower_char a) c = Ascii.eqb a c) ->
  PyStr.rfind_from c (PyStr.lower s) i acc = PyStr.rfind_from c s i acc.
Proof.
  intros Hc. revert i acc. induction s as [|a s IH]; intros i acc; [done|].
  cbn [PyStr.lower PyStr.rfind_from]. by rewrite Hc, IH.
Qed.

Lemma eqb_lower_dot (x : string) :
  String.eqb (PyStr.lower x) "." = String.eqb x ".".
Proof.
  destruct x as [|a [|b x]]; [done| |];
    pose proof (lower_char_extsep a) as Ha; unfold PosixPath.extsep in Ha;
    cbn [PyStr.lower String.eqb]; rewrite Ha; by destruct (Ascii.eqb a ".").
Qed.

Lemma splitext_scan_lower (p : string) (i d : Z) (n : nat) :
  PosixPath.splitext_scan (PyStr.lower p) i d n
  = (PyStr.lower (PosixPath.splitext_scan p i d n).1,
     PyStr.lower (PosixPath.splitext_scan p i d n).2).
Proof.
  revert i. induction n as [|n IH]; intros i; [done|].
  cbn [PosixPath.splitext_scan]. destruct (i <? d); [|done].
  unfold PyStr.slice. rewrite <- !lower_drop, <- !lower_take, eqb_lower_dot.
  destruct (negb _); [done|]. apply IH.
Qed.

Lemma splitext_lower (p : string) :
  PosixPath.splitext (PyStr.lower p)
  = (PyStr.lower (PosixPath.splitext p).1, PyStr.lower (PosixPath.splitext p).2).
Proof.
  unfold PosixPath.splitext, PyStr.rfind.
  rewrite !rfind_from_lower by (apply lower_char_sep || apply lower_char_extsep).
  rewrite length_lower. destruct (_ <? _); [|done]. apply splitext_scan_lower.
Qed.

Lemma IsHeaderFile_lower (filename : string) :
  IsHeaderFile (PyStr.lower filename) = IsHeaderFile filename.
Proof.
  unfold IsHeaderFile. rewrite splitext_lower. cbn [snd].
  by rewrite lower_idempotent.
Qed.

End Lowercase.

(** X5: the classification of a file name is case-insensitive: two names
    that differ only in the case of their letters are both headers or both
    not. *)
Theorem IsHeaderFile_case_insensitive (filename1 filename2 : string) :
  PyStr.lower filename1 = PyStr.lower filename2 ->
  IsHeaderFile filename1 = IsHeaderFile filename2.
Proof.
  intros H. by rewrite <- (IsHeaderFile_lower filename1), H, IsHeaderFile_lower.
Qed.

Lemma IsHeaderFile_case_insensitive_witness :
  IsHeaderFile "Src/Foo.HPP" = IsHeaderFile "src/foo.hpp".
Proof. apply IsHeaderFile_case_insensitive. reflexivity. Defined.

(** * Further properties of the directory scan *)

Section ScanMore.

Lemma startswith_refl (s : string) : PyStr.startswith s s = true.
Proof. induction s as [|a s IH]; [done|]. cbn. by rewrite Ascii.eqb_refl. Qed.

Lemma startswith_trans (a b c : string) :
  PyStr.startswith a b = true -> PyStr.startswith b c = true ->
  PyStr.startswith a c = true.
Proof.
  intros Hab%startswith_split Hbc%startswith_split.
  rewrite Hab, Hbc, str_app_assoc. apply startswith_app.
Qed.

Lemma join_startswith (path name : string) :
  FS.wf_name name = true -> PyStr.startswith (PosixPath.join path name) path = true.
Proof.
  intros Hwf.
  destruct (join_relative path name (wf_name_relative _ Hwf)) as (glue & _ & ->).
  apply startswith_app.
Qed.

(** Every directory reported by a walk has the top of the walk as a
    prefix of its path. *)
Lemma walk_node_prefix (n : node) :
  FS.wf_node n = true ->
  forall (top : string) (e : string * list string * list string),
    e ∈ FS.walk_node top n -> PyStr.startswith e.1.1 top = true.
Proof.
  induction n as [|es IH] using node_nested_ind; intros Hwf top e.
  { by intros ?%elem_of_nil. }
  cbn [FS.walk_node]. intros [->|He]%elem_of_cons; [apply startswith_refl|].
  apply wf_node_Dir in Hwf. revert He.
  induction es as [|[name child] es IHes]; [by intros ?%elem_of_nil|].
  apply Forall_cons in IH as [IHc IH]. apply Forall_cons in Hwf as [[Hname Hchild] Hwf].
  cbn [fst snd] in *.
  intros [He|He]%elem_of_app; [|by apply IHes].
  apply (startswith_trans _ (PosixPath.join top name)); [by apply IHc|].
  by apply join_startswith.
Qed.

Lemma walk_below (fs : filesystem) (root : string)
    (e : string * list string * list string) :
  FS.wf fs = true -> e ∈ tail (FS.walk fs root) ->
  PyStr.startswith e.1.1 root = true
  /\ (String.length root < String.length e.1.1)%nat.
Proof.
  intros Hwf He. unfold FS.walk in He.
  destruct (FS.resolve fs root) as [n|] eqn:Hn; [|by apply elem_of_nil in He].
  apply resolve_wf in Hn; [|done]. split.
  - apply (walk_node_prefix n Hn). destruct (FS.walk_node root n); [done|by right].
  - by apply (walk_node_below n Hn).
Qed.

Lemma TraverseByDepth_elem (fs : filesystem) (root d : string)
    (include_extensions : option (gset string)) :
  d ∈ TraverseByDepth fs root include_extensions ->
  exists e, e ∈ tail (FS.walk fs root) /\ e.1.1 = d.
Proof.
  rewrite TraverseByDepth_walk, elem_of_list_to_set.
  intros (e & -> & He)%list_elem_of_fmap.
  apply list_elem_of_filter in He as [_ He]. by exists e.
Qed.

Lemma filter_selected_all (exts : option (gset string))
    (l : list (string * list string * list string)) :
  (forall e, selected exts e = true) ->
  filter (fun e => selected exts e = true) l = l.
Proof.
  intros Hall. induction l as [|e l IH]; [done|].
  rewrite filter_cons, decide_True by done. by rewrite IH.
Qed.

Lemma set_map_lower_nonempty (exts : gset string) :
  (set_map PyStr.lower exts : gset string) ≠ ∅ <-> exts ≠ ∅.
Proof.
  split.
  - intros Hne ->. apply Hne. apply set_map_empty.
  - intros (x & Hx)%set_choose_L He.
    assert (PyStr.lower x ∈ (∅ : gset string)) as Hin; [|by apply not_elem_of_empty in Hin].
    rewrite <- He. apply elem_of_map. by exists x.
Qed.

Lemma set_map_lower_idempotent (exts : gset string) :
  (set_map PyStr.lower (set_map PyStr.lower exts : gset string) : gset string)
  = set_map PyStr.lower exts.
Proof.
  apply set_eq. intros x. rewrite !elem_of_map. split.
  - intros (y & -> & (z & -> & Hz)%elem_of_map).
    exists z. by rewrite lower_idempotent.
  - intros (z & -> & Hz). exists (PyStr.lower z).
    rewrite lower_idempotent. split; [done|]. apply elem_of_map. by exists z.
Qed.

Lemma TraverseByDepth_None_walk (fs : filesystem) (root : string) :
  TraverseByDepth fs root None
  = list_to_set (map (fun e => e.1.1) (tail (FS.walk fs root))).
Proof. rewrite TraverseByDepth_walk. by rewrite filter_selected_all. Qed.

End ScanMore.

(** X6: on a well-formed tree every directory that [TraverseByDepth]
    returns lies strictly below the root: the root is a proper prefix of its
    path.  The root itself is never returned, whatever the filter is. *)
Theorem TraverseByDepth_below_root (fs : filesystem) (root d : string)
    (include_extensions : option (gset string)) :
  FS.wf fs = true ->
  d ∈ TraverseByDepth fs root include_extensions ->
  PyStr.startswith d root = true
  /\ (String.length root < String.length d)%nat
  /\ d ≠ root.
Proof.
  intros Hwf (e & He & <-)%TraverseByDepth_elem.
  destruct (walk_below fs root e Hwf He) as [Hp Hl].
  split; [done|]. split; [done|]. intros Heq. rewrite Heq in Hl. lia.
Qed.

Lemma TraverseByDepth_below_root_witness :
  PyStr.startswith "/anchor/src/detail" "/anchor/src" = true
  /\ (String.length "/anchor/src" < String.length "/anchor/src/detail")%nat
  /\ "/anchor/src/detail" ≠ "/anchor/src".
Proof.
  apply (TraverseByDepth_below_root scenario_A_nested_fs "/anchor/src" "/anchor/src/detail"
           (Some (list_to_set HEADER_EXTENSIONS))); [reflexivity|].
  apply TraverseByDepth_headers.
  exists [], ["b.HH"], "b.HH". split; [|split; [left|reflexivity]].
  apply list_elem_of_In. vm_compute. by left.
Defined.

(** X7: without a filter, and likewise with an empty filter,
    [TraverseByDepth] returns every directory that the walk reports after
    the root, whatever the directories hold. *)
Theorem TraverseByDepth_unfiltered (fs : filesystem) (root : string) :
  TraverseByDepth fs root None
  = list_to_set (map (fun e => e.1.1) (tail (FS.walk fs root)))
  /\ TraverseByDepth fs root (Some ∅) = TraverseByDepth fs root None.
Proof.
  split; [apply TraverseByDepth_None_walk|]. rewrite !TraverseByDepth_walk.
  - rewrite !filter_selected_all; [done|done|].
    intros e. unfold lowered, selected.
    rewrite bool_decide_eq_false_2 by (by intros H; apply H).
    by rewrite bool_decide_eq_false_2 by (by intros H; apply H).
Qed.

(** X8: the filter is case-insensitive: a filter and its lower-cased form
    select the same directories. *)
Theorem TraverseByDepth_filter_case_insensitive (fs : filesystem) (root : string)
    (exts : gset string) :
  TraverseByDepth fs root (Some (set_map PyStr.lower exts))
  = TraverseByDepth fs root (Some exts).
Proof.
  rewrite !TraverseByDepth_walk. unfold lowered.
  destruct (decide (exts = ∅)) as [->|Hne].
  - by rewrite set_map_empty.
  - rewrite !bool_decide_eq_true_2 by (done || by apply set_map_lower_nonempty).
    by rewrite set_map_lower_idempotent.
Qed.

(** X9: a filter only removes directories: the filtered result is a subset
    of the unfiltered one. *)
Theorem TraverseByDepth_filter_subset (fs : filesystem) (root : string)
    (include_extensions : option (gset string)) :
  TraverseByDepth fs root include_extensions ⊆ TraverseByDepth fs root None.
Proof.
  intros d (e & He & <-)%TraverseByDepth_elem.
  rewrite TraverseByDepth_None_walk.
  apply elem_of_list_to_set, list_elem_of_fmap. by exists e.
Qed.

(** X10: when the root does not exist, or is a file, the scan returns the
    empty set. *)
Theorem TraverseByDepth_not_a_directory (fs : filesystem) (root : string)
    (include_extensions : option (gset string)) :
  (forall es, FS.resolve fs root ≠ Some (Dir es)) ->
  TraverseByDepth fs root include_extensions = ∅.
Proof.
  intros Hnot. rewrite TraverseByDepth_walk. unfold FS.walk.
  destruct (FS.resolve fs root) as [[|es]|] eqn:Hr; [done| |done].
  by destruct (Hnot es).
Qed.

Lemma TraverseByDepth_not_a_directory_witness :
  TraverseByDepth scenario_A_fs "/anchor/src/a.hpp" None = ∅
  /\ TraverseByDepth scenario_A_fs "/anchor/missing" None = ∅.
Proof.
  split; apply TraverseByDepth_not_a_directory; intros es; vm_compute; discriminate.
Defined.

(** * Further properties of the guessers *)

Section GuessMore.

Variable fs : filesystem.
Variable anchor : string.

Lemma first_existing_spec (candidates : list string) :
  match first_existing fs anchor candidates with
  | Ok d =>
      exists pre c post,
        candidates = pre ++ c :: post
        /\ d = PosixPath.join anchor c
        /\ FS.exists_ fs d = true
        /\ Forall (fun c' => FS.exists_ fs (PosixPath.join anchor c') = false) pre
  | Raise e =>
      e = OSError "Source directory cannot be guessed."
      /\ Forall (fun c => FS.exists_ fs (PosixPath.join anchor c) = false) candidates
  end.
Proof.
  induction candidates as [|c cs IH]; [done|]. cbn [first_existing].
  destruct (FS.exists_ fs (PosixPath.join anchor c)) eqn:He.
  - by exists [], c, cs.
  - destruct (first_existing fs anchor cs) as [d|e].
    + destruct IH as (pre & c' & post & -> & -> & Hd & Hpre).
      exists (c :: pre), c', post. repeat split; try done. by constructor.
    + destruct IH as [-> Hall]. split; [done|]. by constructor.
Qed.

Lemma GuessIncludeDirectory_sets :
  GuessIncludeDirectory fs anchor
  = Ok (map (fun d => "-I" +:+ d) (elements (source_set fs anchor))
        ++ map (fun d => "-I" +:+ d)
             (elements (first_external fs anchor ["include"; "includes"]))).
Proof.
  unfold GuessIncludeDirectory, source_set.
  pose proof (first_existing_spec ["src"; "source"; "lib"; PosixPath.basename anchor]) as Hs.
  fold (GuessSourceDirectory fs anchor) in Hs.
  destruct (GuessSourceDirectory fs anchor) as [d|e]; [done|].
  by destruct Hs as [-> _].
Qed.

Lemma GuessIncludeDirectory_elem (l : list string) (x : string) :
  GuessIncludeDirectory fs anchor = Ok l ->
  x ∈ l <->
  (exists d, d ∈ source_set fs anchor /\ x = "-I" +:+ d)
  \/ (exists d, d ∈ first_external fs anchor ["include"; "includes"] /\ x = "-I" +:+ d).
Proof.
  rewrite GuessIncludeDirectory_sets. intros [= <-].
  rewrite elem_of_app, !list_elem_of_fmap.
  by setoid_rewrite elem_of_elements; split; intros [(d & ? & ?)|(d & ? & ?)];
    [left|right|left|right]; exists d.
Qed.

Lemma source_set_absolute (d : string) :
  FS.wf fs = true -> PyStr.startswith anchor "/" = true ->
  d ∈ source_set fs anchor -> PyStr.startswith d "/" = true.
Proof.
  intros Hwf Habs. unfold source_set.
  destruct (GuessSourceDirectory fs anchor) as [g|e]; [|by intros ?%not_elem_of_empty].
  intros (e & He & <-)%TraverseByDepth_elem.
  apply (startswith_trans _ (PosixPath.join anchor g)).
  - by destruct (walk_below fs _ e Hwf He).
  - by apply join_stays_absolute.
Qed.

Lemma first_external_absolute (names : list string) (d : string) :
  FS.wf fs = true -> PyStr.startswith anchor "/" = true ->
  d ∈ first_external fs anchor names -> PyStr.startswith d "/" = true.
Proof.
  intros Hwf Habs. induction names as [|name names IH]; [by intros ?%not_elem_of_empty|].
  cbn [first_external]. destruct (FS.exists_ fs (PosixPath.join anchor name)); [|done].
  intros (e & He & <-)%TraverseByDepth_elem.
  apply (startswith_trans _ (PosixPath.join anchor name)).
  - by destruct (walk_below fs _ e Hwf He).
  - by apply join_stays_absolute.
Qed.

End GuessMore.

Lemma include_flags_absolute (l : list string) :
  Forall (fun x => exists d, x = "-I" +:+ d /\ PyStr.startswith d "/" = true) l ->
  paths_absolute false l = true /\ "" ∉ l.
Proof.
  induction 1 as [|x l (d & -> & Hd) _ [IH1 IH2]]; [split; [done|apply not_elem_of_nil]|].
  destruct d as [|a d]; [done|]. cbn [PyStr.startswith] in Hd.
  destruct (Ascii.eqb_spec "/"%char a) as [<-|]; [|done].
  split.
  - cbn [paths_absolute].
    change (classify ("-I" +:+ String "/" d) path_flags) with (PrefixedPathFlag "-I").
    cbn [andb]. exact IH1.
  - intros [?|?]%elem_of_cons; [done|by apply IH2].
Qed.

Lemma MakeRelative_absolute_list (wd : option string) (flags : list string) :
  paths_absolute false flags = true -> "" ∉ flags ->
  MakeRelativePathsInFlagsAbsolute flags wd = flags.
Proof.
  intros Habs Hne. destruct wd as [wd|]; [|done].
  destruct (PyStr.truthy wd) eqn:Hwd.
  - rewrite MakeRelative_rewrite_from by done. by apply rewrite_from_absolute.
  - unfold MakeRelativePathsInFlagsAbsolute. by rewrite Hwd.
Qed.

(** X11: [GuessSourceDirectory] returns the first of [src], [source],
    [lib] and the anchor's own name that exists under the anchor, so [src]
    wins whenever it exists; it raises, and then [OSError], exactly when
    none of the four exists. *)
Theorem GuessSourceDirectory_priority (fs : filesystem) (anchor : string) :
  let candidates := ["src"; "source"; "lib"; PosixPath.basename anchor] in
  (FS.exists_ fs (PosixPath.join anchor "src") = true ->
     GuessSourceDirectory fs anchor = Ok (PosixPath.join anchor "src"))
  /\ match GuessSourceDirectory fs anchor with
     | Ok d =>
         exists pre c post,
           candidates = pre ++ c :: post
           /\ d = PosixPath.join anchor c
           /\ FS.exists_ fs d = true
           /\ Forall (fun c' => FS.exists_ fs (PosixPath.join anchor c') = false) pre
     | Raise e =>
         e = OSError "Source directory cannot be guessed."
         /\ Forall (fun c => FS.exists_ fs (PosixPath.join anchor c) = false) candidates
     end.
Proof.
  intros candidates. split.
  - intros Hsrc. unfold GuessSourceDirectory. cbn [first_existing]. by rewrite Hsrc.
  - apply first_existing_spec.
Qed.

Lemma GuessSourceDirectory_priority_witness :
  GuessSourceDirectory scenario_A_nested_fs "/anchor" = Ok "/anchor/src".
Proof.
  destruct (GuessSourceDirectory_priority scenario_A_nested_fs "/anchor") as [H _].
  apply H. reflexivity.
Defined.

(** X12: [GuessIncludeDirectory] never raises: the [OSError] of the
    source-directory guess is absorbed; and every entry of the list it
    returns starts with [-I]. *)
Theorem GuessIncludeDirectory_never_raises (fs : filesystem) (anchor : string) :
  exists l,
    GuessIncludeDirectory fs anchor = Ok l
    /\ Forall (fun x => PyStr.startswith x "-I" = true) l.
Proof.
  eexists. split; [apply GuessIncludeDirectory_sets|].
  apply Forall_app. split; apply Forall_forall; intros x (d & -> & _)%list_elem_of_fmap;
    apply (startswith_app "-I").
Qed.

(** X13: when [include] exists under the anchor, the guess consists of the
    source-derived directories and of every directory the walk reports
    below [include], with or without header files; [includes] is not
    consulted. *)
Theorem include_folder_listed_unconditionally (fs : filesystem) (anchor : string)
    (l : list string) (x : string) :
  FS.exists_ fs (PosixPath.join anchor "include") = true ->
  GuessIncludeDirectory fs anchor = Ok l ->
  x ∈ l <->
  (exists d, d ∈ source_set fs anchor /\ x = "-I" +:+ d)
  \/ (exists e, e ∈ tail (FS.walk fs (PosixPath.join anchor "include"))
                /\ x = "-I" +:+ e.1.1).
Proof.
  intros Hinc Hl. rewrite (GuessIncludeDirectory_elem fs anchor l x Hl).
  cbn [first_external]. rewrite Hinc.
  rewrite TraverseByDepth_None_walk.
  setoid_rewrite elem_of_list_to_set. setoid_rewrite list_elem_of_fmap.
  split; (intros [?|H]; [by left|right]).
  - destruct H as (d & (e & -> & He) & ->). by exists e.
  - destruct H as (e & He & ->). exists e.1.1. split; [by exists e|done].
Qed.

Lemma include_folder_listed_unconditionally_witness :
  "-I/anchor/include/vendor"
  ∈ ["-I/anchor/lib/core"; "-I/anchor/include/vendor"].
Proof.
  apply (include_folder_listed_unconditionally include_tree_fs "/anchor");
    [reflexivity|reflexivity|].
  right. exists ("/anchor/include/vendor", [], ["README"]). split; [|reflexivity].
  apply list_elem_of_In. vm_compute. by left.
Defined.

(** X14: on a well-formed tree and for an absolute anchor, the guessed
    include flags are fixed points of the path rewrite: [FlagsForFile]
    hands them on unchanged, whatever the working directory is. *)
Theorem guessed_flags_survive_rewrite (fs : filesystem) (anchor : string)
    (l : list string) (wd : option string) :
  FS.wf fs = true ->
  PyStr.startswith anchor "/" = true ->
  GuessIncludeDirectory fs anchor = Ok l ->
  MakeRelativePathsInFlagsAbsolute l wd = l.
Proof.
  intros Hwf Habs Hl.
  destruct (include_flags_absolute l) as [Hp Hne]; [|by apply MakeRelative_absolute_list].
  apply Forall_forall. intros x Hx.
  apply (GuessIncludeDirectory_elem fs anchor l x Hl) in Hx as [(d & Hd & ->)|(d & Hd & ->)];
    exists d; split; try done.
  - by apply (source_set_absolute fs anchor).
  - by apply (first_external_absolute fs anchor ["include"; "includes"]).
Qed.

Lemma guessed_flags_survive_rewrite_witness :
  MakeRelativePathsInFlagsAbsolute ["-I/anchor/lib/core"; "-I/anchor/include/vendor"]
    (Some "/elsewhere")
  = ["-I/anchor/lib/core"; "-I/anchor/include/vendor"].
Proof.
  apply (guessed_flags_survive_rewrite include_tree_fs "/anchor"); reflexivity.
Defined.

Example includes_folder_ignored_next_to_include :
  GuessIncludeDirectory include_tree_fs "/anchor"
  = Ok ["-I/anchor/lib/core"; "-I/anchor/include/vendor"].
Proof. reflexivity. Qed.

(** * Further properties of the database lookup *)

Section LookupMore.

Variable db : Database.
Variable fs : filesystem.

Lemma try_source_extensions_in_order (base : string) (exts log : list string) :
  exists qs,
    (try_source_extensions db fs base exts log).2 = log ++ qs
    /\ qs `sublist_of` map (String.app base) exts.
Proof.
  revert log. induction exts as [|ext exts IH]; intros log.
  - exists []. by rewrite app_nil_r.
  - cbn [try_source_extensions map].
    destruct (FS.exists_ fs (base +:+ ext)).
    + unfold db_bind, db_query.
      destruct (compiler_flags_ (db (base +:+ ext))).
      * destruct (IH (log ++ [base +:+ ext])) as (qs & -> & Hqs).
        exists ((base +:+ ext) :: qs). rewrite <- app_assoc. split; [done|].
        by apply sublist_skip.
      * exists [base +:+ ext]. split; [done|]. apply sublist_skip, sublist_nil_l.
    + destruct (IH log) as (qs & -> & Hqs). exists qs. split; [done|].
      by apply sublist_cons.
Qed.

Lemma find_none_iff {A : Type} (f : A -> bool) (l : list A) :
  find f l = None <-> forall x, x ∈ l -> f x = false.
Proof.
  split.
  - intros H x Hx%list_elem_of_In. by apply (find_none f l H).
  - induction l as [|a l IH]; [done|]. intros H. cbn [find].
    rewrite (H a) by left. apply IH. intros x Hx. apply H. by right.
Qed.

End LookupMore.

(** X15: for a header, the paths sent to the database follow the order of
    [SOURCE_EXTENSIONS], each at most once, so at most six lookups are made;
    a record that is returned has a non-empty flag list; and the result is
    null exactly when no source extension qualifies. *)
Theorem header_lookup_in_order (db : Database) (fs : filesystem) (filename : string) :
  IsHeaderFile filename = true ->
  let base := (PosixPath.splitext filename).1 in
  let lookup := GetCompilationInfoForFile (Some db) fs filename in
  db_queries lookup `sublist_of` map (String.app base) SOURCE_EXTENSIONS
  /\ (length (db_queries lookup) <= 6)%nat
  /\ (forall info, db_result lookup = Some info -> compiler_flags_ info ≠ [])
  /\ (db_result lookup = None
      <-> forall ext, ext ∈ SOURCE_EXTENSIONS -> qualifies db fs base ext = false).
Proof.
  intros Hh base lookup. subst lookup. unfold GetCompilationInfoForFile.
  rewrite Hh. fold base. unfold db_result, db_queries.
  destruct (try_source_extensions_in_order db fs base SOURCE_EXTENSIONS [])
    as (qs & -> & Hqs).
  cbn [app]. split; [done|]. split.
  { apply sublist_length in Hqs. by rewrite length_map in Hqs. }
  rewrite try_source_extensions_result. split.
  - intros info.
    destruct (find (qualifies db fs base) SOURCE_EXTENSIONS) as [ext|] eqn:Hf; [|done].
    intros [= <-]. apply find_some in Hf as [_ Hq].
    unfold qualifies in Hq. apply andb_prop in Hq as [_ Hq].
    by destruct (compiler_flags_ (db (base +:+ ext))).
  - rewrite <- find_none_iff.
    by destruct (find (qualifies db fs base) SOURCE_EXTENSIONS).
Qed.

Lemma header_lookup_in_order_witness :
  (length (db_queries
             (GetCompilationInfoForFile (Some scenario_D_db) scenario_D_fs "/p/foo.h"))
   <= 6)%nat.
Proof.
  destruct (header_lookup_in_order scenario_D_db scenario_D_fs "/p/foo.h" eq_refl)
    as (_ & H & _).
  exact H.
Defined.

(** X16: with a database handle, a file that is not a header is looked up
    under its own name, once, and the result is never null: its flags are
    the record's flags made absolute, followed by the system includes.  For
    a file the database does not know (an empty record) the result holds
    the system includes only; the static flags are not used. *)
Theorem source_file_never_null (m : module_state) (fs : filesystem) (db : Database)
    (filename : string) :
  database m = Some db ->
  IsHeaderFile filename = false ->
  db_queries (FlagsForFile m fs filename) = [filename]
  /\ db_result (FlagsForFile m fs filename)
     = Some {| result_flags :=
                 MakeRelativePathsInFlagsAbsolute (compiler_flags_ (db filename))
                   (Some (compiler_working_dir_ (db filename)))
                 ++ system_includes m;
               do_cache := true |}
  /\ (compiler_flags_ (db filename) = [] ->
      db_result (FlagsForFile m fs filename)
      = Some {| result_flags := system_includes m; do_cache := true |}).
Proof.
  intros Hdb Hh.
  unfold FlagsForFile, GetCompilationInfoForFile, db_queries, db_result.
  rewrite Hdb, Hh. unfold db_bind, db_query, db_ret. cbn [fst snd app].
  split; [done|]. split; [done|]. intros ->.
  by destruct (PyStr.truthy (compiler_working_dir_ (db filename)));
    unfold MakeRelativePathsInFlagsAbsolute;
    destruct (PyStr.truthy (compiler_working_dir_ (db filename))).
Qed.

Lemma source_file_never_null_witness :
  db_result (FlagsForFile scenario_D_module scenario_D_fs "/p/unknown.cpp")
  = Some {| result_flags := ["-isystem"; "/usr/include/c++"]; do_cache := true |}.
Proof.
  destruct (source_file_never_null scenario_D_module scenario_D_fs scenario_D_db
              "/p/unknown.cpp" eq_refl eq_refl) as (_ & _ & H).
  exact (H eq_refl).
Defined.

(** * Further properties of the system-include extraction *)

Section StripFacts.

Lemma lstrip_eq (s : string) :
  PyStr.lstrip s
  = match PyStr.ws_len s with
    | O => s
    | S _ => PyStr.lstrip (PyStr.drop (PyStr.ws_len s) s)
    end.
Proof.
  destruct s as [|a [|b [|c s]]]; cbn [PyStr.lstrip PyStr.ws_len]; try done.
  - by destruct (PyStr.is_space a).
  - destruct (PyStr.is_space a); [done|]. by destruct (PyStr.is_space2 a b).
  - destruct (PyStr.is_space a); [done|]. destruct (PyStr.is_space2 a b); [done|].
    by destruct (PyStr.is_space3 a b c).
Qed.

Lemma ws_len_bound (s : string) : (PyStr.ws_len s <= String.length s)%nat.
Proof.
  destruct s as [|a [|b [|c s]]]; cbn [PyStr.ws_len String.length]; try lia.
  - destruct (PyStr.is_space a); lia.
  - destruct (PyStr.is_space a); [lia|]. destruct (PyStr.is_space2 a b); lia.
  - destruct (PyStr.is_space a); [lia|]. destruct (PyStr.is_space2 a b); [lia|].
    destruct (PyStr.is_space3 a b c); lia.
Qed.

Lemma ws_len_app (s t : string) :
  PyStr.ws_len s ≠ 0%nat -> PyStr.ws_len (s +:+ t) = PyStr.ws_len s.
Proof.
  destruct s as [|a [|b [|c s]]]; try done; rewrite ?str_app_cons, ?str_app_empty_l;
    cbn [PyStr.ws_len]; destruct (PyStr.is_space a); try done.
  destruct (PyStr.is_space2 a b); done.
Qed.

Lemma length_drop (n : nat) (s : string) :
  String.length (PyStr.drop n s) = (String.length s - n)%nat.
Proof. revert s. induction n as [|n IH]; intros [|a s]; cbn; try done; lia. Qed.

Lemma drop_app_le (n : nat) (s t : string) :
  (n <= String.length s)%nat -> PyStr.drop n (s +:+ t) = PyStr.drop n s +:+ t.
Proof.
  revert s. induction n as [|n IH]; intros s Hn; [done|].
  destruct s as [|a s]; [cbn in Hn; lia|]. rewrite str_app_cons. cbn [PyStr.drop].
  apply IH. cbn in Hn. lia.
Qed.

Lemma lstrip_ws_len (s : string) : PyStr.ws_len (PyStr.lstrip s) = 0%nat.
Proof.
  remember (String.length s) as n eqn:Hn. revert s Hn.
  induction n as [n IH] using lt_wf_ind. intros s ->. rewrite lstrip_eq.
  destruct (PyStr.ws_len s) as [|k] eqn:Hk; [done|].
  apply (IH (String.length (PyStr.drop (S k) s))); [|done].
  rewrite length_drop. pose proof (ws_len_bound s). lia.
Qed.

Lemma lstrip_fixed (s : string) : PyStr.ws_len s = 0%nat -> PyStr.lstrip s = s.
Proof. intros H. by rewrite lstrip_eq, H. Qed.

Lemma lstrip_app (u w : string) :
  PyStr.lstrip u = "" -> PyStr.lstrip (u +:+ w) = PyStr.lstrip w.
Proof.
  remember (String.length u) as n eqn:Hn. revert u Hn.
  induction n as [n IH] using lt_wf_ind. intros u -> Hu.
  rewrite lstrip_eq in Hu. destruct (PyStr.ws_len u) as [|k] eqn:Hk.
  - by subst u.
  - rewrite (lstrip_eq (u +:+ w)), ws_len_app, Hk by lia.
    pose proof (ws_len_bound u). rewrite drop_app_le by lia.
    apply (IH (String.length (PyStr.drop (S k) u))); [|done|done].
    rewrite length_drop. lia.
Qed.

Lemma all_space_app (u w : string) :
  PyStr.all_space u = true -> PyStr.all_space w = true ->
  PyStr.all_space (u +:+ w) = true.
Proof.
  unfold PyStr.all_space. intros Hu Hw.
  apply negb_true_iff, truthy_false_iff in Hu. by rewrite lstrip_app.
Qed.

Lemma rstrip_split (s : string) :
  exists w, s = PyStr.rstrip s +:+ w /\ PyStr.all_space w = true.
Proof.
  induction s as [|a s (w & Hs & Hw)]; [by exists ""|].
  cbn [PyStr.rstrip]. destruct (PyStr.all_space (String a s)) eqn:Ha.
  - by exists (String a s).
  - exists w. rewrite str_app_cons. by rewrite <- Hs.
Qed.

Lemma rstrip_idempotent (s : string) : PyStr.rstrip (PyStr.rstrip s) = PyStr.rstrip s.
Proof.
  induction s as [|a s IH]; [done|]. cbn [PyStr.rstrip].
  destruct (PyStr.all_space (String a s)) eqn:Ha; [done|].
  cbn [PyStr.rstrip]. rewrite IH.
  destruct (PyStr.all_space (String a (PyStr.rstrip s))) eqn:Hr; [|done].
  destruct (rstrip_split s) as (w & Hs & Hw).
  pose proof (all_space_app _ _ Hr Hw) as Hall.
  rewrite str_app_cons, <- Hs in Hall. congruence.
Qed.

Lemma rstrip_ws_len (t : string) :
  PyStr.ws_len t = 0%nat -> PyStr.ws_len (PyStr.rstrip t) = 0%nat.
Proof.
  intros Ht. destruct (rstrip_split t) as (w & Hs & _).
  destruct (PyStr.ws_len (PyStr.rstrip t)) as [|k] eqn:Hk; [done|].
  rewrite Hs, ws_len_app in Ht by lia. lia.
Qed.

Lemma strip_idempotent (s : string) : PyStr.strip (PyStr.strip s) = PyStr.strip s.
Proof.
  unfold PyStr.strip.
  rewrite (lstrip_fixed (PyStr.rstrip (PyStr.lstrip s)))
    by apply rstrip_ws_len, lstrip_ws_len.
  apply rstrip_idempotent.
Qed.

Lemma contains_app_l (s t sub : string) :
  PyStr.contains s sub = true -> PyStr.contains (s +:+ t) sub = true.
Proof.
  induction s as [|a s IH].
  - rewrite str_app_empty_l. destruct sub as [|c sub]; [by destruct t|done].
  - rewrite str_app_cons. cbn [PyStr.contains].
    destruct (PyStr.startswith (String a s) sub) eqn:Hs.
    + intros _. apply (startswith_app_l _ t) in Hs. rewrite str_app_cons in Hs.
      by rewrite Hs.
    + intros H. rewrite (IH H). by destruct (PyStr.startswith (String a (s +:+ t)) sub).
Qed.

Lemma contains_app_r (s t sub : string) :
  PyStr.contains t sub = true -> PyStr.contains (s +:+ t) sub = true.
Proof.
  intros Ht. induction s as [|a s IH]; [done|]. rewrite str_app_cons.
  cbn [PyStr.contains]. rewrite IH.
  by destruct (PyStr.startswith (String a (s +:+ t)) sub).
Qed.

Lemma contains_here (sub t : string) : PyStr.contains (sub +:+ t) sub = true.
Proof.
  destruct (sub +:+ t) eqn:Hs; cbn [PyStr.contains]; by rewrite <- Hs, startswith_app.
Qed.

Lemma match_pattern_app (p1 p2 : list (option ascii)) (s : string) :
  match_pattern (p1 ++ p2) s
  = match match_pattern p1 s with
    | Some mid => match_pattern p2 mid
    | None => None
    end.
Proof.
  revert s. induction p1 as [|[c|] p1 IH]; intros s; [done| |].
  - destruct s as [|a s]; [done|]. cbn [app match_pattern].
    destruct (Ascii.eqb a c); [apply IH|done].
  - cbn [app match_pattern]. destruct (skip_char s); [apply IH|done].
Qed.

Lemma match_pattern_literal (lit s rest : string) :
  match_pattern (literal lit) s = Some rest -> s = lit +:+ rest.
Proof.
  revert s. induction lit as [|c lit IH]; intros s.
  - by intros [= <-].
  - destruct s as [|a s]; [done|]. unfold literal. cbn [String.list_ascii_of_string map].
    cbn [match_pattern]. destruct (Ascii.eqb_spec a c) as [->|]; [|done].
    intros H. rewrite str_app_cons. f_equal. by apply IH.
Qed.

Lemma search_list_markers (output region : string) :
  search_list output = Some region ->
  PyStr.contains output "> search starts here:" = true
  /\ PyStr.contains output end_marker = true.
Proof.
  intros (pre & rest & -> & Hm & _)%search_list_leftmost.
  unfold match_here in Hm.
  destruct (match_pattern start_marker rest) as [tail|] eqn:Hp; [|done].
  destruct (find_sub end_marker tail) as [[lst post]|] eqn:Hf; [|done].
  apply find_sub_sound in Hf as [-> _]; [|done].
  destruct (match_pattern_sound _ _ _ Hp) as (start & Hrest).
  split.
  - apply contains_app_r. unfold start_marker in Hp. rewrite match_pattern_app in Hp.
    destruct (match_pattern (literal "#include <") rest) as [m1|] eqn:H1; [|done].
    rewrite match_pattern_app in Hp.
    destruct (match_pattern [None; None; None] m1) as [m2|] eqn:H2; [|done].
    apply match_pattern_sound in H1 as (s1 & ->).
    apply match_pattern_sound in H2 as (s2 & ->).
    apply match_pattern_literal in Hp as ->.
    apply contains_app_r, contains_app_r, contains_here.
  - apply contains_app_r. rewrite Hrest.
    apply contains_app_r, contains_app_r, contains_here.
Qed.

Lemma LoadSystemIncludes_region (output : string) (l : list string) :
  LoadSystemIncludes output = Ok l ->
  exists region, search_list output = Some region /\ l = isystem_pairs region.
Proof.
  unfold LoadSystemIncludes. destruct (search_list output) as [region|]; [|done].
  intros [= <-]. exists region. split; [done|].
  unfold isystem_pairs. by rewrite include_step_fold.
Qed.

Lemma length_isystem (paths : list string) :
  length (flat_map (fun p => ["-isystem"; p]) paths) = (2 * length paths)%nat.
Proof. induction paths as [|p paths IH]; [done|]. cbn [flat_map app length]. lia. Qed.

End StripFacts.

(** X17: the list that [LoadSystemIncludes] returns is a sequence of
    pairs: an [-isystem] token followed by a path; no path is empty, has
    white space at either end or contains [(framework directory)]. *)
Theorem system_includes_are_pairs (output : string) (l : list string) :
  LoadSystemIncludes output = Ok l ->
  exists paths,
    l = flat_map (fun p => ["-isystem"; p]) paths
    /\ length l = (2 * length paths)%nat
    /\ Forall (fun p => p ≠ "" /\ PyStr.strip p = p
                        /\ PyStr.contains p "(framework directory)" = false) paths.
Proof.
  intros (region & _ & ->)%LoadSystemIncludes_region. unfold isystem_pairs.
  eexists. split; [done|]. split; [apply length_isystem|].
  apply Forall_forall. intros p [Hfw Hp]%list_elem_of_filter.
  apply list_elem_of_filter in Hp as [Hne Hp].
  apply list_elem_of_fmap in Hp as (line & -> & _).
  split; [done|]. split; [apply strip_idempotent|done].
Qed.

Lemma system_includes_are_pairs_witness :
  exists paths,
    ["-isystem"; "/usr/local/include"; "-isystem"; "/usr/lib/clang/14.0.0/include";
     "-isystem"; "/usr/include"]
    = flat_map (fun p => ["-isystem"; p]) paths
    /\ 6%nat = (2 * length paths)%nat
    /\ Forall (fun p => p ≠ "" /\ PyStr.strip p = p
                        /\ PyStr.contains p "(framework directory)" = false) paths.
Proof. apply (system_includes_are_pairs clang_output). reflexivity. Defined.

(** X18: when the compiler output lacks the text [> search starts here:]
    or the text [End of search list], the extraction raises
    [AttributeError] (the search yields no match object). *)
Theorem LoadSystemIncludes_without_marker (output : string) :
  PyStr.contains output "> search starts here:" = false
  \/ PyStr.contains output end_marker = false ->
  LoadSystemIncludes output
  = Raise (AttributeError "'NoneType' object has no attribute 'group'").
Proof.
  intros Hno. unfold LoadSystemIncludes.
  destruct (search_list output) as [region|] eqn:Hs; [|done].
  apply search_list_markers in Hs as [H1 H2]. destruct Hno; congruence.
Qed.

Lemma LoadSystemIncludes_without_marker_witness :
  LoadSystemIncludes "#include <...> search starts here:
 /usr/include
"
  = Raise (AttributeError "'NoneType' object has no attribute 'group'").
Proof. apply LoadSystemIncludes_without_marker. right. reflexivity. Defined.

(** * Further properties of the build-directory guess and of the module *)

Section ModuleMore.

Lemma split_go_app (c : ascii) (s t cur : string) :
  PyStr.split_go c (s +:+ String c t) cur
  = PyStr.split_go c s cur ++ PyStr.split_go c t "".
Proof.
  revert cur. induction s as [|a s IH]; intros cur.
  - rewrite str_app_empty_l. cbn [PyStr.split_go]. by rewrite Ascii.eqb_refl.
  - rewrite str_app_cons. cbn [PyStr.split_go].
    destruct (Ascii.eqb a c); [|apply IH]. cbn [app]. f_equal. apply IH.
Qed.

Lemma resolve_from_prefix (l1 l2 : list string) (stack : list node) (cur n : node) :
  FS.resolve_from stack cur (l1 ++ l2) = Some n ->
  exists n', FS.resolve_from stack cur l1 = Some n'.
Proof.
  revert stack cur. induction l1 as [|c cs IH]; intros stack cur; [by eexists|].
  cbn [app FS.resolve_from]. destruct cur as [|es]; [done|].
  destruct (String.eqb c "" || String.eqb c "."); [apply IH|].
  destruct (String.eqb c "..").
  - destruct stack; apply IH.
  - destruct (FS.lookup_entry c es); [apply IH|done].
Qed.

(** A path exists only if the path before its last separator exists. *)
Lemma exists_parent (fs : filesystem) (d f : string) :
  PyStr.truthy d = true ->
  FS.exists_ fs (d +:+ "/" +:+ f) = true -> FS.exists_ fs d = true.
Proof.
  intros Hd. unfold FS.exists_, FS.resolve.
  rewrite Hd, (truthy_app_l d _ Hd). cbn [negb].
  assert (PyStr.startswith (d +:+ "/" +:+ f) "/" = PyStr.startswith d "/") as ->.
  { destruct d as [|a d]; [done|]. by rewrite str_app_cons. }
  assert ((if PyStr.startswith d "/" then d +:+ "/" +:+ f
           else fs_cwd fs +:+ "/" +:+ d +:+ "/" +:+ f)
          = (if PyStr.startswith d "/" then d else fs_cwd fs +:+ "/" +:+ d)
            +:+ String "/" f) as ->.
  { destruct (PyStr.startswith d "/"); [done|]. by rewrite !str_app_assoc. }
  unfold PyStr.split, PosixPath.sep. rewrite split_go_app.
  destruct (FS.resolve_from [] (Dir (fs_root fs)) (_ ++ _)) as [n|] eqn:Hr; [|done].
  apply resolve_from_prefix in Hr as [n' ->]. done.
Qed.

Lemma glob1_star_not_hidden (fs : filesystem) (base name : string) :
  name ∈ FS.glob1_star fs base -> PyStr.startswith name "." = false.
Proof.
  unfold FS.glob1_star.
  destruct (FS.resolve fs base) as [[|es]|]; try by intros ?%elem_of_nil.
  intros [Hh _]%list_elem_of_filter. unfold FS.ishidden in Hh.
  by destruct (PyStr.startswith name ".").
Qed.

Lemma GuessBuildDirectory_ok (fs : filesystem) (glob_magic : glob_oracle)
    (anchor d : string) :
  FS.wf fs = true ->
  GuessBuildDirectory fs glob_magic anchor = Ok d ->
  d = PosixPath.join anchor "build" /\ FS.exists_ fs d = true
  \/ FS.exists_ fs (PosixPath.join anchor "build") = false
     /\ exists parent name,
          d = PosixPath.join parent name
          /\ parent ∈ (if FS.has_magic anchor
                       then glob_magic (PosixPath.join_all anchor [".."; ".."])
                       else [PosixPath.join_all anchor [".."; ".."]])
          /\ name ∈ FS.glob1_star fs parent
          /\ glob_compile_commands fs glob_magic anchor
             = [PosixPath.join d "compile_commands.json"]
          /\ FS.exists_ fs (PosixPath.join d "compile_commands.json") = true
          /\ FS.exists_ fs d = true.
Proof.
  intros Hwf. unfold GuessBuildDirectory.
  destruct (FS.exists_ fs (PosixPath.join anchor "build")) eqn:Hb.
  { intros [= <-]. by left. }
  destruct (glob_compile_commands fs glob_magic anchor) as [|m [|m' l]] eqn:Hg;
    cbn [length Nat.eqb negb]; try done.
  intros Heq. assert (d = (PosixPath.split m).1) as -> by congruence. clear Heq.
  right. split; [done|].
  assert (m ∈ glob_compile_commands fs glob_magic anchor) as Hm by (rewrite Hg; left).
  apply glob_compile_commands_elem in Hm as (parent & name & Hp & Hname & -> & He).
  pose proof (glob1_star_wf fs _ _ Hwf Hname) as Hwfn.
  destruct (join_wf_name_end parent name Hwfn) as [Ht Hend].
  destruct (split_join_file _ "compile_commands.json" Ht Hend eq_refl) as [Hj Hsp].
  rewrite Hsp. cbn [fst]. exists parent, name. split; [done|].
  split; [done|]. split; [done|]. split; [done|].
  split; [done|]. rewrite Hj in He. by apply exists_parent in He.
Qed.

Lemma GuessBuildDirectory_raises_OSError (fs : filesystem) (glob_magic : glob_oracle)
    (anchor : string) (e : exn) :
  GuessBuildDirectory fs glob_magic anchor = Raise e ->
  e = OSError "Build directory cannot be guessed.".
Proof.
  unfold GuessBuildDirectory. destruct (FS.exists_ fs _); [done|].
  destruct (glob_compile_commands fs glob_magic anchor) as [|m [|m' l]];
    cbn [length Nat.eqb negb]; congruence.
Qed.

End ModuleMore.

(** X19: on a well-formed tree, a directory that [GuessBuildDirectory]
    returns exists; it is [anchor/build], or else the directory of the only
    match of the pattern: a visible entry [name] of a directory [parent],
    so that a [compile_commands.json] inside a hidden directory is never a
    candidate.  The [parent] is [anchor/../..] when the anchor holds no
    glob metacharacter; otherwise it is one of the directories that the
    anchor, read as a pattern, expands to. *)
Theorem guessed_build_directory_exists (fs : filesystem) (glob_magic : glob_oracle)
    (anchor d : string) :
  FS.wf fs = true ->
  GuessBuildDirectory fs glob_magic anchor = Ok d ->
  FS.exists_ fs d = true
  /\ (d = PosixPath.join anchor "build"
      \/ exists parent name,
           d = PosixPath.join parent name
           /\ (if FS.has_magic anchor
               then parent ∈ glob_magic (PosixPath.join_all anchor [".."; ".."])
               else parent = PosixPath.join_all anchor [".."; ".."])
           /\ name ∈ FS.glob1_star fs parent
           /\ PyStr.startswith name "." = false
           /\ FS.exists_ fs (PosixPath.join d "compile_commands.json") = true).
Proof.
  intros Hwf Hd.
  destruct (GuessBuildDirectory_ok fs glob_magic anchor d Hwf Hd)
    as [[-> He]|(_ & parent & name & -> & Hp & Hname & _ & Hc & He)].
  - split; [done|by left].
  - split; [done|]. right. exists parent, name. split; [done|].
    split.
    { destruct (FS.has_magic anchor); [done|].
      by apply list_elem_of_singleton in Hp. }
    split; [done|]. split; [|done].
    by apply (glob1_star_not_hidden fs parent).
Qed.

Lemma guessed_build_directory_exists_witness :
  (FS.exists_ one_build_fs "/p/q/anchor/../../out" = true
   /\ ("/p/q/anchor/../../out" = PosixPath.join "/p/q/anchor" "build"
       \/ exists parent name,
            "/p/q/anchor/../../out" = PosixPath.join parent name
            /\ parent = PosixPath.join_all "/p/q/anchor" [".."; ".."]
            /\ name ∈ FS.glob1_star one_build_fs parent
            /\ PyStr.startswith name "." = false
            /\ FS.exists_ one_build_fs
                 (PosixPath.join "/p/q/anchor/../../out" "compile_commands.json")
               = true))
  /\ (FS.exists_ bracket_fs "/p/q/anchor/../../out" = true
      /\ ("/p/q/anchor/../../out" = PosixPath.join "/p/q/a[n]chor" "build"
          \/ exists parent name,
               "/p/q/anchor/../../out" = PosixPath.join parent name
               /\ parent ∈ bracket_glob (PosixPath.join_all "/p/q/a[n]chor" [".."; ".."])
               /\ name ∈ FS.glob1_star bracket_fs parent
               /\ PyStr.startswith name "." = false
               /\ FS.exists_ bracket_fs
                    (PosixPath.join "/p/q/anchor/../../out" "compile_commands.json")
                  = true)).
Proof.
  split.
  - apply (guessed_build_directory_exists one_build_fs no_magic "/p/q/anchor");
      reflexivity.
  - apply (guessed_build_directory_exists bracket_fs bracket_glob "/p/q/a[n]chor");
      reflexivity.
Defined.

(** X20: loading the module raises only when the system-include
    extraction raises, and then with its exception: the errors of the
    guessers are absorbed.  When it succeeds, the module's flags are the
    static flags, then the guessed include flags (none when the option is
    off), then the system includes. *)
Theorem load_module_outcome (opts : options) (fs : filesystem)
    (glob_magic : glob_oracle) (anchor output : string)
    (open_database : string -> Database) :
  match load_module opts fs glob_magic anchor output open_database with
  | Ok m =>
      exists guessed,
        LoadSystemIncludes output = Ok (system_includes m)
        /\ flags m = (static_flags opts ++ guessed) ++ system_includes m
        /\ (if GUESS_INCLUDE_PATH opts
            then GuessIncludeDirectory fs anchor = Ok guessed
            else guessed = [])
        /\ anchor_directory m = anchor
  | Raise e => LoadSystemIncludes output = Raise e
  end.
Proof.
  unfold load_module.
  assert (exists guessed,
            (if GUESS_INCLUDE_PATH opts
             then py_bind (GuessIncludeDirectory fs anchor)
                    (fun guessed => Ok (static_flags opts ++ guessed))
             else Ok (static_flags opts)) = Ok (static_flags opts ++ guessed)
            /\ (if GUESS_INCLUDE_PATH opts
                then GuessIncludeDirectory fs anchor = Ok guessed
                else guessed = [])) as (guessed & -> & Hg).
  { destruct (GUESS_INCLUDE_PATH opts).
    - rewrite GuessIncludeDirectory_sets. by eexists.
    - exists []. by rewrite app_nil_r. }
  cbn [py_bind].
  assert (exists folder,
            (if GUESS_BUILD_DIRECTORY opts
             then except_OSError (GuessBuildDirectory fs glob_magic anchor) ""
             else Ok (compilation_database_folder opts)) = Ok folder) as (folder & ->).
  { destruct (GUESS_BUILD_DIRECTORY opts); [|by eexists].
    destruct (GuessBuildDirectory fs glob_magic anchor) as [d|e] eqn:Hb; [by eexists|].
    apply GuessBuildDirectory_raises_OSError in Hb as ->. by eexists. }
  cbn [py_bind].
  destruct (LoadSystemIncludes output) as [sys|e]; cbn [py_bind]; [|done].
  by exists guessed.
Qed.

(** X21: on a well-formed tree, with the build-directory guess enabled,
    the loaded module has a database handle exactly when the guess
    succeeds; the handle is then opened on the guessed directory. *)
Theorem guessed_database_present (opts : options) (fs : filesystem)
    (glob_magic : glob_oracle) (anchor output : string)
    (open_database : string -> Database) (m : module_state) :
  FS.wf fs = true ->
  GUESS_BUILD_DIRECTORY opts = true ->
  load_module opts fs glob_magic anchor output open_database = Ok m ->
  match GuessBuildDirectory fs glob_magic anchor with
  | Ok d => database m = Some (open_database d)
  | Raise _ => database m = None
  end.
Proof.
  intros Hwf Hopt. unfold load_module. rewrite Hopt.
  destruct (if GUESS_INCLUDE_PATH opts then _ else _) as [fl|e]; [|done].
  cbn [py_bind].
  destruct (GuessBuildDirectory fs glob_magic anchor) as [d|e] eqn:Hb.
  - cbn [except_OSError py_bind].
    destruct (GuessBuildDirectory_ok fs glob_magic anchor d Hwf Hb)
      as [[_ He]|(_ & parent & name & _ & _ & _ & _ & _ & He)]; rewrite He;
      destruct (LoadSystemIncludes output); cbn [py_bind]; try done;
      by intros [= <-].
  - apply GuessBuildDirectory_raises_OSError in Hb as ->.
    cbn [except_OSError py_bind].
    destruct (LoadSystemIncludes output); cbn [py_bind]; [|done].
    by intros [= <-].
Qed.

Lemma guessed_database_present_witness :
  match load_module
          {| GUESS_BUILD_DIRECTORY := true; GUESS_INCLUDE_PATH := false;
             static_flags := []; compilation_database_folder := "" |}
          one_build_fs no_magic "/p/q/anchor" clang_output (fun _ => scenario_D_db)
  with
  | Ok m => database m = Some scenario_D_db
  | Raise _ => False
  end.
Proof.
  pose proof (guessed_database_present
                {| GUESS_BUILD_DIRECTORY := true; GUESS_INCLUDE_PATH := false;
                   static_flags := []; compilation_database_folder := "" |}
                one_build_fs no_magic "/p/q/anchor" clang_output
                (fun _ => scenario_D_db)) as H.
  destruct (load_module _ one_build_fs no_magic "/p/q/anchor" clang_output _)
    as [m|e] eqn:Hm.
  - exact (H m eq_refl eq_refl eq_refl).
  - vm_compute in Hm. discriminate Hm.
Defined.

(** * The anchor directory *)

Section Anchor.

Lemma normpath_absolute (path : string) :
  PyStr.startswith path "/" = true -> PyStr.startswith (normpath path) "/" = true.
Proof.
  intros Hp. unfold normpath, initial_slashes.
  rewrite (truthy_startswith _ _ Hp eq_refl), Hp. cbn [negb].
  by destruct (PyStr.startswith path "//" && negb (PyStr.startswith path "///")).
Qed.

Lemma abspath_absolute (cwd path : string) :
  PyStr.startswith cwd "/" = true -> PyStr.startswith (abspath cwd path) "/" = true.
Proof.
  intros Hc. unfold abspath. apply normpath_absolute.
  destruct (PyStr.startswith path "/") eqn:Hp; cbn [negb]; [done|].
  by apply join_stays_absolute.
Qed.

Lemma rstrip_char_empty (c : ascii) (s : string) :
  PyStr.rstrip_char c s = "" -> PyStr.all_char c s = true.
Proof.
  induction s as [|a s IH]; [done|]. cbn [PyStr.rstrip_char PyStr.all_char].
  destruct (PyStr.rstrip_char c s); [|done].
  destruct (Ascii.eqb a c); [|done]. intros _. by apply IH.
Qed.

Lemma rstrip_char_head (c a : ascii) (s : string) :
  PyStr.rstrip_char c (String a s) = ""
  \/ exists r, PyStr.rstrip_char c (String a s) = String a r.
Proof.
  cbn [PyStr.rstrip_char]. destruct (PyStr.rstrip_char c s); [|right; by eexists].
  destruct (Ascii.eqb a c); [by left|right; by eexists].
Qed.

Lemma rstrip_char_end (c : ascii) (s : string) :
  PyStr.endswith_char (PyStr.rstrip_char c s) c = false.
Proof.
  induction s as [|a s IH]; [done|]. cbn [PyStr.rstrip_char].
  destruct (PyStr.rstrip_char c s) as [|b r].
  - destruct (Ascii.eqb a c) eqn:Ha; [done|]. cbn. exact Ha.
  - exact IH.
Qed.

Lemma rfind_head (c : ascii) (s : string) : 0 <= PyStr.rfind (String c s) c.
Proof.
  unfold PyStr.rfind. cbn [PyStr.rfind_from]. rewrite Ascii.eqb_refl.
  destruct (rfind_from_bounds c s (0 + 1) 0) as [->|H]; lia.
Qed.

Lemma dirname_absolute (p : string) :
  PyStr.startswith p "/" = true ->
  PyStr.startswith (dirname p) "/" = true
  /\ (PyStr.all_char PosixPath.sep (dirname p) = true
      \/ PyStr.endswith_char (dirname p) PosixPath.sep = false).
Proof.
  destruct p as [|a p]; [done|]. cbn [PyStr.startswith].
  destruct (Ascii.eqb_spec "/"%char a) as [<-|]; [|done]. intros _.
  unfold dirname, PosixPath.split. cbn [fst].
  pose proof (rfind_head PosixPath.sep p) as Hr. unfold PosixPath.sep in Hr.
  unfold PyStr.slice. rewrite Z.sub_0_r. change (Z.to_nat 0) with 0%nat.
  cbn [PyStr.drop].
  destruct (Z.to_nat (PyStr.rfind (String "/" p) PosixPath.sep + 1)) as [|n] eqn:Hn.
  { unfold PosixPath.sep in Hn. lia. }
  cbn [PyStr.take PyStr.truthy andb].
  destruct (PyStr.all_char PosixPath.sep (String "/" (PyStr.take n p))) eqn:Ha;
    cbn [negb].
  - split; [done|by left].
  - destruct (rstrip_char_head PosixPath.sep "/" (PyStr.take n p)) as [He|[r He]].
    + apply rstrip_char_empty in He. congruence.
    + split; [by rewrite He|]. right. apply rstrip_char_end.
Qed.

End Anchor.

(** X22: for an absolute working directory, [DirectoryOfThisScript] is an
    absolute path, and it does not end with the separator unless it
    consists of separators only (the root). *)
Theorem DirectoryOfThisScript_absolute (cwd file : string) :
  PyStr.startswith cwd "/" = true ->
  PyStr.startswith (DirectoryOfThisScript cwd file) "/" = true
  /\ (PyStr.all_char PosixPath.sep (DirectoryOfThisScript cwd file) = true
      \/ PyStr.endswith_char (DirectoryOfThisScript cwd file) PosixPath.sep = false).
Proof.
  intros Hc. unfold DirectoryOfThisScript. apply dirname_absolute.
  by apply abspath_absolute.
Qed.

Lemma DirectoryOfThisScript_absolute_witness :
  PyStr.startswith (DirectoryOfThisScript "/home/u/proj" "conf/../.ycm_extra_conf.py") "/"
  = true
  /\ (PyStr.all_char PosixPath.sep
        (DirectoryOfThisScript "/home/u/proj" "conf/../.ycm_extra_conf.py") = true
      \/ PyStr.endswith_char
           (DirectoryOfThisScript "/home/u/proj" "conf/../.ycm_extra_conf.py")
           PosixPath.sep = false).
Proof. apply DirectoryOfThisScript_absolute. reflexivity. Defined.

Example DirectoryOfThisScript_examples :
  DirectoryOfThisScript "/home/u/proj" "conf/../.ycm_extra_conf.py" = "/home/u/proj"
  /\ DirectoryOfThisScript "/home/u" "/etc/ycm/conf.py" = "/etc/ycm"
  /\ DirectoryOfThisScript "/" "conf.py" = "/".
Proof. repeat split; reflexivity. Qed.
